(** * The QA smoke-test driver (scripts/qa-smoke-test.py), the routes of the
      fixture it tests (src/fixture) and the test harness
      (scripts/test-browser-agent.py), embedded in Rocq.

    The driver is a sequential Python script.  Its values are decoded JSON
    (dicts keep their insertion order), its functions talk to the network,
    the clock, the file system and a subprocess, and some of its expressions
    raise on values of the wrong shape.  The embedding keeps all three:
    - JSON values are an inductive type, dicts are association lists;
    - every call to the outside world asks a [runtime] for the answer and is
      written to a trace;
    - an expression that can raise returns a [result].

    Lines written with [log] go to stderr and are not part of the trace; an
    argument of [log] that can raise is kept as a check at the same place.

    What the embedding takes from outside the script: [repr] and
    [str.strip] are builtins of the interpreter and fields of the runtime;
    writing a file, printing and sleeping succeed; [subprocess.run]
    completes, ends in one of the three ways the script catches, or raises
    another exception, which the script lets through; [json.load] on a file
    returns the decoded value, finds no file, or fails otherwise. *)

From Stdlib Require Import ZArith Ascii String List Bool Lia.
From Stdlib Require Import Floats.PrimFloat DecimalString.
Import ListNotations.
Open Scope string_scope.
Open Scope Z_scope.
Open Scope list_scope.
Set Warnings "-register-all".

(** ** Decoded JSON, as [json.loads] returns it *)

Inductive json : Type :=
| JNull                                   (* None *)
| JBool (b : bool)
| JInt (n : Z)
| JFloat (x : float)
| JStr (s : string)
| JList (items : list json)
| JDict (items : list (string * json)).   (* insertion ordered *)

Definition dict : Type := list (string * json).

(** An f-string is the concatenation of its parts. *)
Definition fstr (parts : list string) : string := String.concat "" parts.

(** [str(n)] for an int. *)
Definition str_of_Z (n : Z) : string := NilZero.string_of_int (Z.to_int n).

(** [d.get(k)] seen from inside the dict: the value, if the key is there. *)
Fixpoint lookup (k : string) (d : dict) : option json :=
  match d with
  | [] => None
  | (k', v) :: rest => if String.eqb k k' then Some v else lookup k rest
  end.

(** [d[k] = v]: an existing key keeps its place, a new key goes last. *)
Fixpoint assign (k : string) (v : json) (d : dict) : dict :=
  match d with
  | [] => [(k, v)]
  | (k', v') :: rest =>
      if String.eqb k k' then (k', v) :: rest else (k', v') :: assign k v rest
  end.

(** [k in d] *)
Definition has_key (k : string) (d : dict) : bool :=
  match lookup k d with Some _ => true | None => false end.

(** [list(d.keys())] *)
Definition keys (d : dict) : list string := map fst d.

(** [d.get(k, default)] on a dict. *)
Definition get_or (k : string) (default : json) (d : dict) : json :=
  match lookup k d with Some v => v | None => default end.

(** [d[k1][k2] = v] where [d[k1]] is a dict (the driver only does this on
    [result["steps"]], which it created as [{}]). *)
Definition assign_in (k1 k2 : string) (v : json) (d : dict) : dict :=
  match lookup k1 d with
  | Some (JDict inner) => assign k1 (JDict (assign k2 v inner)) d
  | _ => d
  end.

(** Truth value of a decoded JSON value ([bool(v)]). *)
Definition truthy (v : json) : bool :=
  match v with
  | JNull => false
  | JBool b => b
  | JInt n => negb (n =? 0)
  | JFloat x => negb (PrimFloat.eqb x 0%float)
  | JStr s => negb (String.eqb s "")
  | JList items => match items with [] => false | _ :: _ => true end
  | JDict items => match items with [] => false | _ :: _ => true end
  end.

(** [v == s] for a string literal [s]: only an equal string is equal. *)
Definition eq_str (v : json) (s : string) : bool :=
  match v with JStr s' => String.eqb s' s | _ => false end.

(** ** Exceptions *)

Inductive exn : Type :=
| AttributeError
| TypeError
| KeyError
| IndexError
| Uncaught (cls : string).   (* raised by the outside world and caught nowhere:
                                the name of its class *)

Inductive result (A : Type) : Type :=
| Ok (a : A)
| Raised (e : exn).
Arguments Ok {A} a.
Arguments Raised {A} e.

(** [v.get(k, default)]: only a dict has [.get]. *)
Definition get (v : json) (k : string) (default : json) : result json :=
  match v with
  | JDict d => Ok (get_or k default d)
  | _ => Raised AttributeError
  end.

(** [d[k]] on a dict built by the driver itself. *)
Definition getitem (d : dict) (k : string) : result json :=
  match lookup k d with Some v => Ok v | None => Raised KeyError end.

(** [v[k]] with a string key on a decoded value. *)
Definition subscript (v : json) (k : string) : result json :=
  match v with
  | JDict d => getitem d k
  | _ => Raised TypeError
  end.

(** [lst[i]] for a list of ints and a non-negative index. *)
Definition index (l : list Z) (i : Z) : result Z :=
  match nth_error l (Z.to_nat i) with
  | Some x => Ok x
  | None => Raised IndexError
  end.

(** The characters of a string, each as a string of length one. *)
Fixpoint chars (s : string) : list json :=
  match s with
  | EmptyString => []
  | String c rest => JStr (String c EmptyString) :: chars rest
  end.

(** [for x in v]: lists give their items, dicts their keys, strings their
    characters; nothing else is iterable. *)
Definition iterate (v : json) : result (list json) :=
  match v with
  | JList items => Ok items
  | JDict d => Ok (map JStr (keys d))
  | JStr s => Ok (chars s)
  | _ => Raised TypeError
  end.

(** [range(n)] *)
Definition range (n : Z) : list Z := map Z.of_nat (seq 0 (Z.to_nat n)).

(** ** The outside world *)

(** What [json.loads(x.read().decode("utf-8"))] does with a response. *)
Inductive payload : Type :=
| Decoded (v : json)
| Undecodable (msg : string)   (* UnicodeDecodeError / JSONDecodeError, str(e) *)
| ReadFailed (msg : string).   (* read() itself raised: the connection broke *)

(** What [urllib.request.urlopen] does with a request. *)
Inductive urlopen_outcome : Type :=
| Response (status : Z) (body : payload)                  (* returns resp *)
| HTTPError (code : Z) (reason : string) (body : payload) (* raises HTTPError *)
| URLError (reason : string)       (* raises URLError; str(e.reason) *)
| OtherError (msg : string).       (* raises another Exception; str(e) *)

Inductive request : Type :=
| POST (url : string) (data : json) (timeout : Z)
| GET (url : string) (headers : list (string * string)) (timeout : Z).

(** What [subprocess.run(..., check=True)] does. *)
Inductive run_outcome : Type :=
| Completed
| CalledProcessError (stderr : string)
| FileNotFoundError
| TimeoutExpired
| RunRaised (cls : string).  (* any other exception: PermissionError when gh is
                                not executable, another OSError, ... *)

(** What [open(path)] followed by [json.load] does. *)
Inductive load_outcome : Type :=
| Loaded (data : json)
| NoSuchFile                 (* FileNotFoundError *)
| LoadError.                 (* any other exception *)

(** One interaction with the outside world, with its answer. *)
Inductive event : Type :=
| EUrlopen (r : request) (o : urlopen_outcome)
| EClock (t : Z)                                   (* int(time.time()) *)
| EStrftime (fmt : string) (s : string)
| EIsdir (path : string) (b : bool)
| EEnviron (name : string) (v : option string)
| ESubprocess (argv : list string) (timeout : Z) (o : run_outcome)
| ELoad (path : string) (o : load_outcome)
| ESleep (secs : Z)
| EDump (path : string) (v : json)    (* json.dump(v, open(path, "w"), indent=2) *)
| EStdout (v : json).                 (* print(json.dumps(v, indent=2)) *)

(** The interpreter's builtins the driver formats with, and the operating
    system it runs on.  [W] is the state of the world. *)
Record runtime (W : Type) : Type := {
  py_repr : json -> string;            (* repr(v) *)
  py_strip : string -> string;         (* s.strip() *)
  urlopen : request -> W -> urlopen_outcome * W;
  clock : W -> Z * W;
  strftime : string -> W -> string * W;
  isdir : string -> W -> bool * W;
  environ_get : string -> W -> option string * W;
  subprocess_run : list string -> Z -> W -> run_outcome * W;
  json_load : string -> W -> load_outcome * W;
  performed : event -> W -> W          (* a sleep, a write or a print happened *)
}.
Arguments py_repr {W} _ _.
Arguments py_strip {W} _ _.
Arguments urlopen {W} _ _ _.
Arguments clock {W} _ _.
Arguments strftime {W} _ _ _.
Arguments isdir {W} _ _ _.
Arguments environ_get {W} _ _ _.
Arguments subprocess_run {W} _ _ _ _.
Arguments json_load {W} _ _ _.
Arguments performed {W} _ _ _.

(** ** The monad the driver runs in: world in; result, world and trace out *)

Definition M (W A : Type) : Type := W -> result A * W * list event.

Definition ret {W A} (a : A) : M W A := fun w => (Ok a, w, []).

Definition raise {W A} (e : exn) : M W A := fun w => (Raised e, w, []).

Definition bind {W A B} (m : M W A) (f : A -> M W B) : M W B :=
  fun w =>
    match m w with
    | (Ok a, w1, t1) =>
        match f a w1 with
        | (r, w2, t2) => (r, w2, t1 ++ t2)
        end
    | (Raised e, w1, t1) => (Raised e, w1, t1)
    end.

Definition lift {W A} (r : result A) : M W A :=
  match r with Ok a => ret a | Raised e => raise e end.

(** A question to the world: answer, new world, one event. *)
Definition ask {W A} (q : W -> A * W) (ev : A -> event) : M W A :=
  fun w => match q w with (a, w1) => (Ok a, w1, [ev a]) end.

(** Something done to the world: new world, one event. *)
Definition tell {W} (rt : runtime W) (e : event) : M W unit :=
  fun w => (Ok tt, performed rt e w, [e]).

Declare Scope py_scope.
Delimit Scope py_scope with py.
Notation "x <- m ;; k" := (bind m (fun x => k))
  (at level 61, m at next level, right associativity) : py_scope.
Notation "' p <- m ;; k" := (bind m (fun x => match x with p => k end))
  (at level 61, p pattern, m at next level, right associativity) : py_scope.
Notation "m ;;; k" := (bind m (fun _ => k))
  (at level 61, right associativity) : py_scope.
Open Scope py_scope.

(** The bind of the result type, for the pure parts. *)
Definition and_then {A B} (r : result A) (f : A -> result B) : result B :=
  match r with Ok a => f a | Raised e => Raised e end.

(** ** Constants of the script *)

Definition BACKEND_URL : string := "http://localhost:8000".
Definition FRONTEND_PORT : Z := 3000.
Definition BROWSER_AGENT_URL : string := "https://claude-browser-agent.onrender.com".
Definition CREDENTIALS_FILE : string := "qa-test-credentials.json".
Definition RESULTS_FILE : string := "qa-smoke-results.json".
Definition WAKE_RETRIES : Z := 4.
Definition WAKE_DELAYS : list Z := [10; 15; 15; 15].

(** [200 <= status < 300] *)
Definition is_2xx (status : Z) : bool := (200 <=? status) && (status <? 300).

(** [status < 200 or status >= 300] *)
Definition not_2xx (status : Z) : bool := (status <? 200) || (status >=? 300).

(** ** The HTTP client *)

(** [http_post] after [urlopen]: the try block and its three handlers. *)
Definition post_result (o : urlopen_outcome) : Z * json :=
  match o with
  | Response status (Decoded v) => (status, v)
  | Response _ (Undecodable msg) => (0, JDict [("error", JStr msg)])
  | Response _ (ReadFailed msg) => (0, JDict [("error", JStr msg)])
  | HTTPError code _ (Decoded v) => (code, v)
  | HTTPError code reason _ => (code, JDict [("raw", JStr reason)])
  | URLError reason => (0, JDict [("error", JStr reason)])
  | OtherError msg => (0, JDict [("error", JStr msg)])
  end.

(** [http_get] after [urlopen]: the try block and its two handlers.  A
    URLError falls into the last handler, whose [str(e)] wraps the reason. *)
Definition get_result (o : urlopen_outcome) : Z * json :=
  match o with
  | Response status (Decoded v) => (status, v)
  | Response _ (Undecodable msg) => (0, JDict [("error", JStr msg)])
  | Response _ (ReadFailed msg) => (0, JDict [("error", JStr msg)])
  | HTTPError code _ (Decoded v) => (code, v)
  | HTTPError code reason _ => (code, JDict [("raw", JStr reason)])
  | URLError reason =>
      (0, JDict [("error", JStr (fstr ["<urlopen error "; reason; ">"]))])
  | OtherError msg => (0, JDict [("error", JStr msg)])
  end.

Section Driver.

Context {W : Type} (rt : runtime W).

Definition http_post (url : string) (data : json) (timeout : Z) : M W (Z * json) :=
  o <- ask (urlopen rt (POST url data timeout)) (EUrlopen (POST url data timeout)) ;;
  ret (post_result o).

Definition http_get (url : string) (headers : list (string * string)) (timeout : Z)
  : M W (Z * json) :=
  o <- ask (urlopen rt (GET url headers timeout)) (EUrlopen (GET url headers timeout)) ;;
  ret (get_result o).

(** [str(v)], as an f-string formats a value: a string is itself,
    every other decoded value prints as its repr. *)
Definition py_str (v : json) : string :=
  match v with
  | JStr s => s
  | _ => py_repr rt v
  end.

(** ** Step 1: the auth flow *)

(** The e-mail address of a run started at epoch second [now]. *)
Definition qa_email (now : Z) : string :=
  fstr ["qa-tester-"; str_of_Z now; "@test.example.com"].

Definition qa_password : string := "TestPass123!".

Definition register_url : string := fstr [BACKEND_URL; "/api/auth/register"].

Definition register_data (now : Z) : json :=
  JDict [("email", JStr (qa_email now)); ("password", JStr qa_password);
         ("name", JStr "QA Tester"); ("display_name", JStr "QA Tester")].

Definition login_url : string := fstr [BACKEND_URL; "/api/auth/login"].

Definition login_data (now : Z) : json :=
  JDict [("email", JStr (qa_email now)); ("password", JStr qa_password)].

Definition me_url : string := fstr [BACKEND_URL; "/api/users/me"].

Definition bearer (token : json) : list (string * string) :=
  [("Authorization", fstr ["Bearer "; py_str token])].

(** The three requests of the flow, as [urlopen] receives them
    ([http_post]'s default timeout is 30, [http_get]'s is 10). *)
Definition register_request (now : Z) : request :=
  POST register_url (register_data now) 30.

Definition login_request (now : Z) : request :=
  POST login_url (login_data now) 30.

Definition verify_request (token : json) : request :=
  GET me_url (bearer token) 10.

(** [body.get("token") or body.get("access_token") or body.get("idToken")
     or body.get("id_token")], evaluated left to right. *)
Definition extract_token (body : json) : result json :=
  and_then (get body "token" JNull) (fun t1 =>
  if truthy t1 then Ok t1 else
  and_then (get body "access_token" JNull) (fun t2 =>
  if truthy t2 then Ok t2 else
  and_then (get body "idToken" JNull) (fun t3 =>
  if truthy t3 then Ok t3 else
  get body "id_token" JNull))).

(** [list(body.keys())] *)
Definition dict_keys (body : json) : result (list string) :=
  match body with
  | JDict d => Ok (keys d)
  | _ => Raised AttributeError
  end.

Definition run_auth_test : M W dict :=
  now <- ask (clock rt) EClock ;;
  let email := qa_email now in
  let password := qa_password in
  let result := [("success", JBool false); ("email", JStr email);
                 ("password", JStr password); ("steps", JDict [])] in
  (* 1a. Register *)
  '(status, body) <-
     http_post register_url (register_data now) 30 ;;
  let result := assign_in "steps" "register"
                  (JDict [("status", JInt status); ("response", body)]) result in
  if not_2xx status then
    ret (assign "error"
           (JStr (fstr ["Registration failed (HTTP "; str_of_Z status; ")"])) result)
  else
  (* 1b. Login *)
  '(status, body) <-
     http_post login_url (login_data now) 30 ;;
  let result := assign_in "steps" "login" (JDict [("status", JInt status)]) result in
  if not_2xx status then
    ret (assign "error"
           (JStr (fstr ["Login failed (HTTP "; str_of_Z status; ")"])) result)
  else
  token <- lift (extract_token body) ;;
  if negb (truthy token) then
    ks <- lift (dict_keys body) ;;
    ret (assign "error"
           (JStr (fstr ["Login response has no token field. Keys: ";
                        py_repr rt (JList (map JStr ks))])) result)
  else
  (* 1c. Verify token with /api/users/me *)
  '(status, body) <-
     http_get me_url (bearer token) 10 ;;
  let result := assign_in "steps" "verify_token" (JDict [("status", JInt status)]) result in
  let result := assign "success" (JBool true) result in
  let result := assign "token_verified" (JBool (is_2xx status)) result in
  tell rt (EDump CREDENTIALS_FILE
             (JDict [("email", JStr email); ("password", JStr password)])) ;;;
  ret result.

(** ** Step 2: make the ports public *)

Definition gh_argv (codespace : string) : list string :=
  ["gh"; "codespace"; "ports"; "visibility";
   "8000:public"; fstr [str_of_Z FRONTEND_PORT; ":public"]; "-c"; codespace].

Definition make_ports_public : M W dict :=
  codespace <- ask (environ_get rt "CODESPACE_NAME") (EEnviron "CODESPACE_NAME") ;;
  match codespace with
  | None | Some EmptyString =>
      ret [("success", JBool false);
           ("error", JStr "CODESPACE_NAME env var not set -- not in a codespace?")]
  | Some codespace =>
      o <- ask (subprocess_run rt (gh_argv codespace) 15)
               (ESubprocess (gh_argv codespace) 15) ;;
      match o with
      | CalledProcessError stderr =>
          ret [("success", JBool false);
               ("error", JStr (fstr ["gh ports failed: "; py_strip rt stderr]))]
      | FileNotFoundError =>
          ret [("success", JBool false); ("error", JStr "gh CLI not found")]
      | TimeoutExpired =>
          ret [("success", JBool false); ("error", JStr "gh ports timed out")]
      | RunRaised cls => raise (Uncaught cls)      (* no except clause for it *)
      | Completed =>
          let frontend_url :=
            fstr ["https://"; codespace; "-"; str_of_Z FRONTEND_PORT; ".app.github.dev"] in
          let login_url := fstr [frontend_url; "/login"] in
          ret [("success", JBool true); ("frontend_url", JStr login_url)]
      end
  end.

(** ** Step 3: read the features *)

(** [feat.get("status") in ("completed", "done")] *)
Definition is_completed (feat : json) : result bool :=
  and_then (get feat "status" JNull) (fun st =>
  Ok (eq_str st "completed" || eq_str st "done")).

(** The comprehension [[feat["name"] for feat in feats if ...]]. *)
Fixpoint completed_names (feats : list json) : result (list json) :=
  match feats with
  | [] => Ok []
  | feat :: rest =>
      and_then (is_completed feat) (fun keep =>
      if keep then
        and_then (subscript feat "name") (fun name =>
        and_then (completed_names rest) (fun names => Ok (name :: names)))
      else completed_names rest)
  end.

(** The body of the try block once [json.load] has returned [data]. *)
Definition select_features (data : json) : result (list json) :=
  and_then (get data "features" (JList [])) (fun feats =>
  and_then (iterate feats) completed_names).

Definition read_features : M W (list json) :=
  o <- ask (json_load rt "features.json") (ELoad "features.json") ;;
  match o with
  | Loaded data =>
      match select_features data with
      | Ok names => ret names
      | Raised _ => ret []            (* except Exception *)
      end
  | NoSuchFile => ret []              (* except FileNotFoundError *)
  | LoadError => ret []               (* except Exception *)
  end.

(** ** Step 4: call the browser agent *)

Definition smoke_url : string := fstr [BROWSER_AGENT_URL; "/smoke-test"].

Definition smoke_data (frontend_url email password : json) (features : list json)
  : json :=
  JDict [("url", frontend_url);
         ("credentials", JDict [("email", email); ("password", password)]);
         ("features", JList features);
         ("maxIterations", JInt 15);
         ("timeout", JInt 120000);
         ("uploadScreenshots", JBool true)].

Definition smoke_request (frontend_url email password : json) (features : list json)
  : request :=
  POST smoke_url (smoke_data frontend_url email password features) 180.

(** [v[:80]] works on strings and lists only. *)
Definition slice_check (v : json) : result unit :=
  match v with
  | JStr _ | JList _ => Ok tt
  | _ => Raised TypeError
  end.

(** One line of the tests loop: [t.get("status")], [t.get('feature')] and
    [t.get('notes', '')[:80]]. *)
Definition log_test (t : json) : result unit :=
  and_then (get t "status" JNull) (fun _ =>
  and_then (get t "feature" JNull) (fun _ =>
  and_then (get t "notes" (JStr "")) slice_check)).

Fixpoint for_each (f : json -> result unit) (items : list json) : result unit :=
  match items with
  | [] => Ok tt
  | x :: rest => and_then (f x) (fun _ => for_each f rest)
  end.

(** The two logging loops over [smoke["tests"]] and
    [smoke["critical_issues"]]. *)
Definition log_smoke (smoke : dict) : result unit :=
  and_then
    (if truthy (get_or "tests" JNull smoke) then
       and_then (getitem smoke "tests") (fun tests =>
       and_then (iterate tests) (for_each log_test))
     else Ok tt) (fun _ =>
  if truthy (get_or "critical_issues" JNull smoke) then
    and_then (getitem smoke "critical_issues") (fun issues =>
    and_then (iterate issues) (fun _ => Ok tt))
  else Ok tt).

(** The 2xx branch: unwrap, flag, merge the screenshot URLs, log. *)
Definition unwrap_smoke (body : json) : result dict :=
  and_then (get body "smokeTestResults" body) (fun smoke =>
  match smoke, body with
  | JDict inner, JDict top =>
      let inner := assign "service_reachable" (JBool true) inner in
      let inner :=
        match lookup "screenshotUrls" top with
        | Some urls =>
            if negb (has_key "screenshotUrls" inner)
            then assign "screenshotUrls" urls inner
            else inner
        | None => inner
        end in
      and_then (log_smoke inner) (fun _ => Ok inner)
  | _, _ => Raised TypeError      (* smoke["service_reachable"] = True *)
  end).

(** [call_browser_agent] after [http_post] has returned. *)
Definition smoke_result (status : Z) (body : json) : result dict :=
  if status =? 0 then
    and_then (get body "error" JNull) (fun err =>
    Ok [("overall", JStr "skipped");
        ("reason", JStr (fstr ["Browser agent unreachable: "; py_str err]));
        ("service_reachable", JBool false)])
  else if not_2xx status then
    Ok [("overall", JStr "error");
        ("error", JStr (fstr ["Browser agent returned HTTP "; str_of_Z status]));
        ("detail", body);
        ("service_reachable", JBool true)]
  else unwrap_smoke body.

Definition call_browser_agent (frontend_url email password : json)
  (features : list json) : M W dict :=
  '(status, body) <-
     http_post smoke_url (smoke_data frontend_url email password features) 180 ;;
  lift (smoke_result status body).

(** ** Main *)

Definition probe_url : string := fstr [BROWSER_AGENT_URL; "/"].

Definition probe_request : request := GET probe_url [] 30.

(** Step 0, the connectivity check: the [for attempt in range(WAKE_RETRIES)]
    loop of [main], over the attempts still to make. *)
Fixpoint wake_loop (attempts : list Z) : M W bool :=
  match attempts with
  | [] => ret false
  | attempt :: rest =>
      '(status, body) <-
         http_get probe_url [] 30 ;;
      if status >? 0 then ret true                        (* break *)
      else
        lift (get body "error" JNull) ;;;
        (if attempt <? WAKE_RETRIES - 1 then
           delay <- lift (index WAKE_DELAYS attempt) ;;
           tell rt (ESleep delay)
         else ret tt) ;;;
        wake_loop rest
  end.

Definition unreachable_stage : json :=
  JDict [("overall", JStr "error");
         ("reason", JStr (fstr ["Browser agent unreachable after ";
                                str_of_Z WAKE_RETRIES; " attempts"]))].

(** [overall_browser.upper()] exists on strings only. *)
Definition upper_check (v : json) : result unit :=
  match v with
  | JStr _ => Ok tt
  | _ => Raised AttributeError
  end.

(** The exit code chosen from the invoker's result. *)
Definition exit_code_of_smoke (smoke : dict) : Z :=
  let overall := get_or "overall" (JStr "unknown") smoke in
  if eq_str overall "pass" then 0
  else if eq_str overall "skipped" then 2
  else 1.

(** The stages after the connectivity check, from [run_auth_test]'s result
    on: the new [output] and the exit code. *)
Definition stages (output : dict) (skip_browser : bool) (auth : dict)
  : M W (dict * Z) :=
  let exit_code := 0 in
  success <- lift (getitem auth "success") ;;
  if negb (truthy success) then
    ret (assign "browser_smoke_test"
           (JDict [("overall", JStr "error");
                   ("error", JStr (fstr ["Auth failed: ";
                                         py_str (get_or "error" JNull auth);
                                         " -- no valid credentials for browser test"]))])
           output, 1)
  else
    email <- lift (getitem auth "email") ;;
    password <- lift (getitem auth "password") ;;
    frontend <- ask (isdir rt "frontend") (EIsdir "frontend") ;;
    if negb frontend then
      ret (assign "browser_smoke_test" (JDict [("overall", JStr "not_applicable")]) output,
           exit_code)
    else
      ports <- make_ports_public ;;
      ports_success <- lift (getitem ports "success") ;;
      if negb (truthy ports_success) then
        err <- lift (getitem ports "error") ;;
        ret (assign "browser_smoke_test"
               (JDict [("overall", JStr "error"); ("error", err)]) output, 2)
      else
        features <- read_features ;;
        if skip_browser then ret (output, exit_code)
        else
          frontend_url <- lift (getitem ports "frontend_url") ;;
          smoke <- call_browser_agent frontend_url email password features ;;
          ret (assign "browser_smoke_test" (JDict smoke) output,
               exit_code_of_smoke smoke).

Definition main : M W Z :=
  timestamp <- ask (strftime rt "%Y-%m-%dT%H:%M:%SZ") (EStrftime "%Y-%m-%dT%H:%M:%SZ") ;;
  let output := [("timestamp", JStr timestamp); ("auth", JNull);
                 ("browser_smoke_test", JNull)] in
  (* Step 0 *)
  browser_reachable <- wake_loop (range WAKE_RETRIES) ;;
  let output := if negb browser_reachable
                then assign "browser_smoke_test" unreachable_stage output
                else output in
  let skip_browser := negb browser_reachable in
  (* Auth *)
  auth <- run_auth_test ;;
  let output := assign "auth" (JDict auth) output in
  '(output, exit_code) <- stages output skip_browser auth ;;
  (* Write results *)
  let output := assign "exit_code" (JInt exit_code) output in
  tell rt (EDump RESULTS_FILE (JDict output)) ;;;
  stage <- lift (getitem output "browser_smoke_test") ;;
  overall_browser <- lift (get stage "overall" (JStr "unknown")) ;;
  lift (upper_check overall_browser) ;;;
  tell rt (EStdout (JDict output)) ;;;
  ret exit_code.

End Driver.

(** ** The fixture (src/fixture): first its registration route
       (routers/auth.py) *)

Module Fixture.

(** A row of the [users] table (models.py). *)
Record User : Type := {
  id : Z;
  email : string;
  hashed_password : string;
  display_name : string
}.

(** The validated request body. *)
Record RegisterRequest : Type := {
  req_email : string;
  req_password : string;
  req_name : option string;
  req_display_name : option string
}.

(** What the route hands back to the HTTP layer: a status and a JSON body. *)
Inductive reply : Type := Reply (status : Z) (body : json).

(** [a or b] where [a] is an optional string. *)
Definition or_else (a : option string) (b : string) : string :=
  match a with
  | Some s => if String.eqb s "" then b else s
  | None => b
  end.

(** [s.split("@")[0]] *)
Fixpoint before_at (s : string) : string :=
  match s with
  | EmptyString => EmptyString
  | String c rest =>
      if Ascii.eqb c "@"%char then EmptyString else String c (before_at rest)
  end.

(** [db.query(User).filter(User.email == e).first()] *)
Definition first_by_email (db : list User) (e : string) : option User :=
  find (fun u => String.eqb (email u) e) db.

Section Routes.

(** [hash_password] and [create_token] live in fixture/auth.py and the
    primary key is handed out by the database; none of the three is in this
    source tree, so the route takes them as given. *)
Variable hash_password : string -> string.
Variable create_token : Z -> string -> string.
Variable next_id : list User -> Z.

Definition conflict : reply :=
  Reply 409 (JDict [("detail", JStr "Email already registered")]).

Definition register (db : list User) (body : RegisterRequest) : list User * reply :=
  match first_by_email db (req_email body) with
  | Some _ => (db, conflict)           (* raise HTTPException(409, ...) *)
  | None =>
      let display :=
        or_else (req_display_name body)
          (or_else (req_name body) (before_at (req_email body))) in
      let user := {| id := next_id db;
                     email := req_email body;
                     hashed_password := hash_password (req_password body);
                     display_name := display |} in
      (db ++ [user],
       Reply 200
         (JDict [("user", JDict [("id", JInt (id user));
                                 ("email", JStr (email user));
                                 ("display_name", JStr (display_name user))]);
                 ("token", JStr (create_token (id user) (email user)))]))
  end.

End Routes.

(** The reason phrases of the statuses the routes in auth.py use. *)
Definition reason_phrase (status : Z) : string :=
  if status =? 401 then "Unauthorized"
  else if status =? 409 then "Conflict"
  else "".

(** How [urlopen] on the client side sees a reply with a JSON body: a 2xx
    status comes back as a response, any other raises HTTPError. *)
Definition on_the_wire (r : reply) : urlopen_outcome :=
  match r with
  | Reply status body =>
      if is_2xx status then Response status (Decoded body)
      else HTTPError status (reason_phrase status) (Decoded body)
  end.

(** *** The login route and the current user (routers/auth.py) *)

(** The validated body of a login. *)
Record LoginRequest : Type := {
  login_email : string;
  login_password : string
}.

(** [UserResponse(id=..., email=..., display_name=...)], as JSON. *)
Definition user_response (u : User) : json :=
  JDict [("id", JInt (id u)); ("email", JStr (email u));
         ("display_name", JStr (display_name u))].

Definition invalid_credentials : reply :=
  Reply 401 (JDict [("detail", JStr "Invalid credentials")]).

Section Login.

(** [verify_password] and [create_token] live in fixture/auth.py. *)
Variable verify_password : string -> string -> bool.
Variable create_token : Z -> string -> string.

Definition login (db : list User) (body : LoginRequest) : reply :=
  match first_by_email db (login_email body) with
  | None => invalid_credentials                (* not user *)
  | Some user =>
      if negb (verify_password (login_password body) (hashed_password user))
      then invalid_credentials
      else Reply 200
             (JDict [("user", user_response user);
                     ("token", JStr (create_token (id user) (email user)))])
  end.

End Login.

(** [me]: the user that [get_current_user] resolved from the request. *)
Definition me (current_user : User) : reply := Reply 200 (user_response current_user).

(** *** Projects and tasks (models.py, routers/projects.py, routers/tasks.py) *)

(** A row of the [projects] table. *)
Record Project : Type := {
  p_id : Z;
  p_name : string;
  p_description : string;
  p_color : string;
  p_user_id : Z
}.

(** A row of the [tasks] table. *)
Record Task : Type := {
  t_id : Z;
  t_title : string;
  t_status : string;
  t_project_id : option Z;
  t_user_id : Z
}.

(** The three tables, each in the order of insertion. *)
Record Tables : Type := {
  users : list User;
  projects : list Project;
  tasks : list Task
}.

(** The validated bodies, with the defaults of the models filled in. *)
Record ProjectCreate : Type := {
  pc_name : string;
  pc_description : string;        (* = "" *)
  pc_color : string               (* = "#3b82f6" *)
}.

Record TaskCreate : Type := {
  tc_title : string;
  tc_project_id : option Z;       (* = None *)
  tc_status : string              (* = "todo" *)
}.

Definition optional_int (v : option Z) : json :=
  match v with Some n => JInt n | None => JNull end.

(** [ProjectResponse] and [TaskResponse], as JSON. *)
Definition project_response (p : Project) : json :=
  JDict [("id", JInt (p_id p)); ("name", JStr (p_name p));
         ("description", JStr (p_description p)); ("color", JStr (p_color p));
         ("user_id", JInt (p_user_id p))].

Definition task_response (t : Task) : json :=
  JDict [("id", JInt (t_id t)); ("title", JStr (t_title t));
         ("status", JStr (t_status t)); ("project_id", optional_int (t_project_id t));
         ("user_id", JInt (t_user_id t))].

Definition project_not_found : reply :=
  Reply 404 (JDict [("detail", JStr "Project not found")]).

Definition task_not_found : reply :=
  Reply 404 (JDict [("detail", JStr "Task not found")]).

(** A 204 has no body. *)
Definition no_content : reply := Reply 204 JNull.

(** [db.query(Project).filter(Project.id == project_id,
                              Project.user_id == user.id).first()] *)
Definition own_project (db : Tables) (project_id : Z) (user : User) : option Project :=
  find (fun p => (p_id p =? project_id) && (p_user_id p =? id user)) (projects db).

(** [db.query(Task).filter(Task.id == task_id, Task.user_id == user.id).first()] *)
Definition own_task (db : Tables) (task_id : Z) (user : User) : option Task :=
  find (fun t => (t_id t =? task_id) && (t_user_id t =? id user)) (tasks db).

(** The task belongs to the project: [Task.project_id == project.id]. *)
Definition in_project (project_id : Z) (t : Task) : bool :=
  match t_project_id t with
  | Some pid => pid =? project_id
  | None => false
  end.

Section Rows.

(** The primary keys are handed out by the database. *)
Variable next_project_id : list Project -> Z.
Variable next_task_id : list Task -> Z.

(** The routes of routers/projects.py; [user] is what [get_current_user]
    resolved from the request. *)
Definition list_projects (db : Tables) (user : User) : reply :=
  Reply 200
    (JList (map project_response
              (filter (fun p => p_user_id p =? id user) (projects db)))).

Definition create_project (db : Tables) (body : ProjectCreate) (user : User)
  : Tables * reply :=
  let project := {| p_id := next_project_id (projects db);
                    p_name := pc_name body;
                    p_description := pc_description body;
                    p_color := pc_color body;
                    p_user_id := id user |} in
  ({| users := users db; projects := projects db ++ [project]; tasks := tasks db |},
   Reply 201 (project_response project)).

Definition get_project (db : Tables) (project_id : Z) (user : User) : reply :=
  match own_project db project_id user with
  | None => project_not_found
  | Some project => Reply 200 (project_response project)
  end.

(** [db.delete(project)] deletes the row with the project's key and, by
    the cascade of [Project.tasks] (models.py), the tasks of the project. *)
Definition delete_project (db : Tables) (project_id : Z) (user : User)
  : Tables * reply :=
  match own_project db project_id user with
  | None => (db, project_not_found)
  | Some project =>
      ({| users := users db;
          projects := filter (fun p => negb (p_id p =? p_id project)) (projects db);
          tasks := filter (fun t => negb (in_project (p_id project) t)) (tasks db) |},
       no_content)
  end.

(** The routes of routers/tasks.py. *)
Definition list_tasks (db : Tables) (user : User) : reply :=
  Reply 200
    (JList (map task_response (filter (fun t => t_user_id t =? id user) (tasks db)))).

Definition create_task (db : Tables) (body : TaskCreate) (user : User)
  : Tables * reply :=
  let task := {| t_id := next_task_id (tasks db);
                 t_title := tc_title body;
                 t_status := tc_status body;
                 t_project_id := tc_project_id body;
                 t_user_id := id user |} in
  ({| users := users db; projects := projects db; tasks := tasks db ++ [task] |},
   Reply 201 (task_response task)).

Definition get_task (db : Tables) (task_id : Z) (user : User) : reply :=
  match own_task db task_id user with
  | None => task_not_found
  | Some task => Reply 200 (task_response task)
  end.

Definition delete_task (db : Tables) (task_id : Z) (user : User) : Tables * reply :=
  match own_task db task_id user with
  | None => (db, task_not_found)
  | Some task =>
      ({| users := users db;
          projects := projects db;
          tasks := filter (fun t => negb (t_id t =? t_id task)) (tasks db) |},
       no_content)
  end.

End Rows.

(** *** The seed user and the reset (main.py) *)

Definition SEED_EMAIL : string := "test@fixture.example.com".
Definition SEED_PASSWORD : string := "TestFixture123!".
Definition SEED_DISPLAY : string := "Test User".

Section Seed.

Variable hash_password : string -> string.
Variable next_id : list User -> Z.

(** [User(email=SEED_EMAIL, hashed_password=hash_password(SEED_PASSWORD),
          display_name=SEED_DISPLAY)], once added to [db]. *)
Definition seed_user (db : list User) : User :=
  {| id := next_id db;
     email := SEED_EMAIL;
     hashed_password := hash_password SEED_PASSWORD;
     display_name := SEED_DISPLAY |}.

(** [init_db]: [create_all] leaves existing rows alone; the seed user is
    added when no row has its e-mail. *)
Definition init_db (db : list User) : list User :=
  match first_by_email db SEED_EMAIL with
  | Some _ => db
  | None => db ++ [seed_user db]
  end.

(** [admin_reset]: drop every table, create them again, add the seed user. *)
Definition admin_reset (db : Tables) : Tables * reply :=
  ({| users := [seed_user []]; projects := []; tasks := [] |},
   Reply 200 (JDict [("ok", JBool true); ("seed_user", JStr SEED_EMAIL)])).

End Seed.

End Fixture.

(** ** The test harness (scripts/test-browser-agent.py)

    Of the harness, its two HTTP functions, [reset_fixture] and
    [run_smoke_test] are embedded.  [wake_fixture] loops on the float clock
    [time.time()] and [main] starts with it; they are not. *)

Module Harness.

Definition SEED_EMAIL : string := "test@fixture.example.com".
Definition SEED_PASSWORD : string := "TestFixture123!".

(** [http_post] after [urlopen]: the try block and its two handlers.  A
    URLError falls into the last one, whose [str(e)] wraps the reason. *)
Definition post_result (o : urlopen_outcome) : Z * json :=
  match o with
  | Response status (Decoded v) => (status, v)
  | Response _ (Undecodable msg) => (0, JDict [("error", JStr msg)])
  | Response _ (ReadFailed msg) => (0, JDict [("error", JStr msg)])
  | HTTPError code _ (Decoded v) => (code, v)
  | HTTPError code reason _ => (code, JDict [("raw", JStr reason)])
  | URLError reason =>
      (0, JDict [("error", JStr (fstr ["<urlopen error "; reason; ">"]))])
  | OtherError msg => (0, JDict [("error", JStr msg)])
  end.

(** [http_get] after [urlopen]: the try block and its one handler.  An
    HTTPError falls into it as well; its [str(e)] is
    "HTTP Error <code>: <reason>". *)
Definition get_result (o : urlopen_outcome) : Z * json :=
  match o with
  | Response status (Decoded v) => (status, v)
  | Response _ (Undecodable msg) => (0, JDict [("error", JStr msg)])
  | Response _ (ReadFailed msg) => (0, JDict [("error", JStr msg)])
  | HTTPError code reason _ =>
      (0, JDict [("error", JStr (fstr ["HTTP Error "; str_of_Z code; ": "; reason]))])
  | URLError reason =>
      (0, JDict [("error", JStr (fstr ["<urlopen error "; reason; ">"]))])
  | OtherError msg => (0, JDict [("error", JStr msg)])
  end.

(** The features the harness asks the browser agent to test. *)
Definition features : list json :=
  [JStr "User Authentication"; JStr "Project Management"; JStr "Task Management";
   JStr "Dashboard"; JStr "Navigation"].

Definition reset_url (fixture_url : string) : string :=
  fstr [fixture_url; "/api/admin/reset"].

Definition reset_request (fixture_url : string) : request :=
  POST (reset_url fixture_url) (JDict []) 30.

Definition smoke_url (browser_agent_url : string) : string :=
  fstr [browser_agent_url; "/smoke-test"].

Definition smoke_data (fixture_url : string) : json :=
  JDict [("url", JStr fixture_url);
         ("credentials", JDict [("email", JStr SEED_EMAIL);
                                ("password", JStr SEED_PASSWORD)]);
         ("features", JList features);
         ("maxIterations", JInt 15);
         ("timeout", JInt 120000)].

Definition smoke_request (fixture_url browser_agent_url : string) : request :=
  POST (smoke_url browser_agent_url) (smoke_data fixture_url) 180.

Section Scripts.

Context {W : Type} (rt : runtime W).

Definition http_post (url : string) (data : json) (timeout : Z) : M W (Z * json) :=
  o <- ask (urlopen rt (POST url data timeout)) (EUrlopen (POST url data timeout)) ;;
  ret (post_result o).

Definition http_get (url : string) (timeout : Z) : M W (Z * json) :=
  o <- ask (urlopen rt (GET url [] timeout)) (EUrlopen (GET url [] timeout)) ;;
  ret (get_result o).

Definition reset_fixture (fixture_url : string) : M W bool :=
  '(status, body) <-
     http_post (reset_url fixture_url) (JDict []) 30 ;;
  if status =? 200 then
    lift (get body "seed_user" JNull) ;;;     (* logged: body.get('seed_user') *)
    ret true
  else ret false.

(** [run_smoke_test] after [http_post] has returned. *)
Definition smoke_result (status : Z) (body : json) : result dict :=
  if status =? 0 then
    and_then (get body "error" JNull) (fun err =>
    Ok [("overall", JStr "error");
        ("error", JStr (fstr ["Browser agent unreachable: "; py_str rt err]))])
  else if not_2xx status then
    Ok [("overall", JStr "error");
        ("error", JStr (fstr ["HTTP "; str_of_Z status]));
        ("detail", body)]
  else
    and_then (get body "smokeTestResults" body) (fun smoke =>
    and_then (get smoke "overall" (JStr "unknown")) (fun _ =>
    match smoke with
    | JDict inner => and_then (log_smoke inner) (fun _ => Ok inner)
    | _ => Raised AttributeError
    end)).

Definition run_smoke_test (fixture_url browser_agent_url : string) : M W dict :=
  '(status, body) <-
     http_post (smoke_url browser_agent_url) (smoke_data fixture_url) 180 ;;
  lift (smoke_result status body).

End Scripts.

End Harness.

(** ** A scripted world, for running the driver on concrete answers *)

(** What a scripted world answers.  Its state is the number of HTTP calls
    made so far: [urlopen] hands out the replies in order, and once they run
    out the network is down. *)
Record script : Type := {
  s_replies : list urlopen_outcome;
  s_now : Z;
  s_timestamp : string;
  s_frontend : bool;
  s_codespace : option string;
  s_gh : run_outcome;
  s_features : load_outcome
}.

(** A repr that is right on the values the examples below print: None,
    booleans, ints, and strings, lists and dicts free of quotes, backslashes
    and control characters. *)
Fixpoint plain_repr (v : json) : string :=
  match v with
  | JNull => "None"
  | JBool true => "True"
  | JBool false => "False"
  | JInt n => str_of_Z n
  | JFloat _ => "<float>"
  | JStr s => fstr ["'"; s; "'"]
  | JList items => fstr ["["; String.concat ", " (map plain_repr items); "]"]
  | JDict items =>
      fstr ["{";
            String.concat ", "
              (map (fun kv => fstr ["'"; fst kv; "': "; plain_repr (snd kv)]) items);
            "}"]
  end.

Definition connection_refused : urlopen_outcome :=
  URLError "[Errno 111] Connection refused".

Definition scripted (s : script) : runtime nat := {|
  py_repr := plain_repr;
  py_strip := fun x => x;
  urlopen := fun _ calls => (nth calls (s_replies s) connection_refused, S calls);
  clock := fun w => (s_now s, w);
  strftime := fun _ w => (s_timestamp s, w);
  isdir := fun _ w => (s_frontend s, w);
  environ_get := fun _ w => (s_codespace s, w);
  subprocess_run := fun _ _ w => (s_gh s, w);
  json_load := fun _ w => (s_features s, w);
  performed := fun _ w => w
|}.

(** A run started at 2023-11-14T22:13:20Z inside a codespace, with a
    frontend directory and no features.json. *)
Definition codespace_run (replies : list urlopen_outcome) : script := {|
  s_replies := replies;
  s_now := 1700000000;
  s_timestamp := "2023-11-14T22:13:20Z";
  s_frontend := true;
  s_codespace := Some "cs";
  s_gh := Completed;
  s_features := NoSuchFile
|}.

(** Replies used in the examples. *)

Definition agent_up : urlopen_outcome :=
  Response 200 (Decoded (JDict [("status", JStr "ok")])).

Definition registered : urlopen_outcome :=
  Response 200
    (Decoded (JDict [("user", JDict [("id", JInt 2);
                                     ("email", JStr (qa_email 1700000000));
                                     ("display_name", JStr "QA Tester")]);
                     ("token", JStr "tok-register")])).

(** A login body with both field names, the lower-priority one first. *)
Definition login_body : dict :=
  [("access_token", JStr "tok-access"); ("token", JStr "tok-login")].

Definition logged_in : urlopen_outcome := Response 200 (Decoded (JDict login_body)).

Definition me_unauthorized : urlopen_outcome :=
  HTTPError 401 "Unauthorized" (Decoded (JDict [("detail", JStr "Invalid token")])).

(** The browser agent's answer to a session that passed: the results under
    the wrapper key, the screenshot URLs beside it. *)
Definition passed_results : dict :=
  [("overall", JStr "pass");
   ("tests", JList [JDict [("feature", JStr "Login"); ("status", JStr "pass");
                           ("notes", JStr "Logged in and reached the dashboard")]]);
   ("critical_issues", JList [])].

Definition passed_body : dict :=
  [("smokeTestResults", JDict passed_results);
   ("screenshotUrls", JList [JStr "https://example.com/login.png"])].

Definition agent_passed : urlopen_outcome := Response 200 (Decoded (JDict passed_body)).

(** The browser agent's answer to a session in which a test failed and left
    no notes. *)
Definition failed_results : dict :=
  [("overall", JStr "fail");
   ("tests", JList [JDict [("feature", JStr "Login"); ("status", JStr "fail");
                           ("notes", JNull)]])].

Definition agent_failed_without_notes : urlopen_outcome :=
  Response 200 (Decoded (JDict [("smokeTestResults", JDict failed_results)])).

(** A full run: the agent is up, the backend registers and logs in, the
    verify call is refused, the browser session passes. *)
Definition full_run : script :=
  codespace_run [agent_up; registered; logged_in; me_unauthorized; agent_passed].

(** The fixture's answer to a registration of an e-mail that an earlier
    registration has already taken. *)
Definition qa_register_body : Fixture.RegisterRequest := {|
  Fixture.req_email := qa_email 1700000000;
  Fixture.req_password := qa_password;
  Fixture.req_name := Some "QA Tester";
  Fixture.req_display_name := Some "QA Tester"
|}.

Definition second_registration : urlopen_outcome :=
  let register :=
    Fixture.register (fun p => fstr ["hashed:"; p])
                     (fun _ e => fstr ["token-for-"; e])
                     (fun db => Z.of_nat (length db) + 1) in
  Fixture.on_the_wire (snd (register (fst (register [] qa_register_body)) qa_register_body)).

(** A run outside a codespace. *)
Definition outside_codespace : script := {|
  s_replies := [];
  s_now := 1700000000;
  s_timestamp := "2023-11-14T22:13:20Z";
  s_frontend := true;
  s_codespace := None;
  s_gh := Completed;
  s_features := NoSuchFile
|}.

(** A full run on a machine whose gh is a file without the execute bit:
    [subprocess.run] raises PermissionError. *)
Definition gh_not_executable : script := {|
  s_replies := [agent_up; registered; logged_in; me_unauthorized; agent_passed];
  s_now := 1700000000;
  s_timestamp := "2023-11-14T22:13:20Z";
  s_frontend := true;
  s_codespace := Some "cs";
  s_gh := RunRaised "PermissionError";
  s_features := NoSuchFile
|}.

(** A login answered 200 with a JSON list. *)
Definition logged_in_with_a_list : urlopen_outcome := Response 200 (Decoded (JList [])).

(** An auth result as the stages read it. *)
Definition sample_auth : dict :=
  [("success", JBool true); ("email", JStr (qa_email 1700000000));
   ("password", JStr qa_password)].

(** ** A sample fixture, for running the routes on concrete tables *)

Definition sample_hash (p : string) : string := fstr ["hashed:"; p].

Definition sample_verify (p hashed : string) : bool := String.eqb hashed (sample_hash p).

Definition sample_token (_ : Z) (e : string) : string := fstr ["token-for-"; e].

(** Keys counted up from 1. *)
Definition next_key {A} (rows : list A) : Z := Z.of_nat (length rows) + 1.

Definition alice : Fixture.User := {|
  Fixture.id := 1;
  Fixture.email := "alice@example.com";
  Fixture.hashed_password := sample_hash "wonderland";
  Fixture.display_name := "alice"
|}.

Definition bob : Fixture.User := {|
  Fixture.id := 2;
  Fixture.email := "bob@example.com";
  Fixture.hashed_password := sample_hash "builder";
  Fixture.display_name := "Bob"
|}.

Definition alices_project : Fixture.Project := {|
  Fixture.p_id := 1;
  Fixture.p_name := "Garden";
  Fixture.p_description := "";
  Fixture.p_color := "#3b82f6";
  Fixture.p_user_id := 1
|}.

(** A task of bob, linked to the project of alice. *)
Definition bobs_task : Fixture.Task := {|
  Fixture.t_id := 1;
  Fixture.t_title := "Water the roses";
  Fixture.t_status := "todo";
  Fixture.t_project_id := Some 1;
  Fixture.t_user_id := 2
|}.

Definition sample_tables : Fixture.Tables := {|
  Fixture.users := [alice; bob];
  Fixture.projects := [alices_project];
  Fixture.tasks := [bobs_task]
|}.

Definition alice_registers : Fixture.RegisterRequest := {|
  Fixture.req_email := "alice@example.com";
  Fixture.req_password := "wonderland";
  Fixture.req_name := None;
  Fixture.req_display_name := Some ""
|}.

(** ** Vocabulary of the properties *)

(** Put an event in front of the trace of a run. *)
Definition after {W A} (e : event) (run : result A * W * list event)
  : result A * W * list event :=
  match run with (r, w, t) => (r, w, e :: t) end.

(** The result dict at each exit of the auth flow. *)
Definition auth_result (success : bool) (now : Z) (steps : dict) (tail : dict) : dict :=
  [("success", JBool success); ("email", JStr (qa_email now));
   ("password", JStr qa_password); ("steps", JDict steps)] ++ tail.

Definition saved_credentials (now : Z) : event :=
  EDump CREDENTIALS_FILE
    (JDict [("email", JStr (qa_email now)); ("password", JStr qa_password)]).

(** The report with its three first fields. *)
Definition report (timestamp auth stage : json) : dict :=
  [("timestamp", timestamp); ("auth", auth); ("browser_smoke_test", stage)].

(** The failures the HTTP client calls network errors: no HTTP status was
    received, or the connection broke while the body was read. *)
Definition transport_failure (o : urlopen_outcome) : bool :=
  match o with
  | URLError _ | OtherError _ => true
  | Response _ (ReadFailed _) => true
  | _ => false
  end.

(** Status codes as HTTP has them: [urlopen] returns a response for a 2xx
    status only and raises HTTPError for any other, and a status line
    carries a three-digit code. *)
Definition valid_outcome (o : urlopen_outcome) : Prop :=
  match o with
  | Response status _ => 200 <= status < 300
  | HTTPError code _ _ => 100 <= code <= 999 /\ ~ (200 <= code < 300)
  | _ => True
  end.

(** The status of a trace event, as the client function that made the call
    returns it. *)
Definition status_of_call (r : request) (o : urlopen_outcome) : Z :=
  match r with
  | POST _ _ _ => fst (post_result o)
  | GET _ _ _ => fst (get_result o)
  end.

(** The statuses of the HTTP calls of a trace, in order. *)
Fixpoint http_statuses (tr : list event) : list Z :=
  match tr with
  | [] => []
  | EUrlopen r o :: rest => status_of_call r o :: http_statuses rest
  | _ :: rest => http_statuses rest
  end.

(** [steps[name]] is a StepResult holding [status] and [response]. *)
Definition step_result (steps : dict) (name : string) (status : Z) (response : json)
  : Prop :=
  exists entry,
    lookup name steps = Some (JDict entry)
    /\ lookup "status" entry = Some (JInt status)
    /\ lookup "response" entry = Some response.

(** One attempt of the connectivity check, with its answer. *)
Definition probed (o : urlopen_outcome) : event := EUrlopen probe_request o.

(** The status recorded in a steps entry. *)
Definition entry_status (entry : json) : option json :=
  match entry with
  | JDict e => lookup "status" e
  | _ => None
  end.

(** The four field names a login body may carry the token under. *)
Definition token_fields : list string :=
  ["token"; "access_token"; "idToken"; "id_token"].

(** Follows the spec's words: probe the names in priority order, the first
    one that is present and non-empty wins. *)
Fixpoint first_nonempty (names : list string) (d : dict) : option json :=
  match names with
  | [] => None
  | name :: rest =>
      match lookup name d with
      | Some v => if truthy v then Some v else first_nonempty rest d
      | None => first_nonempty rest d
      end
  end.

(** Follows the spec's words: an entry is selected when its status field
    equals "completed" or "done". *)
Definition completed (entry : dict) : bool :=
  match lookup "status" entry with
  | Some status => eq_str status "completed" || eq_str status "done"
  | None => false
  end.

(** Follows the spec's words: the names of the selected entries, in file
    order. *)
Fixpoint names_in_order (entries : list dict) : list json :=
  match entries with
  | [] => []
  | entry :: rest =>
      if completed entry then
        match lookup "name" entry with
        | Some name => name :: names_in_order rest
        | None => names_in_order rest
        end
      else names_in_order rest
  end.

(** The file of the spec's example. *)
Definition example_features : json :=
  JDict [("features",
          JList [JDict [("name", JStr "X"); ("status", JStr "completed")];
                 JDict [("name", JStr "Y"); ("status", JStr "todo")]])].

(** The shape the browser agent documents for its results, as far as the
    invoker's logging reads it: [tests], when present, is a list of objects
    whose [notes], when present, is a string; [critical_issues], when
    present, is a list. *)
Definition documented_test (t : dict) : Prop :=
  forall notes, lookup "notes" t = Some notes -> exists s, notes = JStr s.

Definition documented_smoke (smoke : dict) : Prop :=
  (forall v, lookup "tests" smoke = Some v ->
     exists ts, v = JList (map JDict ts) /\ Forall documented_test ts)
  /\ (forall v, lookup "critical_issues" smoke = Some v -> exists issues, v = JList issues).

(** The results inside a 2xx body [top]: under "smokeTestResults" when the
    key is there, [top] itself otherwise. *)
Definition smoke_part (top inner : dict) : Prop :=
  lookup "smokeTestResults" top = Some (JDict inner)
  \/ (lookup "smokeTestResults" top = None /\ inner = top).

(** The remote services keep to their documented interfaces: every status
    is an HTTP status, a 2xx login body is an object, and a 2xx body of the
    browser agent is an object whose results have the documented shape, with
    a string under "overall" when the key is there. *)
Definition statuses_valid {W} (rt : runtime W) : Prop :=
  forall r w, valid_outcome (fst (urlopen rt r w)).

Definition login_answers_object {W} (rt : runtime W) : Prop :=
  forall now w,
    200 <= fst (post_result (fst (urlopen rt (login_request now) w))) < 300 ->
    exists d, snd (post_result (fst (urlopen rt (login_request now) w))) = JDict d.

Definition agent_answers_documented {W} (rt : runtime W) : Prop :=
  forall frontend_url email password features w,
    200 <= fst (post_result
                  (fst (urlopen rt (smoke_request frontend_url email password features) w)))
        < 300 ->
    exists top inner,
      snd (post_result
             (fst (urlopen rt (smoke_request frontend_url email password features) w)))
      = JDict top
      /\ smoke_part top inner
      /\ documented_smoke inner
      /\ forall v, lookup "overall" inner = Some v -> exists s, v = JStr s.

(** gh, whenever it is run, ends in a way [make_ports_public] handles: it
    completes, exits non-zero, is not found or times out. *)
Definition gh_is_handled {W} (rt : runtime W) : Prop :=
  forall argv timeout w cls, fst (subprocess_run rt argv timeout w) <> RunRaised cls.

(** Follows the spec's words: the exit code by the precedence of section
    4.7, first matching rule. *)
Definition claimed_exit_code
  (auth_success frontend ports_success probe_reachable : bool) (overall : json) : Z :=
  if negb auth_success then 1
  else if negb frontend then 0
  else if negb ports_success then 2
  else if negb probe_reachable then 2
  else if eq_str overall "pass" then 0
  else if eq_str overall "skipped" then 2
  else 1.

(** An event that prints nothing on stdout and writes no file but the
    credentials file. *)
Definition silent (e : event) : bool :=
  match e with
  | EStdout _ => false
  | EDump path _ => String.eqb path CREDENTIALS_FILE
  | _ => true
  end.

(** The seconds a trace spends asleep. *)
Fixpoint slept (tr : list event) : Z :=
  match tr with
  | [] => 0
  | ESleep secs :: rest => secs + slept rest
  | _ :: rest => slept rest
  end.

(** An event that is no POST to the browser agent's /smoke-test. *)
Definition no_smoke_post (e : event) : bool :=
  match e with
  | EUrlopen (POST url _ _) _ => negb (String.eqb url smoke_url)
  | _ => true
  end.

(** An event that is no HTTP call at all. *)
Definition no_request (e : event) : bool :=
  match e with
  | EUrlopen _ _ => false
  | _ => true
  end.

(** Every event a computation leaves in the trace passes [P], from whatever
    world it starts and however it ends. *)
Definition emits {W A} (P : event -> bool) (m : M W A) : Prop :=
  forall w, forallb P (snd (m w)) = true.

(** ** Properties *)

(** *** Dicts *)

Lemma lookup_assign_same (k : string) (v : json) (d : dict) :
  lookup k (assign k v d) = Some v.
Proof.
  induction d as [|[k' v'] rest IH]; simpl.
  - now rewrite String.eqb_refl.
  - destruct (String.eqb k k') eqn:E; simpl; rewrite E; auto.
Qed.

Lemma lookup_assign_other (k k' : string) (v : json) (d : dict) :
  k <> k' -> lookup k (assign k' v d) = lookup k d.
Proof.
  intros Hne. induction d as [|[k0 v0] rest IH]; simpl.
  - destruct (String.eqb_spec k k'); [contradiction | reflexivity].
  - destruct (String.eqb_spec k' k0) as [->|Hk0]; simpl.
    + destruct (String.eqb_spec k k0); [contradiction | reflexivity].
    + destruct (String.eqb_spec k k0); auto.
Qed.

Lemma has_key_assign_other (k k' : string) (v : json) (d : dict) :
  k <> k' -> has_key k (assign k' v d) = has_key k d.
Proof. intros H. unfold has_key. now rewrite lookup_assign_other. Qed.

Lemma not_2xx_is_2xx (status : Z) : not_2xx status = negb (is_2xx status).
Proof.
  unfold not_2xx, is_2xx.
  destruct (Z.ltb_spec status 200), (Z.leb_spec 200 status),
    (Z.geb_spec status 300), (Z.ltb_spec status 300); simpl; try reflexivity; lia.
Qed.

Lemma not_2xx_spec (status : Z) :
  not_2xx status = true <-> status < 200 \/ status >= 300.
Proof.
  unfold not_2xx. rewrite orb_true_iff, Z.ltb_lt, Z.geb_le. lia.
Qed.

Lemma is_2xx_spec (status : Z) :
  is_2xx status = true <-> 200 <= status < 300.
Proof.
  unfold is_2xx. rewrite andb_true_iff, Z.leb_le, Z.ltb_lt. lia.
Qed.

(** *** Running a bind *)

Section Binds.

Context {W : Type} (rt : runtime W).

Lemma bind_ret {A B} (a : A) (f : A -> M W B) (w : W) :
  bind (ret a) f w = f a w.
Proof. unfold bind, ret. now destruct (f a w) as [[r w2] t2]. Qed.

Lemma bind_raise {A B} (e : exn) (f : A -> M W B) (w : W) :
  bind (raise e) f w = (Raised e, w, []).
Proof. reflexivity. Qed.

Lemma bind_lift {A B} (r : result A) (f : A -> M W B) (w : W) :
  bind (lift r) f w
  = match r with Ok a => f a w | Raised e => (Raised e, w, []) end.
Proof. destruct r; [apply bind_ret | apply bind_raise]. Qed.

Lemma bind_ask {A B} (q : W -> A * W) (ev : A -> event) (f : A -> M W B) (w : W) :
  bind (ask q ev) f w = let (a, w1) := q w in after (ev a) (f a w1).
Proof.
  unfold bind, ask. destruct (q w) as [a w1]. now destruct (f a w1) as [[r w2] t2].
Qed.

Lemma bind_tell {B} (e : event) (f : unit -> M W B) (w : W) :
  bind (tell rt e) f w = after e (f tt (performed rt e w)).
Proof.
  unfold bind, tell. now destruct (f tt (performed rt e w)) as [[r w2] t2].
Qed.

Lemma bind_http_post {B} url data timeout (f : Z * json -> M W B) (w : W) :
  bind (http_post rt url data timeout) f w
  = let (o, w1) := urlopen rt (POST url data timeout) w in
    after (EUrlopen (POST url data timeout) o) (f (post_result o) w1).
Proof.
  unfold http_post, bind, ask, ret.
  destruct (urlopen rt (POST url data timeout) w) as [o w1].
  destruct (f (post_result o) w1) as [[r w2] t2]. reflexivity.
Qed.

Lemma bind_http_get {B} url headers timeout (f : Z * json -> M W B) (w : W) :
  bind (http_get rt url headers timeout) f w
  = let (o, w1) := urlopen rt (GET url headers timeout) w in
    after (EUrlopen (GET url headers timeout) o) (f (get_result o) w1).
Proof.
  unfold http_get, bind, ask, ret.
  destruct (urlopen rt (GET url headers timeout) w) as [o w1].
  destruct (f (get_result o) w1) as [[r w2] t2]. reflexivity.
Qed.

(** A bind whose first half returned goes on with the second. *)
Lemma bind_run {A B} (m : M W A) (f : A -> M W B) (w w1 : W) (a : A) (t1 : list event) :
  m w = (Ok a, w1, t1) ->
  bind m f w = match f a w1 with (r, w2, t2) => (r, w2, t1 ++ t2) end.
Proof. unfold bind. now intros ->. Qed.

End Binds.

(** *** The HTTP client *)

(** An HTTP error keeps its status code, with the decoded body, or the
    reason under "raw" when the body does not decode. *)
Lemma http_error_keeps_code (code : Z) (reason : string) (body : payload) :
  post_result (HTTPError code reason body) = get_result (HTTPError code reason body)
  /\ fst (post_result (HTTPError code reason body)) = code
  /\ (snd (post_result (HTTPError code reason body)) = JDict [("raw", JStr reason)]
      \/ body = Decoded (snd (post_result (HTTPError code reason body)))).
Proof. destruct body; simpl; auto. Qed.

(** With HTTP's status codes, the client returns 0 exactly on a transport
    failure or on a 2xx response whose body does not decode. *)
Lemma status_zero_cases (o : urlopen_outcome) :
  valid_outcome o ->
  (fst (post_result o) = 0 <->
   transport_failure o = true \/ exists status msg, o = Response status (Undecodable msg))
  /\ fst (post_result o) = fst (get_result o).
Proof.
  destruct o as [status [v|msg|msg]|code reason [v|msg|msg]|reason|msg];
    simpl; intros Hv; (split; [split|reflexivity]).
  all: try (intros H; subst; lia).
  all: try (intros _; auto; right; eauto; fail).
  all: try (intros [H|(s & m & H)]; discriminate).
  all: try (intros; reflexivity).
Qed.

(** C2, at the input where the code and the claim part: a 2xx response
    whose body is not JSON is no transport failure, yet [http_post] and
    [http_get] both return status 0 for it, with the decoder's message under
    "error": here status 0 comes from a response that had an HTTP status. *)
Theorem status_zero_without_transport_failure :
  let o := Response 200 (Undecodable "Expecting value: line 1 column 1 (char 0)") in
  transport_failure o = false
  /\ valid_outcome o
  /\ ~ (fst (post_result o) = 0 <-> transport_failure o = true)
  /\ ~ (fst (get_result o) = 0 <-> transport_failure o = true)
  /\ post_result o
     = (0, JDict [("error", JStr "Expecting value: line 1 column 1 (char 0)")])
  /\ get_result o
     = (0, JDict [("error", JStr "Expecting value: line 1 column 1 (char 0)")])
  /\ http_get (scripted (codespace_run [o])) probe_url [] 30 0%nat
     = (Ok (0, JDict [("error", JStr "Expecting value: line 1 column 1 (char 0)")]),
        1%nat, [EUrlopen probe_request o]).
Proof.
  simpl. repeat split; try reflexivity; try lia.
  all: intros [H _]; specialize (H eq_refl); discriminate H.
Qed.

(** *** The fixture: a second registration with the same e-mail *)

Lemma first_by_email_app (db : list Fixture.User) (u : Fixture.User) :
  Fixture.first_by_email (db ++ [u]) (Fixture.email u) <> None.
Proof.
  unfold Fixture.first_by_email. induction db as [|x rest IH]; simpl.
  - rewrite String.eqb_refl. discriminate.
  - destruct (String.eqb (Fixture.email x) (Fixture.email u)); [discriminate | exact IH].
Qed.

(** Whatever the first call did, registering the same body again is
    answered 409 and leaves the table as it is. *)
Lemma register_twice_conflict
  (hash_password : string -> string) (create_token : Z -> string -> string)
  (next_id : list Fixture.User -> Z)
  (db : list Fixture.User) (body : Fixture.RegisterRequest) :
  let db1 := fst (Fixture.register hash_password create_token next_id db body) in
  Fixture.register hash_password create_token next_id db1 body
  = (db1, Fixture.conflict).
Proof.
  intros db1. subst db1. unfold Fixture.register.
  destruct (Fixture.first_by_email db (Fixture.req_email body)) eqn:E; simpl.
  - now rewrite E.
  - match goal with
    | |- context [Fixture.first_by_email (db ++ [?u]) _] =>
        pose proof (first_by_email_app db u) as H; simpl in H;
        destruct (Fixture.first_by_email (db ++ [u]) (Fixture.req_email body));
        [reflexivity | contradiction]
    end.
Qed.

Lemma conflict_on_the_wire :
  post_result (Fixture.on_the_wire Fixture.conflict)
  = (409, JDict [("detail", JStr "Email already registered")]).
Proof. reflexivity. Qed.

(** *** The auth flow *)

Section AuthFlow.

Context {W : Type} (rt : runtime W).

(** [run_auth_test] with its binds carried out: the answers the world gives
    decide the exit, the result and the trace. *)
Lemma run_auth_test_runs (w : W) :
  run_auth_test rt w =
  let (now, w1) := clock rt w in
  let (o1, w2) := urlopen rt (register_request now) w1 in
  let (s1, b1) := post_result o1 in
  let register := ("register", JDict [("status", JInt s1); ("response", b1)]) in
  if not_2xx s1 then
    (Ok (auth_result false now [register]
           [("error", JStr (fstr ["Registration failed (HTTP "; str_of_Z s1; ")"]))]),
     w2, [EClock now; EUrlopen (register_request now) o1])
  else
  let (o2, w3) := urlopen rt (login_request now) w2 in
  let (s2, b2) := post_result o2 in
  let login := ("login", JDict [("status", JInt s2)]) in
  let tr := [EClock now; EUrlopen (register_request now) o1;
             EUrlopen (login_request now) o2] in
  if not_2xx s2 then
    (Ok (auth_result false now [register; login]
           [("error", JStr (fstr ["Login failed (HTTP "; str_of_Z s2; ")"]))]),
     w3, tr)
  else
  match extract_token b2 with
  | Raised e => (Raised e, w3, tr)
  | Ok token =>
      if truthy token then
        let (o3, w4) := urlopen rt (verify_request rt token) w3 in
        let (s3, b3) := get_result o3 in
        (Ok (auth_result true now
               [register; login; ("verify_token", JDict [("status", JInt s3)])]
               [("token_verified", JBool (is_2xx s3))]),
         performed rt (saved_credentials now) w4,
         tr ++ [EUrlopen (verify_request rt token) o3; saved_credentials now])
      else
        match dict_keys b2 with
        | Raised e => (Raised e, w3, tr)
        | Ok ks =>
            (Ok (auth_result false now [register; login]
                   [("error",
                     JStr (fstr ["Login response has no token field. Keys: ";
                                 py_repr rt (JList (map JStr ks))]))]),
             w3, tr)
        end
  end.
Proof.
  unfold run_auth_test, register_request, login_request, verify_request.
  rewrite bind_ask. destruct (clock rt w) as [now w1].
  rewrite bind_http_post.
  destruct (urlopen rt (POST register_url (register_data now) 30) w1) as [o1 w2].
  destruct (post_result o1) as [s1 b1]. cbv zeta.
  destruct (not_2xx s1); [reflexivity|].
  rewrite bind_http_post.
  destruct (urlopen rt (POST login_url (login_data now) 30) w2) as [o2 w3].
  destruct (post_result o2) as [s2 b2]. cbv zeta.
  destruct (not_2xx s2); [reflexivity|].
  rewrite bind_lift.
  destruct (extract_token b2) as [token|e]; [|reflexivity].
  destruct (truthy token); cbn [negb]; cbv iota.
  - rewrite bind_http_get.
    destruct (urlopen rt (GET me_url (bearer rt token) 10) w3) as [o3 w4].
    destruct (get_result o3) as [s3 b3].
    rewrite bind_tell. reflexivity.
  - rewrite bind_lift. destruct (dict_keys b2); reflexivity.
Qed.

(** The flow when registration is refused. *)
Lemma registration_refused (w w1 w2 : W) (now : Z) (o : urlopen_outcome) :
  clock rt w = (now, w1) ->
  urlopen rt (register_request now) w1 = (o, w2) ->
  not_2xx (fst (post_result o)) = true ->
  exists result,
    run_auth_test rt w
    = (Ok result, w2, [EClock now; EUrlopen (register_request now) o])
    /\ lookup "success" result = Some (JBool false)
    /\ lookup "error" result
       = Some (JStr (fstr ["Registration failed (HTTP ";
                           str_of_Z (fst (post_result o)); ")"]))
    /\ exists steps, lookup "steps" result = Some (JDict steps)
       /\ keys steps = ["register"]
       /\ step_result steps "register" (fst (post_result o)) (snd (post_result o)).
Proof.
  intros Hc Hr Hbad. rewrite run_auth_test_runs, Hc, Hr.
  destruct (post_result o) as [status body]. cbn [fst snd] in *. cbv zeta.
  rewrite Hbad.
  eexists. split; [reflexivity|]. split; [reflexivity|]. split; [reflexivity|].
  eexists. split; [reflexivity|]. split; [reflexivity|].
  eexists. repeat split; reflexivity.
Qed.

(** C6: a registration answered with a status outside [200,300) -- the
    conflict reply the fixture gives to a second registration of the same
    e-mail included -- makes the flow return at once with [success] false
    and an error message; the trace ends with the register call, so no login
    request was sent. *)
Theorem registration_failure_stops_flow (w w1 w2 : W) (now : Z) (o : urlopen_outcome) :
  clock rt w = (now, w1) ->
  urlopen rt (register_request now) w1 = (o, w2) ->
  (fst (post_result o) < 200
   \/ fst (post_result o) >= 300
   \/ exists hash_password create_token next_id db body,
        o = Fixture.on_the_wire
              (snd (Fixture.register hash_password create_token next_id
                      (fst (Fixture.register hash_password create_token next_id db body))
                      body))) ->
  exists result,
    run_auth_test rt w
    = (Ok result, w2, [EClock now; EUrlopen (register_request now) o])
    /\ lookup "success" result = Some (JBool false)
    /\ lookup "error" result
       = Some (JStr (fstr ["Registration failed (HTTP ";
                           str_of_Z (fst (post_result o)); ")"])).
Proof.
  intros Hc Hr Hbad.
  assert (Hst : not_2xx (fst (post_result o)) = true).
  { apply not_2xx_spec.
    destruct Hbad as [H|[H|(hp & ct & ni & db & body & H)]]; [lia | lia |].
    rewrite register_twice_conflict in H. subst o.
    cbn [snd]. rewrite conflict_on_the_wire. simpl. lia. }
  destruct (registration_refused w w1 w2 now o Hc Hr Hst) as (result & Hrun & Hs & He & _).
  exists result. auto.
Qed.

(** The flow once registration and login are through and the login body
    holds a token. *)
Lemma token_obtained (w w1 w2 w3 w4 : W) (now : Z) (o1 o2 o3 : urlopen_outcome)
  (token : json) :
  clock rt w = (now, w1) ->
  urlopen rt (register_request now) w1 = (o1, w2) ->
  is_2xx (fst (post_result o1)) = true ->
  urlopen rt (login_request now) w2 = (o2, w3) ->
  is_2xx (fst (post_result o2)) = true ->
  extract_token (snd (post_result o2)) = Ok token ->
  truthy token = true ->
  urlopen rt (verify_request rt token) w3 = (o3, w4) ->
  exists result,
    run_auth_test rt w
    = (Ok result, performed rt (saved_credentials now) w4,
       [EClock now; EUrlopen (register_request now) o1;
        EUrlopen (login_request now) o2;
        EUrlopen (verify_request rt token) o3; saved_credentials now])
    /\ lookup "success" result = Some (JBool true)
    /\ lookup "token_verified" result = Some (JBool (is_2xx (fst (get_result o3))))
    /\ lookup "error" result = None.
Proof.
  intros Hc Hr H1 Hl H2 Ht Htr Hv. rewrite run_auth_test_runs, Hc, Hr.
  destruct (post_result o1) as [s1 b1]. cbn [fst snd] in *. cbv zeta.
  rewrite not_2xx_is_2xx, H1. cbn [negb]. rewrite Hl.
  destruct (post_result o2) as [s2 b2]. cbn [fst snd] in *.
  rewrite not_2xx_is_2xx, H2. cbn [negb]. rewrite Ht, Htr, Hv.
  destruct (get_result o3) as [s3 b3]. cbn [fst].
  eexists. split; [reflexivity|]. repeat split; reflexivity.
Qed.

(** C4: with registration and login answered 2xx and a token found in the
    login body, [success] is true whatever the verify call returns, and
    [token_verified] is true exactly when that call's status is in
    [200,300). *)
Theorem verify_does_not_gate_success (w w1 w2 w3 w4 : W) (now : Z)
  (o1 o2 o3 : urlopen_outcome) (token : json) :
  clock rt w = (now, w1) ->
  urlopen rt (register_request now) w1 = (o1, w2) ->
  200 <= fst (post_result o1) < 300 ->
  urlopen rt (login_request now) w2 = (o2, w3) ->
  200 <= fst (post_result o2) < 300 ->
  extract_token (snd (post_result o2)) = Ok token ->
  truthy token = true ->
  urlopen rt (verify_request rt token) w3 = (o3, w4) ->
  exists result w5 tr,
    run_auth_test rt w = (Ok result, w5, tr)
    /\ lookup "success" result = Some (JBool true)
    /\ exists verified,
         lookup "token_verified" result = Some (JBool verified)
         /\ (verified = true <-> 200 <= fst (get_result o3) < 300).
Proof.
  intros Hc Hr H1 Hl H2 Ht Htr Hv.
  apply is_2xx_spec in H1. apply is_2xx_spec in H2.
  destruct (token_obtained w w1 w2 w3 w4 now o1 o2 o3 token Hc Hr H1 Hl H2 Ht Htr Hv)
    as (result & Hrun & Hs & Htv & _).
  exists result. do 2 eexists. split; [exact Hrun|]. split; [exact Hs|].
  eexists. split; [exact Htv|]. apply is_2xx_spec.
Qed.

(** The or-chain of the source picks what the priority list picks. *)
Lemma extract_token_first_nonempty (d : dict) :
  match first_nonempty token_fields d with
  | Some v => extract_token (JDict d) = Ok v /\ truthy v = true
  | None => exists v, extract_token (JDict d) = Ok v /\ truthy v = false
  end.
Proof.
  unfold extract_token, get, get_or, token_fields, first_nonempty, and_then.
  destruct (lookup "token" d) as [v1|]; [destruct (truthy v1) eqn:E1; [auto|]|];
  (destruct (lookup "access_token" d) as [v2|]; [destruct (truthy v2) eqn:E2; [auto|]|]);
  (destruct (lookup "idToken" d) as [v3|]; [destruct (truthy v3) eqn:E3; [auto|]|]);
  (destruct (lookup "id_token" d) as [v4|]; [destruct (truthy v4) eqn:E4; [auto|]|]);
  simpl; eauto.
Qed.

(** The flow when the login body holds no token. *)
Lemma token_missing (w w1 w2 w3 : W) (now : Z) (o1 o2 : urlopen_outcome) (d : dict) :
  clock rt w = (now, w1) ->
  urlopen rt (register_request now) w1 = (o1, w2) ->
  is_2xx (fst (post_result o1)) = true ->
  urlopen rt (login_request now) w2 = (o2, w3) ->
  is_2xx (fst (post_result o2)) = true ->
  snd (post_result o2) = JDict d ->
  first_nonempty token_fields d = None ->
  exists result,
    run_auth_test rt w
    = (Ok result, w3,
       [EClock now; EUrlopen (register_request now) o1; EUrlopen (login_request now) o2])
    /\ lookup "success" result = Some (JBool false)
    /\ lookup "error" result
       = Some (JStr (fstr ["Login response has no token field. Keys: ";
                           py_repr rt (JList (map JStr (keys d)))])).
Proof.
  intros Hc Hr H1 Hl H2 Hd Hnone.
  pose proof (extract_token_first_nonempty d) as Hx. rewrite Hnone in Hx.
  destruct Hx as (v & Hv & Hf). clear Hnone.
  rewrite run_auth_test_runs, Hc, Hr.
  destruct (post_result o1) as [s1 b1]. cbn [fst snd] in *. cbv zeta.
  rewrite not_2xx_is_2xx, H1. cbn [negb]. rewrite Hl.
  destruct (post_result o2) as [s2 b2]. cbn [fst snd] in *. subst b2.
  rewrite not_2xx_is_2xx, H2. cbn [negb]. rewrite Hv, Hf. cbn [dict_keys].
  eexists. split; [reflexivity|]. split; reflexivity.
Qed.

(** C5: the login body is probed under token, access_token, idToken and
    id_token, in this order, and the first value that is present and
    non-empty is the token: it is what the verify call sends as bearer.  A
    non-empty token field wins whatever access_token holds.  When none of
    the four is present and non-empty the flow returns with [success] false
    and an error that lists the keys of the body. *)
Theorem token_priority (w w1 w2 w3 : W) (now : Z) (o1 o2 : urlopen_outcome) (d : dict) :
  clock rt w = (now, w1) ->
  urlopen rt (register_request now) w1 = (o1, w2) ->
  200 <= fst (post_result o1) < 300 ->
  urlopen rt (login_request now) w2 = (o2, w3) ->
  200 <= fst (post_result o2) < 300 ->
  snd (post_result o2) = JDict d ->
  (forall token, first_nonempty token_fields d = Some token ->
     extract_token (JDict d) = Ok token
     /\ forall o3 w4, urlopen rt (verify_request rt token) w3 = (o3, w4) ->
        exists result w5 saved,
          run_auth_test rt w
          = (Ok result, w5,
             [EClock now; EUrlopen (register_request now) o1;
              EUrlopen (login_request now) o2;
              EUrlopen (verify_request rt token) o3; saved])
          /\ lookup "success" result = Some (JBool true))
  /\ (forall v, lookup "token" d = Some v -> truthy v = true ->
       first_nonempty token_fields d = Some v)
  /\ (first_nonempty token_fields d = None ->
      exists result,
        run_auth_test rt w
        = (Ok result, w3,
           [EClock now; EUrlopen (register_request now) o1;
            EUrlopen (login_request now) o2])
        /\ lookup "success" result = Some (JBool false)
        /\ lookup "error" result
           = Some (JStr (fstr ["Login response has no token field. Keys: ";
                               py_repr rt (JList (map JStr (keys d)))]))).
Proof.
  intros Hc Hr H1 Hl H2 Hd.
  apply is_2xx_spec in H1. apply is_2xx_spec in H2.
  split; [|split].
  - intros token Hsome.
    pose proof (extract_token_first_nonempty d) as Hx. rewrite Hsome in Hx.
    destruct Hx as [Hx Htr]. split; [exact Hx|].
    intros o3 w4 Hv. rewrite <- Hd in Hx.
    destruct (token_obtained w w1 w2 w3 w4 now o1 o2 o3 token Hc Hr H1 Hl H2 Hx Htr Hv)
      as (result & Hrun & Hs & _).
    exists result. do 2 eexists. split; [exact Hrun | exact Hs].
  - intros v Hv Htr. simpl. now rewrite Hv, Htr.
  - intros Hnone. exact (token_missing w w1 w2 w3 now o1 o2 d Hc Hr H1 Hl H2 Hd Hnone).
Qed.

(** C10, as the code has it: when the flow returns, its steps mapping holds
    one entry per HTTP call that was made, in call order under the names
    register, login and verify_token, each with the status of its call
    under "status"; the register entry also holds the response of its call,
    the login and verify_token entries hold the status and nothing else. *)
Theorem steps_record_each_call (w w' : W) (result : dict) (tr : list event) :
  run_auth_test rt w = (Ok result, w', tr) ->
  exists steps,
    lookup "steps" result = Some (JDict steps)
    /\ map (fun kv => entry_status (snd kv)) steps
       = map (fun status => Some (JInt status)) (http_statuses tr)
    /\ keys steps = firstn (length (http_statuses tr)) ["register"; "login"; "verify_token"]
    /\ (exists r o, nth_error tr 1 = Some (EUrlopen r o)
                   /\ step_result steps "register" (fst (post_result o)) (snd (post_result o)))
    /\ (forall name entry, name <> "register" ->
          lookup name steps = Some entry ->
          exists status, entry = JDict [("status", JInt status)]).
Proof.
  intros H. rewrite run_auth_test_runs in H.
  repeat (match type of H with
          | context [match ?x with _ => _ end] => destruct x eqn:?
          end; cbv zeta in H; try discriminate H).
  all: inversion H; subst; clear H; simpl.
  all: repeat match goal with
         | E : post_result ?o = (_, _) |- _ => rewrite !E; revert E
         | E : get_result ?o = (_, _) |- _ => rewrite !E; revert E
         end; intros; simpl.
  all: eexists; split; [reflexivity|]; simpl.
  all: repeat split; try reflexivity.
  all: try (do 2 eexists; split; [reflexivity|];
            match goal with
            | E : post_result ?o = (_, _) |- context [post_result ?o] => rewrite !E
            end;
            eexists; repeat split; reflexivity).
  all: intros name entry Hne; simpl;
    repeat match goal with
      | |- context [String.eqb name ?k] => destruct (String.eqb_spec name k); subst
      end; try contradiction; try discriminate;
    intros Hl; inversion Hl; eauto.
Qed.

End AuthFlow.

(** *** The connectivity check *)

Section Probe.

Context {W : Type} (rt : runtime W).

(** With HTTP's status codes a status is positive or the client's 0, and
    with status 0 the body is the client's own error dict. *)
Lemma get_result_status (o : urlopen_outcome) :
  valid_outcome o ->
  (fst (get_result o) >? 0) = negb (fst (get_result o) =? 0)
  /\ (fst (get_result o) = 0 -> exists msg, snd (get_result o) = JDict [("error", JStr msg)]).
Proof.
  destruct o as [status [v|msg|msg]|code reason [v|msg|msg]|reason|msg]; simpl; intros Hv.
  all: split; [|intros H0; try lia; eauto].
  all: try reflexivity.
  all: match goal with
       | |- (?x >? 0) = negb (?x =? 0) =>
           destruct (Z.gtb_spec x 0), (Z.eqb_spec x 0); simpl; try reflexivity; lia
       end.
Qed.

(** One turn of the loop. *)
Lemma wake_loop_turn (attempt : Z) (rest : list Z) (w : W) :
  valid_outcome (fst (urlopen rt probe_request w)) ->
  wake_loop rt (attempt :: rest) w =
  let (o, w1) := urlopen rt probe_request w in
  if fst (get_result o) =? 0 then
    after (probed o)
      (if attempt <? WAKE_RETRIES - 1 then
         match index WAKE_DELAYS attempt with
         | Ok delay =>
             after (ESleep delay) (wake_loop rt rest (performed rt (ESleep delay) w1))
         | Raised e => (Raised e, w1, [])
         end
       else wake_loop rt rest w1)
  else (Ok true, w1, [probed o]).
Proof.
  intros Hv. cbn [wake_loop]. rewrite bind_http_get. unfold probe_request in *.
  destruct (urlopen rt (GET probe_url [] 30) w) as [o w1]. simpl in Hv.
  destruct (get_result_status o Hv) as [Hgt Hbody].
  destruct (get_result o) as [status body]. cbn [fst snd] in *.
  rewrite Hgt. destruct (Z.eqb_spec status 0) as [H0|H0]; cbn [negb]; [|reflexivity].
  destruct (Hbody H0) as [msg ->]. rewrite bind_lift. cbn [get].
  destruct (attempt <? WAKE_RETRIES - 1).
  - destruct (index WAKE_DELAYS attempt) as [delay|e];
      unfold bind, lift, ret, raise, tell, after;
      [destruct (wake_loop rt rest (performed rt (ESleep delay) w1)) as [[r w2] t2]|];
      reflexivity.
  - rewrite bind_ret. reflexivity.
Qed.

(** The loop returns whatever attempts it is given from the range of the
    script, and touches neither stdout nor the results file. *)
Lemma wake_loop_returns (attempts : list Z) (w : W) :
  statuses_valid rt ->
  Forall (fun attempt => 0 <= attempt < WAKE_RETRIES) attempts ->
  exists reachable w' tr,
    wake_loop rt attempts w = (Ok reachable, w', tr) /\ forallb silent tr = true.
Proof.
  intros Hv Hall. revert w.
  induction Hall as [|attempt rest Hrange _ IH]; intros w.
  { exists false, w, []. split; reflexivity. }
  rewrite wake_loop_turn by apply Hv.
  destruct (urlopen rt probe_request w) as [o w1].
  destruct (fst (get_result o) =? 0).
  2:{ exists true, w1, [probed o]. split; reflexivity. }
  destruct (Z.ltb_spec attempt (WAKE_RETRIES - 1)) as [Hlt|Hge].
  - assert (Hdelay : exists delay, index WAKE_DELAYS attempt = Ok delay).
    { unfold WAKE_RETRIES in *.
      assert (attempt = 0 \/ attempt = 1 \/ attempt = 2) as [->|[->| ->]] by lia;
        eexists; reflexivity. }
    destruct Hdelay as [delay ->].
    destruct (IH (performed rt (ESleep delay) w1)) as (reachable & w' & tr & Hrun & Hq).
    rewrite Hrun. exists reachable, w', (probed o :: ESleep delay :: tr).
    split; [reflexivity | exact Hq].
  - destruct (IH w1) as (reachable & w' & tr & Hrun & Hq).
    rewrite Hrun. exists reachable, w', (probed o :: tr).
    split; [reflexivity | exact Hq].
Qed.

(** The attempt answered by [o] is in the trace and its status is not 0. *)
Ltac attempt_answers o E :=
  split; [intros _ | reflexivity]; exists probe_request, o;
  split; [unfold probed; simpl; tauto | exact E].

(** C7: the connectivity check makes at most four GETs.  An attempt whose
    status is not 0 ends it with true and nothing after it; an attempt with
    status 0 is followed by the sleep of the schedule (10, 15, 15 seconds)
    and the next attempt, except the fourth, which ends the check with false
    and no sleep.  So the check returns true exactly when some attempt of
    the trace has a non-zero status. *)
Theorem probe_schedule (w : W) :
  statuses_valid rt ->
  exists reachable w' tr,
    wake_loop rt (range WAKE_RETRIES) w = (Ok reachable, w', tr)
    /\ (reachable = true <->
        exists r o, In (EUrlopen r o) tr /\ status_of_call r o <> 0)
    /\ ((exists o1, tr = [probed o1] /\ fst (get_result o1) <> 0 /\ reachable = true)
        \/ (exists o1 o2,
              tr = [probed o1; ESleep 10; probed o2]
              /\ fst (get_result o1) = 0 /\ fst (get_result o2) <> 0
              /\ reachable = true)
        \/ (exists o1 o2 o3,
              tr = [probed o1; ESleep 10; probed o2; ESleep 15; probed o3]
              /\ fst (get_result o1) = 0 /\ fst (get_result o2) = 0
              /\ fst (get_result o3) <> 0 /\ reachable = true)
        \/ (exists o1 o2 o3 o4,
              tr = [probed o1; ESleep 10; probed o2; ESleep 15; probed o3;
                    ESleep 15; probed o4]
              /\ fst (get_result o1) = 0 /\ fst (get_result o2) = 0
              /\ fst (get_result o3) = 0
              /\ (reachable = true <-> fst (get_result o4) <> 0))).
Proof.
  intros Hv. change (range WAKE_RETRIES) with [0; 1; 2; 3].
  rewrite wake_loop_turn by apply Hv.
  destruct (urlopen rt probe_request w) as [o1 w1].
  destruct (Z.eqb_spec (fst (get_result o1)) 0) as [E1|E1].
  2:{ exists true, w1, [probed o1]. split; [reflexivity|]. split.
      - attempt_answers o1 E1.
      - left. eauto. }
  change (0 <? WAKE_RETRIES - 1) with true.
  change (index WAKE_DELAYS 0) with (@Ok Z 10). cbv iota.
  rewrite wake_loop_turn by apply Hv.
  destruct (urlopen rt probe_request (performed rt (ESleep 10) w1)) as [o2 w2].
  destruct (Z.eqb_spec (fst (get_result o2)) 0) as [E2|E2].
  2:{ exists true, w2, [probed o1; ESleep 10; probed o2]. split; [reflexivity|]. split.
      - attempt_answers o2 E2.
      - right. left. exists o1, o2. auto. }
  change (1 <? WAKE_RETRIES - 1) with true.
  change (index WAKE_DELAYS 1) with (@Ok Z 15). cbv iota.
  rewrite wake_loop_turn by apply Hv.
  destruct (urlopen rt probe_request (performed rt (ESleep 15) w2)) as [o3 w3].
  destruct (Z.eqb_spec (fst (get_result o3)) 0) as [E3|E3].
  2:{ exists true, w3, [probed o1; ESleep 10; probed o2; ESleep 15; probed o3].
      split; [reflexivity|]. split.
      - attempt_answers o3 E3.
      - right. right. left. exists o1, o2, o3. auto. }
  change (2 <? WAKE_RETRIES - 1) with true.
  change (index WAKE_DELAYS 2) with (@Ok Z 15). cbv iota.
  rewrite wake_loop_turn by apply Hv.
  destruct (urlopen rt probe_request (performed rt (ESleep 15) w3)) as [o4 w4].
  change (3 <? WAKE_RETRIES - 1) with false. cbn [wake_loop ret after].
  destruct (Z.eqb_spec (fst (get_result o4)) 0) as [E4|E4].
  - exists false, w4,
      [probed o1; ESleep 10; probed o2; ESleep 15; probed o3; ESleep 15; probed o4].
    split; [reflexivity|]. split.
    + split; [discriminate|]. intros (r & o & Hin & Hne). exfalso. simpl in Hin.
      repeat (destruct Hin as [Hin|Hin]; [inversion Hin; subst; simpl in Hne; congruence|]).
      exact Hin.
    + right. right. right. exists o1, o2, o3, o4.
      split; [reflexivity|]. repeat split; auto; try discriminate; congruence.
  - exists true, w4,
      [probed o1; ESleep 10; probed o2; ESleep 15; probed o3; ESleep 15; probed o4].
    split; [reflexivity|]. split.
    + attempt_answers o4 E4.
    + right. right. right. exists o1, o2, o3, o4. repeat split; auto.
Qed.

End Probe.

(** *** The feature loader *)

Section Features.

Context {W : Type} (rt : runtime W).

Lemma completed_names_in_order (entries : list dict) :
  Forall (fun entry => completed entry = true -> lookup "name" entry <> None) entries ->
  completed_names (map JDict entries) = Ok (names_in_order entries).
Proof.
  induction 1 as [|entry rest Hname _ IH]; [reflexivity|].
  cbn [map completed_names names_in_order].
  unfold is_completed, get, get_or, completed in *. cbn [and_then].
  destruct (lookup "status" entry) as [status|]; cbn [eq_str orb].
  - destruct (eq_str status "completed" || eq_str status "done").
    + cbn [subscript getitem]. unfold getitem.
      destruct (lookup "name" entry) as [name|]; [|now destruct Hname].
      cbn [and_then]. now rewrite IH.
    + exact IH.
  - exact IH.
Qed.

(** C9: the loader asks for features.json once and never raises.  For a
    file that decodes to an object whose "features" is a list of objects,
    each selected one with a name, it returns the names of the entries whose
    status is "completed" or "done", in file order; for the file of the
    example it returns ["X"]; for a missing file, a file that does not load,
    or a decoded value on which the selection raises, it returns the empty
    list. *)
Theorem read_features_selects (w w' : W) (o : load_outcome) :
  json_load rt "features.json" w = (o, w') ->
  exists names,
    read_features rt w = (Ok names, w', [ELoad "features.json" o])
    /\ (forall top entries,
          o = Loaded (JDict top) ->
          lookup "features" top = Some (JList (map JDict entries)) ->
          Forall (fun entry => completed entry = true -> lookup "name" entry <> None)
                 entries ->
          names = names_in_order entries)
    /\ (o = Loaded example_features -> names = [JStr "X"])
    /\ (o = NoSuchFile \/ o = LoadError -> names = [])
    /\ (forall data e, o = Loaded data -> select_features data = Raised e -> names = []).
Proof.
  intros Hload. unfold read_features. rewrite bind_ask, Hload.
  destruct o as [data| |].
  - destruct (select_features data) as [names|e] eqn:Hsel.
    + exists names. split; [reflexivity|]. repeat split.
      * intros top entries Hd Hf Hnamed. inversion Hd; subst data.
        unfold select_features, get, get_or in Hsel. rewrite Hf in Hsel.
        cbn [and_then iterate] in Hsel.
        rewrite (completed_names_in_order entries Hnamed) in Hsel. congruence.
      * intros Hd. inversion Hd; subst data. vm_compute in Hsel. congruence.
      * intros [H|H]; discriminate H.
      * intros data' e Hd Hraised. inversion Hd; subst data'. congruence.
    + exists []. split; [reflexivity|]. repeat split.
      * intros top entries Hd Hf Hnamed. inversion Hd; subst data.
        unfold select_features, get, get_or in Hsel. rewrite Hf in Hsel.
        cbn [and_then iterate] in Hsel.
        rewrite (completed_names_in_order entries Hnamed) in Hsel. discriminate.
      * intros Hd. inversion Hd; subst data. vm_compute in Hsel. discriminate.
  - exists []. split; [reflexivity|]. repeat split; discriminate.
  - exists []. split; [reflexivity|]. repeat split; discriminate.
Qed.

End Features.

(** *** The browser-agent invoker *)

Section Invoker.

Context {W : Type} (rt : runtime W).

Lemma for_each_documented (ts : list dict) :
  Forall documented_test ts -> for_each log_test (map JDict ts) = Ok tt.
Proof.
  induction 1 as [|t rest Ht _ IH]; [reflexivity|].
  cbn [map for_each]. unfold log_test, get, get_or. cbn [and_then].
  destruct (lookup "notes" t) as [notes|] eqn:E.
  - destruct (Ht notes E) as [s ->]. exact IH.
  - exact IH.
Qed.

Lemma log_smoke_documented (smoke : dict) :
  documented_smoke smoke -> log_smoke smoke = Ok tt.
Proof.
  intros [Htests Hissues]. unfold log_smoke, get_or, getitem.
  assert (Hfirst :
    (if truthy match lookup "tests" smoke with Some v => v | None => JNull end
     then and_then match lookup "tests" smoke with
                   | Some v => Ok v
                   | None => Raised KeyError
                   end
            (fun tests => and_then (iterate tests) (for_each log_test))
     else Ok tt) = Ok tt).
  { destruct (lookup "tests" smoke) as [v|]; [|reflexivity].
    destruct (Htests v eq_refl) as (ts & -> & Hts).
    destruct (truthy (JList (map JDict ts))); [|reflexivity].
    cbn [and_then iterate]. now apply for_each_documented. }
  rewrite Hfirst. cbn [and_then].
  destruct (lookup "critical_issues" smoke) as [v|]; [|reflexivity].
  destruct (Hissues v eq_refl) as (issues & ->).
  now destruct (truthy (JList issues)).
Qed.

Lemma documented_smoke_assign (k : string) (v : json) (smoke : dict) :
  k <> "tests" -> k <> "critical_issues" ->
  documented_smoke smoke -> documented_smoke (assign k v smoke).
Proof.
  intros H1 H2 [Htests Hissues]. split; intros x Hx;
    rewrite lookup_assign_other in Hx by congruence; auto.
Qed.

(** The 2xx branch on a body of the documented shape. *)
Lemma unwrap_smoke_documented (top inner : dict) :
  smoke_part top inner ->
  documented_smoke inner ->
  exists smoke,
    unwrap_smoke (JDict top) = Ok smoke
    /\ lookup "service_reachable" smoke = Some (JBool true)
    /\ lookup "screenshotUrls" smoke
       = match lookup "screenshotUrls" inner with
         | Some urls => Some urls
         | None => lookup "screenshotUrls" top
         end
    /\ forall k, k <> "service_reachable" -> k <> "screenshotUrls" ->
                 lookup k smoke = lookup k inner.
Proof.
  intros Hpart Hdoc. unfold unwrap_smoke, get, get_or. cbn [and_then].
  assert (Hsmoke : match lookup "smokeTestResults" top with
                   | Some v => v
                   | None => JDict top
                   end = JDict inner).
  { destruct Hpart as [-> | [-> ->]]; reflexivity. }
  rewrite Hsmoke.
  set (flagged := assign "service_reachable" (JBool true) inner).
  assert (Hflag : has_key "screenshotUrls" flagged = has_key "screenshotUrls" inner).
  { apply has_key_assign_other. discriminate. }
  assert (Hdoc1 : documented_smoke flagged).
  { apply documented_smoke_assign; [discriminate | discriminate | exact Hdoc]. }
  rewrite Hflag. unfold has_key.
  destruct (lookup "screenshotUrls" top) as [urls|] eqn:Etop;
    [destruct (lookup "screenshotUrls" inner) as [own|] eqn:Einner|]; cbn [negb].
  - rewrite (log_smoke_documented flagged Hdoc1). cbn [and_then].
    exists flagged. split; [reflexivity|]. subst flagged. split; [|split].
    + apply lookup_assign_same.
    + rewrite lookup_assign_other by discriminate. rewrite Einner. reflexivity.
    + intros k Hk _. now apply lookup_assign_other.
  - rewrite (log_smoke_documented (assign "screenshotUrls" urls flagged)).
    2:{ apply documented_smoke_assign; [discriminate | discriminate | exact Hdoc1]. }
    cbn [and_then]. eexists. split; [reflexivity|]. subst flagged. split; [|split].
    + rewrite lookup_assign_other by discriminate. apply lookup_assign_same.
    + apply lookup_assign_same.
    + intros k Hk Hk'. rewrite !lookup_assign_other by assumption. reflexivity.
  - rewrite (log_smoke_documented flagged Hdoc1). cbn [and_then].
    exists flagged. split; [reflexivity|]. subst flagged. split; [|split].
    + apply lookup_assign_same.
    + rewrite lookup_assign_other by discriminate.
      now destruct (lookup "screenshotUrls" inner).
    + intros k Hk _. now apply lookup_assign_other.
Qed.

(** With HTTP's status codes, status 0 comes with the client's own error
    dict. *)
Lemma post_result_status (o : urlopen_outcome) :
  valid_outcome o ->
  fst (post_result o) = 0 ->
  exists msg, snd (post_result o) = JDict [("error", JStr msg)].
Proof.
  destruct o as [status [v|msg|msg]|code reason [v|msg|msg]|reason|msg];
    simpl; intros Hv H0; try lia; eauto.
Qed.

(** The invoker is one POST followed by [smoke_result]. *)
Lemma call_browser_agent_runs (frontend_url email password : json)
  (features : list json) (w : W) :
  call_browser_agent rt frontend_url email password features w =
  let (o, w') := urlopen rt (smoke_request frontend_url email password features) w in
  (smoke_result rt (fst (post_result o)) (snd (post_result o)), w',
   [EUrlopen (smoke_request frontend_url email password features) o]).
Proof.
  unfold call_browser_agent, smoke_request. rewrite bind_http_post.
  destruct (urlopen rt (POST smoke_url
                          (smoke_data frontend_url email password features) 180) w)
    as [o w'].
  destruct (post_result o) as [status body]. cbn [fst snd].
  unfold lift, ret, raise, after. now destruct (smoke_result rt status body).
Qed.

Lemma smoke_result_skipped (msg : string) :
  smoke_result rt 0 (JDict [("error", JStr msg)])
  = Ok [("overall", JStr "skipped");
        ("reason", JStr (fstr ["Browser agent unreachable: "; msg]));
        ("service_reachable", JBool false)].
Proof. reflexivity. Qed.

Lemma smoke_result_error (status : Z) (body : json) :
  status <> 0 ->
  status < 200 \/ status >= 300 ->
  smoke_result rt status body
  = Ok [("overall", JStr "error");
        ("error", JStr (fstr ["Browser agent returned HTTP "; str_of_Z status]));
        ("detail", body);
        ("service_reachable", JBool true)].
Proof.
  intros Hne Hout. unfold smoke_result.
  destruct (Z.eqb_spec status 0); [contradiction|].
  apply not_2xx_spec in Hout. now rewrite Hout.
Qed.

Lemma smoke_result_unwraps (status : Z) (body : json) :
  200 <= status < 300 -> smoke_result rt status body = unwrap_smoke body.
Proof.
  intros H2. unfold smoke_result.
  destruct (Z.eqb_spec status 0); [lia|].
  apply is_2xx_spec in H2. now rewrite not_2xx_is_2xx, H2.
Qed.

(** C3, as the code has it: the invoker makes one POST and its result
    follows the status.  Status 0 gives the skipped result with the
    client's error message in the reason and [service_reachable] false; any
    other status outside [200,300) gives the error result with the body as
    detail and [service_reachable] true; a 2xx body of the documented shape
    gives the object under "smokeTestResults" when that key is there (the
    body itself otherwise) with [service_reachable] set to true and the
    top-level screenshotUrls added only when the inner object has none. *)
Theorem browser_agent_result (frontend_url email password : json)
  (features : list json) (w w' : W) (o : urlopen_outcome) :
  urlopen rt (smoke_request frontend_url email password features) w = (o, w') ->
  valid_outcome o ->
  exists r,
    call_browser_agent rt frontend_url email password features w
    = (r, w', [EUrlopen (smoke_request frontend_url email password features) o])
    /\ (fst (post_result o) = 0 ->
        exists msg,
          snd (post_result o) = JDict [("error", JStr msg)]
          /\ r = Ok [("overall", JStr "skipped");
                     ("reason", JStr (fstr ["Browser agent unreachable: "; msg]));
                     ("service_reachable", JBool false)])
    /\ (fst (post_result o) <> 0 ->
        fst (post_result o) < 200 \/ fst (post_result o) >= 300 ->
        r = Ok [("overall", JStr "error");
                ("error", JStr (fstr ["Browser agent returned HTTP ";
                                      str_of_Z (fst (post_result o))]));
                ("detail", snd (post_result o));
                ("service_reachable", JBool true)])
    /\ (200 <= fst (post_result o) < 300 ->
        forall top inner,
          snd (post_result o) = JDict top ->
          smoke_part top inner ->
          documented_smoke inner ->
          exists smoke,
            r = Ok smoke
            /\ lookup "service_reachable" smoke = Some (JBool true)
            /\ lookup "screenshotUrls" smoke
               = match lookup "screenshotUrls" inner with
                 | Some urls => Some urls
                 | None => lookup "screenshotUrls" top
                 end
            /\ forall k, k <> "service_reachable" -> k <> "screenshotUrls" ->
                         lookup k smoke = lookup k inner).
Proof.
  intros Hcall Hv. rewrite call_browser_agent_runs, Hcall.
  eexists. split; [reflexivity|]. split; [|split].
  - intros H0. destruct (post_result_status o Hv H0) as [msg Hbody].
    exists msg. split; [exact Hbody|]. rewrite H0, Hbody. apply smoke_result_skipped.
  - intros Hne Hout. now apply smoke_result_error.
  - intros H2 top inner Hbody Hpart Hdoc.
    rewrite (smoke_result_unwraps _ _ H2), Hbody.
    exact (unwrap_smoke_documented top inner Hpart Hdoc).
Qed.

End Invoker.

(** *** Main *)

Section Main.

Context {W : Type} (rt : runtime W).

Lemma run_auth_test_returns (w : W) :
  login_answers_object rt ->
  exists auth w' tr success email password,
    run_auth_test rt w = (Ok auth, w', tr)
    /\ lookup "success" auth = Some (JBool success)
    /\ lookup "email" auth = Some (JStr email)
    /\ lookup "password" auth = Some (JStr password)
    /\ forallb silent tr = true.
Proof.
  intros Hlogin. rewrite run_auth_test_runs.
  destruct (clock rt w) as [now w1].
  destruct (urlopen rt (register_request now) w1) as [o1 w2].
  destruct (post_result o1) as [s1 b1]. cbv zeta.
  destruct (not_2xx s1).
  { do 6 eexists. split; [reflexivity|]. repeat split; reflexivity. }
  specialize (Hlogin now w2).
  destruct (urlopen rt (login_request now) w2) as [o2 w3]. cbn [fst] in Hlogin.
  destruct (post_result o2) as [s2 b2]. cbn [fst snd] in Hlogin.
  destruct (not_2xx s2) eqn:E2.
  { do 6 eexists. split; [reflexivity|]. repeat split; reflexivity. }
  rewrite not_2xx_is_2xx in E2. apply negb_false_iff, is_2xx_spec in E2.
  destruct (Hlogin E2) as [d ->].
  pose proof (extract_token_first_nonempty d) as Hx.
  assert (Htok : exists token, extract_token (JDict d) = Ok token).
  { destruct (first_nonempty token_fields d); [destruct Hx | destruct Hx as (v & Hx & _)];
      eauto. }
  destruct Htok as [token ->].
  destruct (truthy token).
  - destruct (urlopen rt (verify_request rt token) w3) as [o3 w4].
    destruct (get_result o3) as [s3 b3].
    do 6 eexists. split; [reflexivity|]. repeat split; reflexivity.
  - cbn [dict_keys]. do 6 eexists. split; [reflexivity|]. repeat split; reflexivity.
Qed.

(** [make_ports_public] returns a dict with its flag and an error or a URL,
    or lets through the exception [subprocess.run] raised. *)
Lemma make_ports_public_cases (w : W) :
  exists r w' tr,
    make_ports_public rt w = (r, w', tr)
    /\ forallb silent tr = true
    /\ ((exists cls argv timeout w0,
           r = Raised (Uncaught cls)
           /\ fst (subprocess_run rt argv timeout w0) = RunRaised cls)
        \/ (exists ports,
              r = Ok ports
              /\ ((lookup "success" ports = Some (JBool false)
                   /\ exists e, lookup "error" ports = Some (JStr e))
                  \/ (lookup "success" ports = Some (JBool true)
                      /\ exists url, lookup "frontend_url" ports = Some (JStr url))))).
Proof.
  unfold make_ports_public. rewrite bind_ask.
  destruct (environ_get rt "CODESPACE_NAME" w) as [[[|c cs]|] w1]; cbv beta iota zeta.
  1,3: do 3 eexists; split; [reflexivity|]; split; [reflexivity|];
       right; eexists; split; [reflexivity|];
       left; split; [reflexivity|]; eexists; reflexivity.
  unfold bind, ask.
  destruct (subprocess_run rt (gh_argv (String c cs)) 15 w1) as [[|stderr| | |cls] w2]
    eqn:Hrun;
    cbv beta iota zeta; do 3 eexists; (split; [reflexivity|]); (split; [reflexivity|]).
  - right. eexists. split; [reflexivity|]. right. split; [reflexivity|].
    eexists; reflexivity.
  - right. eexists. split; [reflexivity|]. left. split; [reflexivity|].
    eexists; reflexivity.
  - right. eexists. split; [reflexivity|]. left. split; [reflexivity|].
    eexists; reflexivity.
  - right. eexists. split; [reflexivity|]. left. split; [reflexivity|].
    eexists; reflexivity.
  - left. exists cls, (gh_argv (String c cs)), 15, w1. split; [reflexivity|].
    now rewrite Hrun.
Qed.

Lemma make_ports_public_returns (w : W) :
  gh_is_handled rt ->
  exists ports w' tr,
    make_ports_public rt w = (Ok ports, w', tr)
    /\ forallb silent tr = true
    /\ ((lookup "success" ports = Some (JBool false)
         /\ exists e, lookup "error" ports = Some (JStr e))
        \/ (lookup "success" ports = Some (JBool true)
            /\ exists url, lookup "frontend_url" ports = Some (JStr url))).
Proof.
  intros Hgh.
  destruct (make_ports_public_cases w) as (r & w' & tr & Hrun & Hquiet & Hcase).
  destruct Hcase as [(cls & argv & timeout & w0 & _ & Hraised)
                    |(ports & -> & Hports)].
  - exfalso. exact (Hgh argv timeout w0 cls Hraised).
  - exists ports, w', tr. auto.
Qed.

Lemma read_features_returns (w : W) :
  exists names w' tr,
    read_features rt w = (Ok names, w', tr) /\ forallb silent tr = true.
Proof.
  unfold read_features, bind, ask.
  destruct (json_load rt "features.json" w) as [[data| |] w'];
    [destruct (select_features data)| |]; do 3 eexists; split; reflexivity.
Qed.

(** The invoker returns a dict whose "overall", read with the default the
    driver uses, is a string. *)
Lemma call_browser_agent_returns (frontend_url email password : json)
  (features : list json) (w : W) :
  statuses_valid rt ->
  agent_answers_documented rt ->
  exists smoke w' tr overall,
    call_browser_agent rt frontend_url email password features w = (Ok smoke, w', tr)
    /\ get_or "overall" (JStr "unknown") smoke = JStr overall
    /\ forallb silent tr = true.
Proof.
  intros Hvalid Hagent. rewrite call_browser_agent_runs.
  specialize (Hvalid (smoke_request frontend_url email password features) w).
  specialize (Hagent frontend_url email password features w).
  destruct (urlopen rt (smoke_request frontend_url email password features) w) as [o w'].
  cbn [fst] in *.
  destruct (Z.eq_dec (fst (post_result o)) 0) as [H0|H0].
  { destruct (post_result_status o Hvalid H0) as [msg Hbody].
    rewrite H0, Hbody, smoke_result_skipped.
    do 4 eexists. split; [reflexivity | split; reflexivity]. }
  destruct (not_2xx (fst (post_result o))) eqn:E.
  { apply not_2xx_spec in E. rewrite (smoke_result_error rt _ _ H0 E).
    do 4 eexists. split; [reflexivity | split; reflexivity]. }
  rewrite not_2xx_is_2xx in E. apply negb_false_iff, is_2xx_spec in E.
  destruct (Hagent E) as (top & inner & Hbody & Hpart & Hdoc & Hoverall).
  rewrite (smoke_result_unwraps rt _ _ E), Hbody.
  destruct (unwrap_smoke_documented top inner Hpart Hdoc)
    as (smoke & -> & _ & _ & Hsame).
  assert (Hstr : exists overall, get_or "overall" (JStr "unknown") smoke = JStr overall).
  { unfold get_or. rewrite Hsame by discriminate.
    destruct (lookup "overall" inner) as [v|] eqn:Ev; [|eauto].
    destruct (Hoverall v eq_refl) as [s ->]. eauto. }
  destruct Hstr as [overall Hstr]. exists smoke. do 2 eexists. exists overall.
  split; [reflexivity | split; [exact Hstr | reflexivity]].
Qed.

(** The five exits of the stages after the auth flow, each with the answers
    of the world that lead to it, the stage it records and its exit code. *)
Lemma stages_exits (timestamp a b : json) (skip_browser : bool) (auth : dict)
  (success : bool) (email password : string) (w : W) :
  statuses_valid rt ->
  agent_answers_documented rt ->
  gh_is_handled rt ->
  lookup "success" auth = Some (JBool success) ->
  lookup "email" auth = Some (JStr email) ->
  lookup "password" auth = Some (JStr password) ->
  (skip_browser = true -> b = unreachable_stage) ->
  exists stage code w' tr overall,
    stages rt (report timestamp a b) skip_browser auth w
    = (Ok (report timestamp a (JDict stage), code), w', tr)
    /\ get_or "overall" (JStr "unknown") stage = JStr overall
    /\ forallb silent tr = true
    /\ ((success = false /\ code = 1 /\ overall = "error" /\ tr = [])
        \/ (success = true /\ isdir rt "frontend" w = (false, w')
            /\ tr = [EIsdir "frontend" false]
            /\ code = 0 /\ overall = "not_applicable")
        \/ (success = true
            /\ exists w1 ports w2 tp,
                 isdir rt "frontend" w = (true, w1)
                 /\ make_ports_public rt w1 = (Ok ports, w2, tp)
                 /\ ((lookup "success" ports = Some (JBool false)
                      /\ tr = EIsdir "frontend" true :: tp
                      /\ code = 2 /\ overall = "error")
                     \/ (lookup "success" ports = Some (JBool true)
                         /\ skip_browser = true
                         /\ code = 0 /\ JDict stage = unreachable_stage)
                     \/ (lookup "success" ports = Some (JBool true)
                         /\ skip_browser = false
                         /\ code = exit_code_of_smoke stage)))).
Proof.
  intros Hvalid Hagent Hgh Hs He Hp Hskip. unfold stages, report.
  rewrite bind_lift. unfold getitem at 1. rewrite Hs.
  destruct success; cbn [truthy negb].
  2:{ do 5 eexists. split; [reflexivity|]. split; [reflexivity|].
      split; [reflexivity|]. left. auto. }
  rewrite bind_lift. unfold getitem at 1. rewrite He.
  rewrite bind_lift. unfold getitem at 1. rewrite Hp.
  rewrite bind_ask.
  destruct (isdir rt "frontend" w) as [[|] w1] eqn:Hdir; cbn [negb].
  2:{ do 5 eexists. split; [reflexivity|]. split; [reflexivity|].
      split; [reflexivity|]. right. left. auto. }
  destruct (make_ports_public_returns w1 Hgh)
    as (ports & w2 & tp & Hports & Hquiet & Hcase).
  rewrite (bind_run _ _ _ _ _ _ Hports).
  rewrite bind_lift. unfold getitem at 1.
  destruct Hcase as [[Hps (e & Herr)] | [Hps (url & Hurl)]]; rewrite Hps;
    cbn [truthy negb].
  { rewrite bind_lift. unfold getitem at 1. rewrite Herr. cbn [ret after].
    do 5 eexists. split; [rewrite app_nil_r; reflexivity|]. split; [reflexivity|].
    split; [exact Hquiet|].
    right. right. split; [reflexivity|]. exists w1, ports, w2, tp.
    split; [reflexivity|]. split; [exact Hports|]. left. auto. }
  destruct (read_features_returns w2) as (features & w3 & tf & Hfeat & Hquiet2).
  rewrite (bind_run _ _ _ _ _ _ Hfeat).
  destruct skip_browser.
  { rewrite (Hskip eq_refl). cbn [ret after].
    do 5 eexists. split; [reflexivity|]. split; [reflexivity|].
    split; [cbn [forallb silent andb]; rewrite !forallb_app, Hquiet, Hquiet2; reflexivity|].
    right. right. split; [reflexivity|]. exists w1, ports, w2, tp.
    split; [reflexivity|]. split; [exact Hports|]. right. left. auto. }
  rewrite bind_lift. unfold getitem at 1. rewrite Hurl.
  destruct (call_browser_agent_returns (JStr url) (JStr email) (JStr password)
              features w3 Hvalid Hagent)
    as (smoke & w4 & ta & overall & Hcall & Hov & Hquiet3).
  rewrite (bind_run _ _ _ _ _ _ Hcall). cbn [ret after].
  exists smoke. do 3 eexists. exists overall.
  split; [reflexivity|]. split; [exact Hov|].
  split; [cbn [forallb silent andb];
          rewrite !forallb_app, Hquiet, Hquiet2, Hquiet3; reflexivity|].
  right. right. split; [reflexivity|]. exists w1, ports, w2, tp.
  split; [reflexivity|]. split; [exact Hports|]. right. right. auto.
Qed.

(** The exit code the stages choose, against the table of the spec: they
    agree on every row but one.  With auth, frontend and ports through and
    the connectivity check failed the code is 0, not 2. *)
Lemma stages_exit_code (timestamp a b : json) (skip_browser : bool) (auth : dict)
  (success : bool) (email password : string) (w : W) :
  statuses_valid rt ->
  agent_answers_documented rt ->
  gh_is_handled rt ->
  lookup "success" auth = Some (JBool success) ->
  lookup "email" auth = Some (JStr email) ->
  lookup "password" auth = Some (JStr password) ->
  (skip_browser = true -> b = unreachable_stage) ->
  exists output code w' tr frontend ports_success overall,
    stages rt (report timestamp a b) skip_browser auth w = (Ok (output, code), w', tr)
    /\ (success = true -> fst (isdir rt "frontend" w) = frontend)
    /\ (success = true -> frontend = true ->
        exists ports w2 tp,
          make_ports_public rt (snd (isdir rt "frontend" w)) = (Ok ports, w2, tp)
          /\ lookup "success" ports = Some (JBool ports_success))
    /\ (exists stage, lookup "browser_smoke_test" output = Some (JDict stage)
                      /\ get_or "overall" (JStr "unknown") stage = overall)
    /\ code = if success && frontend && ports_success && skip_browser then 0
              else claimed_exit_code success frontend ports_success
                     (negb skip_browser) overall.
Proof.
  intros Hvalid Hagent Hgh Hs He Hp Hskip.
  destruct (stages_exits timestamp a b skip_browser auth success email password w
              Hvalid Hagent Hgh Hs He Hp Hskip)
    as (stage & code & w' & tr & overall & Hrun & Hov & _ & Hexit).
  destruct Hexit as [(-> & -> & _)|[(-> & Hdir & _ & -> & _)|
    (-> & w1 & ports & w2 & tp & Hdir & Hports & Hcase)]].
  - exists (report timestamp a (JDict stage)), 1, w', tr, false, false, (JStr overall).
    split; [exact Hrun|]. split; [discriminate|]. split; [discriminate|].
    split; [exists stage; split; [reflexivity | exact Hov]|]. reflexivity.
  - exists (report timestamp a (JDict stage)), 0, w', tr, false, false, (JStr overall).
    split; [exact Hrun|]. split; [now rewrite Hdir|]. split; [discriminate|].
    split; [exists stage; split; [reflexivity | exact Hov]|]. reflexivity.
  - rewrite Hdir. cbn [fst snd].
    destruct Hcase as [(Hps & _ & -> & _)|[(Hps & -> & -> & _)|(Hps & -> & ->)]].
    + exists (report timestamp a (JDict stage)), 2, w', tr, true, false, (JStr overall).
      split; [exact Hrun|]. split; [reflexivity|].
      split; [intros _ _; exists ports, w2, tp; auto|].
      split; [exists stage; split; [reflexivity | exact Hov]|]. reflexivity.
    + exists (report timestamp a (JDict stage)), 0, w', tr, true, true, (JStr overall).
      split; [exact Hrun|]. split; [reflexivity|].
      split; [intros _ _; exists ports, w2, tp; auto|].
      split; [exists stage; split; [reflexivity | exact Hov]|]. reflexivity.
    + exists (report timestamp a (JDict stage)), (exit_code_of_smoke stage), w', tr,
        true, true, (JStr overall).
      split; [exact Hrun|]. split; [reflexivity|].
      split; [intros _ _; exists ports, w2, tp; auto|].
      split; [exists stage; split; [reflexivity | exact Hov]|].
      unfold exit_code_of_smoke, claimed_exit_code. rewrite Hov. reflexivity.
Qed.

(** C8, as the code has it: when the remote services keep to their
    documented interfaces and gh, whenever it is run, ends in one of the
    four ways [make_ports_public] handles, main returns, and the last two
    things it does to the world are to dump the report to the results file
    and to print the same report on stdout; before that nothing goes to
    stdout or to the results file.  The report has exactly the fields timestamp, auth,
    browser_smoke_test and exit_code: a string, the result of the auth flow
    with its success flag, an object for the browser stage whose overall is
    a string, and the exit code main returns. *)
Theorem report_written_then_printed (w : W) :
  statuses_valid rt ->
  login_answers_object rt ->
  agent_answers_documented rt ->
  gh_is_handled rt ->
  exists code w' tr final timestamp auth stage,
    main rt w
    = (Ok code, w', tr ++ [EDump RESULTS_FILE (JDict final); EStdout (JDict final)])
    /\ final = [("timestamp", JStr timestamp); ("auth", JDict auth);
                ("browser_smoke_test", JDict stage); ("exit_code", JInt code)]
    /\ (exists success, lookup "success" auth = Some (JBool success))
    /\ (exists overall, get_or "overall" (JStr "unknown") stage = JStr overall)
    /\ forallb silent tr = true.
Proof.
  intros Hvalid Hlogin Hagent Hgh. unfold main.
  rewrite bind_ask.
  destruct (strftime rt "%Y-%m-%dT%H:%M:%SZ" w) as [timestamp w1].
  destruct (wake_loop_returns rt (range WAKE_RETRIES) w1 Hvalid)
    as (reachable & w2 & t2 & Hwake & Hquiet2).
  { repeat constructor; unfold WAKE_RETRIES; lia. }
  rewrite (bind_run _ _ _ _ _ _ Hwake).
  destruct (run_auth_test_returns w2 Hlogin)
    as (auth & w3 & t3 & success & email & password & Hauth & Hs & He & Hp & Hquiet3).
  rewrite (bind_run _ _ _ _ _ _ Hauth).
  set (stage0 := if negb reachable then unreachable_stage else JNull).
  assert (Hout : assign "auth" (JDict auth)
                   (if negb reachable
                    then assign "browser_smoke_test" unreachable_stage
                           [("timestamp", JStr timestamp); ("auth", JNull);
                            ("browser_smoke_test", JNull)]
                    else [("timestamp", JStr timestamp); ("auth", JNull);
                          ("browser_smoke_test", JNull)])
                 = report (JStr timestamp) (JDict auth) stage0).
  { subst stage0. now destruct reachable. }
  rewrite Hout.
  destruct (stages_exits (JStr timestamp) (JDict auth) stage0 (negb reachable) auth
              success email password w3 Hvalid Hagent Hgh Hs He Hp)
    as (stage & code & w4 & t4 & overall & Hstages & Hov & Hquiet4 & _).
  { subst stage0. now intros ->. }
  rewrite (bind_run _ _ _ _ _ _ Hstages). cbv beta iota.
  rewrite bind_tell. unfold report.
  cbn [assign String.eqb Ascii.eqb Bool.eqb].
  rewrite bind_lift. cbn [getitem lookup String.eqb Ascii.eqb Bool.eqb].
  rewrite bind_lift. cbn [get]. rewrite Hov.
  rewrite bind_lift. cbn [upper_check]. rewrite bind_tell. cbn [ret after].
  exists code. eexists.
  exists (EStrftime "%Y-%m-%dT%H:%M:%SZ" timestamp :: t2 ++ t3 ++ t4).
  do 4 eexists. split; [|split; [reflexivity|]].
  { cbn [app]. rewrite <- !app_assoc. reflexivity. }
  split; [exists success; exact Hs|]. split; [exists overall; exact Hov|].
  cbn [forallb silent andb]. rewrite !forallb_app, Hquiet2, Hquiet3, Hquiet4.
  reflexivity.
Qed.

End Main.

(** *** The auth flow on scripted worlds *)

Lemma registration_failure_stops_flow_witness :
  exists result,
    run_auth_test (scripted (codespace_run [second_registration])) 0%nat
    = (Ok result, 1%nat,
       [EClock 1700000000; EUrlopen (register_request 1700000000) second_registration])
    /\ lookup "success" result = Some (JBool false)
    /\ lookup "error" result = Some (JStr "Registration failed (HTTP 409)").
Proof.
  apply (registration_failure_stops_flow (scripted (codespace_run [second_registration]))
           0%nat 0%nat 1%nat 1700000000 second_registration).
  - reflexivity.
  - reflexivity.
  - right. right.
    exists (fun p => fstr ["hashed:"; p]), (fun _ e => fstr ["token-for-"; e]),
      (fun db => Z.of_nat (length db) + 1), [], qa_register_body.
    reflexivity.
Defined.

Lemma verify_does_not_gate_success_witness :
  exists result w5 tr,
    run_auth_test (scripted (codespace_run [registered; logged_in; me_unauthorized])) 0%nat
    = (Ok result, w5, tr)
    /\ lookup "success" result = Some (JBool true)
    /\ exists verified,
         lookup "token_verified" result = Some (JBool verified)
         /\ (verified = true <-> 200 <= fst (get_result me_unauthorized) < 300).
Proof.
  apply (verify_does_not_gate_success
           (scripted (codespace_run [registered; logged_in; me_unauthorized]))
           0%nat 0%nat 1%nat 2%nat 3%nat
           1700000000 registered logged_in me_unauthorized (JStr "tok-login")).
  - reflexivity.
  - reflexivity.
  - simpl. lia.
  - reflexivity.
  - simpl. lia.
  - reflexivity.
  - reflexivity.
  - reflexivity.
Defined.

Lemma token_priority_witness :
  first_nonempty token_fields login_body = Some (JStr "tok-login")
  /\ extract_token (JDict login_body) = Ok (JStr "tok-login")
  /\ verify_request (scripted (codespace_run [registered; logged_in])) (JStr "tok-login")
     = GET "http://localhost:8000/api/users/me"
           [("Authorization", "Bearer tok-login")] 10.
Proof.
  destruct (token_priority (scripted (codespace_run [registered; logged_in]))
              0%nat 0%nat 1%nat 2%nat
              1700000000 registered logged_in login_body) as (Hfirst & Htoken & _).
  - reflexivity.
  - reflexivity.
  - simpl. lia.
  - reflexivity.
  - simpl. lia.
  - reflexivity.
  - split; [|split].
    + apply Htoken; reflexivity.
    + apply (Hfirst (JStr "tok-login")). apply Htoken; reflexivity.
    + reflexivity.
Defined.

Lemma steps_record_each_call_witness :
  exists steps,
    map (fun kv => entry_status (snd kv)) steps
    = [Some (JInt 200); Some (JInt 200); Some (JInt 401)]
    /\ keys steps = ["register"; "login"; "verify_token"].
Proof.
  destruct (steps_record_each_call
              (scripted (codespace_run [registered; logged_in; me_unauthorized]))
              0%nat 3%nat
              (auth_result true 1700000000
                 [("register",
                   JDict [("status", JInt 200);
                          ("response", snd (post_result registered))]);
                  ("login", JDict [("status", JInt 200)]);
                  ("verify_token", JDict [("status", JInt 401)])]
                 [("token_verified", JBool false)])
              [EClock 1700000000;
               EUrlopen (register_request 1700000000) registered;
               EUrlopen (login_request 1700000000) logged_in;
               EUrlopen (GET me_url [("Authorization", "Bearer tok-login")] 10)
                 me_unauthorized;
               saved_credentials 1700000000])
    as (steps & _ & Hst & Hk & _).
  - reflexivity.
  - exists steps. split; [exact Hst | exact Hk].
Defined.

(** C10 as stated fails on the login call: the call is made and answered
    200 with a body, and [steps["login"]] holds the status alone, so it is no
    StepResult with the response of the call. *)
Lemma login_step_drops_response :
  exists result steps body,
    run_auth_test (scripted (codespace_run [registered; logged_in; me_unauthorized])) 0%nat
    = (Ok result, 3%nat,
       [EClock 1700000000;
        EUrlopen (register_request 1700000000) registered;
        EUrlopen (login_request 1700000000) logged_in;
        EUrlopen (GET me_url [("Authorization", "Bearer tok-login")] 10) me_unauthorized;
        saved_credentials 1700000000])
    /\ post_result logged_in = (200, body)
    /\ lookup "steps" result = Some (JDict steps)
    /\ lookup "login" steps = Some (JDict [("status", JInt 200)])
    /\ ~ step_result steps "login" 200 body.
Proof.
  do 3 eexists. split; [reflexivity|]. split; [reflexivity|].
  split; [reflexivity|]. split; [reflexivity|].
  intros (entry & Hentry & _ & Hresp). simpl in Hentry.
  inversion Hentry; subst. discriminate Hresp.
Qed.

(** *** The driver on scripted worlds *)

Lemma scripted_statuses_valid (replies : list urlopen_outcome) :
  Forall valid_outcome replies -> statuses_valid (scripted (codespace_run replies)).
Proof.
  intros Hall r calls. simpl. revert calls.
  induction Hall as [|o rest Ho _ IH]; intros [|calls]; simpl; auto.
Qed.

Lemma probe_schedule_witness :
  exists w' tr,
    wake_loop (scripted (codespace_run [connection_refused; connection_refused; agent_up]))
      (range WAKE_RETRIES) 0%nat
    = (Ok true, w', tr)
    /\ exists r o, In (EUrlopen r o) tr /\ status_of_call r o <> 0.
Proof.
  destruct (probe_schedule
              (scripted (codespace_run [connection_refused; connection_refused; agent_up]))
              0%nat) as (reachable & w' & tr & Hrun & Hiff & _).
  - apply scripted_statuses_valid. repeat constructor; simpl; lia.
  - assert (reachable = true) as -> by (vm_compute in Hrun; congruence).
    exists w', tr. split; [exact Hrun|]. now apply Hiff.
Defined.

Lemma read_features_selects_witness :
  read_features
    (scripted {| s_replies := []; s_now := 1700000000;
                 s_timestamp := "2023-11-14T22:13:20Z"; s_frontend := true;
                 s_codespace := Some "cs"; s_gh := Completed;
                 s_features := Loaded example_features |}) 0%nat
  = (Ok [JStr "X"], 0%nat, [ELoad "features.json" (Loaded example_features)]).
Proof.
  destruct (read_features_selects
              (scripted {| s_replies := []; s_now := 1700000000;
                           s_timestamp := "2023-11-14T22:13:20Z"; s_frontend := true;
                           s_codespace := Some "cs"; s_gh := Completed;
                           s_features := Loaded example_features |})
              0%nat 0%nat (Loaded example_features) eq_refl)
    as (names & Hrun & _ & Hexample & _ & _).
  rewrite Hrun, (Hexample eq_refl). reflexivity.
Defined.

Lemma passed_results_documented : documented_smoke passed_results.
Proof.
  split; intros v Hv; simpl in Hv; inversion Hv; subst.
  - exists [[("feature", JStr "Login"); ("status", JStr "pass");
             ("notes", JStr "Logged in and reached the dashboard")]].
    split; [reflexivity|]. repeat constructor.
    intros notes Hn. simpl in Hn. inversion Hn. eauto.
  - eauto.
Qed.

Lemma browser_agent_result_witness :
  exists smoke,
    call_browser_agent (scripted (codespace_run [agent_passed]))
      (JStr "https://cs-3000.app.github.dev/login") (JStr (qa_email 1700000000))
      (JStr qa_password) [] 0%nat
    = (Ok smoke, 1%nat,
       [EUrlopen (smoke_request (JStr "https://cs-3000.app.github.dev/login")
                    (JStr (qa_email 1700000000)) (JStr qa_password) [])
          agent_passed])
    /\ lookup "service_reachable" smoke = Some (JBool true)
    /\ lookup "screenshotUrls" smoke = Some (JList [JStr "https://example.com/login.png"])
    /\ lookup "overall" smoke = Some (JStr "pass").
Proof.
  destruct (browser_agent_result (scripted (codespace_run [agent_passed]))
              (JStr "https://cs-3000.app.github.dev/login") (JStr (qa_email 1700000000))
              (JStr qa_password) [] 0%nat 1%nat agent_passed)
    as (r & Hrun & _ & _ & Hok).
  - reflexivity.
  - simpl. lia.
  - destruct (Hok ltac:(simpl; lia) passed_body passed_results eq_refl
                (or_introl eq_refl) passed_results_documented)
      as (smoke & -> & Hflag & Hurls & Hsame).
    exists smoke. split; [exact Hrun|]. split; [exact Hflag|]. split; [exact Hurls|].
    now rewrite Hsame.
Defined.

(** C3 as stated fails on a 2xx answer: the response carries an object under
    "smokeTestResults", and the invoker, instead of returning it, raises
    while logging the test whose notes are null. *)
Lemma invoker_raises_on_null_notes :
  post_result agent_failed_without_notes
  = (200, JDict [("smokeTestResults", JDict failed_results)])
  /\ call_browser_agent (scripted (codespace_run [agent_failed_without_notes]))
       (JStr "https://cs-3000.app.github.dev/login") (JStr (qa_email 1700000000))
       (JStr qa_password) [] 0%nat
     = (Raised TypeError, 1%nat,
        [EUrlopen (smoke_request (JStr "https://cs-3000.app.github.dev/login")
                     (JStr (qa_email 1700000000)) (JStr qa_password) [])
           agent_failed_without_notes]).
Proof. split; reflexivity. Qed.

Lemma full_run_statuses_valid : statuses_valid (scripted full_run).
Proof.
  apply scripted_statuses_valid. repeat (constructor; try (simpl; lia)).
Qed.

Lemma full_run_login_object : login_answers_object (scripted full_run).
Proof.
  intros now calls.
  destruct calls as [|[|[|[|[|[|calls]]]]]]; simpl; intros H; try lia;
    eexists; reflexivity.
Qed.

Lemma plain_body_documented (top : dict) :
  lookup "smokeTestResults" top = None ->
  lookup "tests" top = None ->
  lookup "critical_issues" top = None ->
  lookup "overall" top = None ->
  exists top' inner,
    JDict top = JDict top'
    /\ smoke_part top' inner
    /\ documented_smoke inner
    /\ forall v, lookup "overall" inner = Some v -> exists s, v = JStr s.
Proof.
  intros Hw Ht Hc Ho. exists top, top. split; [reflexivity|].
  split; [right; auto|]. split; [split; intros v Hv; congruence|].
  intros v Hv. congruence.
Qed.

Lemma full_run_agent_documented : agent_answers_documented (scripted full_run).
Proof.
  intros frontend_url email password features calls.
  destruct calls as [|[|[|[|[|[|calls]]]]]]; simpl; intros H; try lia;
    try (apply plain_body_documented; reflexivity).
  exists passed_body, passed_results. split; [reflexivity|].
  split; [left; reflexivity|]. split; [exact passed_results_documented|].
  intros v Hv. simpl in Hv. inversion Hv. eauto.
Qed.

Lemma full_run_gh_handled : gh_is_handled (scripted full_run).
Proof. intros argv timeout w cls. discriminate. Qed.

Lemma report_written_then_printed_witness :
  exists code w' tr final,
    main (scripted full_run) 0%nat
    = (Ok code, w', tr ++ [EDump RESULTS_FILE (JDict final); EStdout (JDict final)])
    /\ keys final = ["timestamp"; "auth"; "browser_smoke_test"; "exit_code"]
    /\ lookup "exit_code" final = Some (JInt code).
Proof.
  destruct (report_written_then_printed (scripted full_run) 0%nat
              full_run_statuses_valid full_run_login_object full_run_agent_documented
              full_run_gh_handled)
    as (code & w' & tr & final & timestamp & auth & stage & Hrun & -> & _).
  exists code, w', tr. eexists. split; [exact Hrun|]. split; reflexivity.
Defined.

(** C8 as stated fails on a full invocation: the agent answers 200 with a
    failed test whose notes are null, the invoker raises, and main ends
    without a results file and with nothing on stdout. *)
Lemma no_report_when_invoker_raises :
  exists tr,
    main (scripted (codespace_run [agent_up; registered; logged_in; me_unauthorized;
                                   agent_failed_without_notes])) 0%nat
    = (Raised TypeError, 5%nat, tr)
    /\ In (EUrlopen (smoke_request (JStr "https://cs-3000.app.github.dev/login")
                       (JStr (qa_email 1700000000)) (JStr qa_password) [])
             agent_failed_without_notes) tr
    /\ forallb silent tr = true.
Proof.
  eexists. split; [vm_compute; reflexivity|]. split; [|reflexivity].
  simpl. tauto.
Qed.

(** Main has no handler around [make_ports_public] either: with remote
    services that keep to their interfaces and a gh that cannot be executed,
    [subprocess.run] raises PermissionError, no except clause catches it,
    and main ends after the environment was read and gh was tried, without
    a results file and with nothing on stdout. *)
Lemma no_report_when_gh_cannot_run :
  statuses_valid (scripted gh_not_executable)
  /\ login_answers_object (scripted gh_not_executable)
  /\ agent_answers_documented (scripted gh_not_executable)
  /\ exists tr,
       main (scripted gh_not_executable) 0%nat
       = (Raised (Uncaught "PermissionError"), 4%nat,
          tr ++ [EEnviron "CODESPACE_NAME" (Some "cs");
                 ESubprocess (gh_argv "cs") 15 (RunRaised "PermissionError")])
       /\ forallb silent tr = true.
Proof.
  split; [exact full_run_statuses_valid|].
  split; [exact full_run_login_object|].
  split; [exact full_run_agent_documented|].
  eexists (_ :: _ :: _ :: _ :: _ :: _ :: _ :: _ :: []).
  split; [vm_compute; reflexivity | reflexivity].
Qed.

(** The other way main ends early: the agent answers 200 with null under
    "overall"; the results file is written, and [overall_browser.upper()]
    raises before anything is printed. *)
Lemma report_not_printed_when_overall_is_null :
  exists tr final,
    main (scripted (codespace_run
                      [agent_up; registered; logged_in; me_unauthorized;
                       Response 200 (Decoded (JDict [("overall", JNull)]))])) 0%nat
    = (Raised AttributeError, 5%nat, tr ++ [EDump RESULTS_FILE (JDict final)])
    /\ forallb silent tr = true.
Proof.
  eexists (_ :: _ :: _ :: _ :: _ :: _ :: _ :: _ :: _ :: _ :: _ :: _ :: []).
  eexists. split; [vm_compute; reflexivity | reflexivity].
Qed.

(** C1, at the input where the code and the claim part: the connectivity
    check fails four times, the auth flow succeeds, the frontend directory
    is there and the ports are published.  Main skips the invocation (no
    request goes to /smoke-test) and leaves the browser stage at "error", as
    claimed, but returns exit code 0 and writes it to the report, where the
    claim and the script's own docstring say 2. *)
Theorem unreachable_agent_exits_zero :
  exists w' tr final auth,
    main (scripted (codespace_run [connection_refused; connection_refused;
                                   connection_refused; connection_refused;
                                   registered; logged_in; me_unauthorized])) 0%nat
    = (Ok 0, w', tr ++ [EDump RESULTS_FILE (JDict final); EStdout (JDict final)])
    /\ http_statuses tr = [0; 0; 0; 0; 200; 200; 401]
    /\ lookup "auth" final = Some (JDict auth)
    /\ lookup "success" auth = Some (JBool true)
    /\ In (EIsdir "frontend" true) tr
    /\ In (ESubprocess (gh_argv "cs") 15 Completed) tr
    /\ lookup "browser_smoke_test" final = Some unreachable_stage
    /\ lookup "exit_code" final = Some (JInt 0)
    /\ claimed_exit_code true true true false (JStr "error") = 2.
Proof.
  eexists. eexists (_ :: _ :: _ :: _ :: _ :: _ :: _ :: _ :: _ :: _ :: _ :: _ :: _ :: _
                      :: _ :: _ :: _ :: []).
  do 2 eexists. split; [vm_compute; reflexivity|].
  split; [reflexivity|]. split; [reflexivity|]. split; [reflexivity|].
  split; [simpl; tauto|]. split; [simpl; tauto|]. repeat split; reflexivity.
Qed.

(** ** More of the driver *)

(** *** The exits of the auth flow *)

(** Take the flattened flow apart, exit by exit. *)
Ltac auth_exits H :=
  rewrite run_auth_test_runs in H;
  repeat (match type of H with
          | context [match ?x with _ => _ end] => destruct x eqn:?
          end; cbv zeta in H; try discriminate H);
  inversion H; subst; clear H.

Section AuthExits.

Context {W : Type} (rt : runtime W).

(** X1: a login answered with a status outside [200,300) ends the flow
    after the login call: the result has [success] false, the error
    "Login failed (HTTP <status>)" and no [token_verified]; no request goes
    to /api/users/me and no credentials file is written. *)
Theorem login_failure_stops_flow (w w1 w2 w3 : W) (now : Z) (o1 o2 : urlopen_outcome) :
  clock rt w = (now, w1) ->
  urlopen rt (register_request now) w1 = (o1, w2) ->
  200 <= fst (post_result o1) < 300 ->
  urlopen rt (login_request now) w2 = (o2, w3) ->
  fst (post_result o2) < 200 \/ fst (post_result o2) >= 300 ->
  exists result,
    run_auth_test rt w
    = (Ok result, w3,
       [EClock now; EUrlopen (register_request now) o1; EUrlopen (login_request now) o2])
    /\ lookup "success" result = Some (JBool false)
    /\ lookup "error" result
       = Some (JStr (fstr ["Login failed (HTTP "; str_of_Z (fst (post_result o2)); ")"]))
    /\ lookup "token_verified" result = None.
Proof.
  intros Hc Hr H1 Hl H2. rewrite run_auth_test_runs, Hc, Hr.
  apply is_2xx_spec in H1. apply not_2xx_spec in H2.
  destruct (post_result o1) as [s1 b1]. cbn [fst snd] in *. cbv zeta.
  rewrite not_2xx_is_2xx, H1. cbn [negb]. rewrite Hl.
  destruct (post_result o2) as [s2 b2]. cbn [fst snd] in *. rewrite H2.
  eexists. split; [reflexivity|]. repeat split; reflexivity.
Qed.

(** X2: the credentials file is written exactly when the flow returns a
    result with [success] true.  It is then the last thing the flow does,
    it holds the e-mail and the password of the result, and the flow writes
    nothing else. *)
Theorem credentials_saved_iff_success (w w' : W) (r : result dict) (tr : list event) :
  run_auth_test rt w = (r, w', tr) ->
  (forall path v,
     In (EDump path v) tr -> EDump path v = saved_credentials (fst (clock rt w)))
  /\ (In (saved_credentials (fst (clock rt w))) tr <->
      exists result, r = Ok result /\ lookup "success" result = Some (JBool true))
  /\ (In (saved_credentials (fst (clock rt w))) tr ->
      exists tr0,
        tr = tr0 ++ [saved_credentials (fst (clock rt w))]
        /\ forall path v, ~ In (EDump path v) tr0).
Proof.
  intros H. auth_exits H; cbn [fst app].
  all: split; [intros path v Hin; simpl in Hin; unfold saved_credentials in *;
               intuition (try discriminate; try congruence)|].
  all: split; [split|].
  all: try (intros Hin; simpl in Hin; unfold saved_credentials in *;
            exfalso; intuition discriminate).
  all: try (intros (result & Hr & Hs); inversion Hr; subst; discriminate Hs).
  all: try (intros (result & Hr & Hs); discriminate Hr).
  - intros _. eexists. split; reflexivity.
  - intros _. simpl. tauto.
  - intros _. eexists [_; _; _; _]. split; [reflexivity|].
    intros path v Hin. simpl in Hin. intuition discriminate.
Qed.

(** X3: a result of the flow has five fields.  The first four are
    [success], [email] (the address made from the clock), [password] (the
    fixed one) and [steps]; the fifth is [error], a string, when [success]
    is false, and [token_verified], a boolean, when [success] is true. *)
Theorem auth_result_fields (w w' : W) (result : dict) (tr : list event) :
  run_auth_test rt w = (Ok result, w', tr) ->
  lookup "email" result = Some (JStr (qa_email (fst (clock rt w))))
  /\ lookup "password" result = Some (JStr qa_password)
  /\ ((keys result = ["success"; "email"; "password"; "steps"; "error"]
       /\ lookup "success" result = Some (JBool false)
       /\ exists msg, lookup "error" result = Some (JStr msg))
      \/ (keys result = ["success"; "email"; "password"; "steps"; "token_verified"]
          /\ lookup "success" result = Some (JBool true)
          /\ exists verified, lookup "token_verified" result = Some (JBool verified))).
Proof.
  intros H. auth_exits H; cbn [fst].
  all: split; [reflexivity|]; split; [reflexivity|].
  all: first [ left; split; [reflexivity|]; split; [reflexivity|]; eexists; reflexivity
             | right; split; [reflexivity|]; split; [reflexivity|]; eexists; reflexivity ].
Qed.

(** X4: the flow raises in one situation only: registration and login were
    both answered 2xx and the login body is JSON but not an object.  The
    exception is the AttributeError of [body.get]; the verify call is not
    made and nothing is written. *)
Theorem auth_flow_raises_on_login_body_only (w w' : W) (e : exn) (tr : list event) :
  run_auth_test rt w = (Raised e, w', tr) ->
  e = AttributeError
  /\ exists now o1 o2,
       tr = [EClock now; EUrlopen (register_request now) o1;
             EUrlopen (login_request now) o2]
       /\ 200 <= fst (post_result o1) < 300
       /\ 200 <= fst (post_result o2) < 300
       /\ forall d, snd (post_result o2) <> JDict d.
Proof.
  intros H. auth_exits H.
  all: repeat match goal with
         | E : not_2xx _ = false |- _ =>
             rewrite not_2xx_is_2xx in E; apply negb_false_iff, is_2xx_spec in E
         end.
  - (* dict_keys raised: the body is an object, since a token was looked for *)
    exfalso.
    match goal with
    | E : extract_token ?b = Ok _, E' : dict_keys ?b = Raised _ |- _ =>
        destruct b; simpl in E, E'; discriminate
    end.
  - (* extract_token raised *)
    match goal with
    | E : extract_token ?b = Raised _ |- _ =>
        assert (Hbody : e = AttributeError /\ forall d, b <> JDict d);
        [destruct b; simpl in E; try (inversion E; split; [reflexivity | discriminate])|]
    end.
    { exfalso.
      match goal with
      | E : extract_token _ = Raised _ |- _ =>
          unfold extract_token, get, and_then in E;
          repeat match type of E with
            | context [if ?c then _ else _] => destruct c
            end; discriminate E
      end. }
    destruct Hbody as [-> Hbody]. split; [reflexivity|].
    do 3 eexists. split; [reflexivity|].
    repeat match goal with
      | E : post_result ?o = (_, _) |- _ => rewrite E; clear E
      end.
    cbn [fst snd]. auto.
Qed.

End AuthExits.

(** *** What the HTTP client hands back *)

(** X5: with HTTP's status codes, what [http_post] and [http_get] return
    is one of three things: status 0 with a dict holding a message under
    "error"; a 2xx status with the decoded body of the response; or the code
    of an HTTP error with its decoded body, or with the reason under "raw"
    when the body does not decode. *)
Theorem client_status_and_body (o : urlopen_outcome) (returned : Z * json) :
  valid_outcome o ->
  returned = post_result o \/ returned = get_result o ->
  (fst returned = 0 /\ exists msg, snd returned = JDict [("error", JStr msg)])
  \/ (200 <= fst returned < 300 /\ o = Response (fst returned) (Decoded (snd returned)))
  \/ (100 <= fst returned <= 999 /\ ~ (200 <= fst returned < 300)
      /\ exists reason body,
           o = HTTPError (fst returned) reason body
           /\ (body = Decoded (snd returned)
               \/ ((forall v, body <> Decoded v)
                   /\ snd returned = JDict [("raw", JStr reason)]))).
Proof.
  intros Hv Hr.
  destruct o as [status [v|msg|msg]|code reason [v|msg|msg]|reason|msg];
    simpl in Hv, Hr; destruct Hr as [-> | ->]; cbn [fst snd].
  all: try (left; split; [reflexivity | eexists; reflexivity]).
  all: try (right; left; split; [exact Hv | reflexivity]).
  all: right; right; split; [tauto|]; split; [tauto|]; do 2 eexists;
    split; [reflexivity|]; first [left; reflexivity | right; split; [discriminate | reflexivity]].
Qed.

(** X6: [http_post] and [http_get] treat every outcome of [urlopen] alike
    but one.  For a URLError, [http_post] puts the bare reason under
    "error", while [http_get], which has no handler of its own for it, puts
    the exception's text there: the reason wrapped in "<urlopen error ...>". *)
Theorem get_and_post_part_on_urlerror (o : urlopen_outcome) :
  get_result o = post_result o
  \/ exists reason,
       o = URLError reason
       /\ post_result o = (0, JDict [("error", JStr reason)])
       /\ get_result o
          = (0, JDict [("error", JStr ("<urlopen error " ++ reason ++ ">"))]).
Proof.
  destruct o as [status [v|msg|msg]|code reason [v|msg|msg]|reason|msg];
    try (left; reflexivity).
  right. exists reason. repeat split; reflexivity.
Qed.

(** *** Publishing the ports *)

Lemma append_assoc (a b c : string) : ((a ++ b) ++ c)%string = (a ++ (b ++ c))%string.
Proof. induction a as [|ch a IH]; simpl; [reflexivity | now rewrite IH]. Qed.

Section Ports.

Context {W : Type} (rt : runtime W).

(** X7: without a codespace name -- the variable CODESPACE_NAME unset, or
    set to the empty string -- [make_ports_public] fails with its fixed
    message and never runs gh: reading the environment is all it does. *)
Theorem ports_need_a_codespace (w w1 : W) (codespace : option string) :
  environ_get rt "CODESPACE_NAME" w = (codespace, w1) ->
  codespace = None \/ codespace = Some "" ->
  make_ports_public rt w
  = (Ok [("success", JBool false);
         ("error", JStr "CODESPACE_NAME env var not set -- not in a codespace?")],
     w1, [EEnviron "CODESPACE_NAME" codespace]).
Proof.
  intros He Hc. unfold make_ports_public. rewrite bind_ask, He.
  destruct Hc as [-> | ->]; reflexivity.
Qed.

(** X8: inside a codespace [make_ports_public] runs gh once, with a
    timeout of 15 seconds, to make the ports 8000 and 3000 of that codespace
    public, and does nothing else.  It reports success exactly when gh
    completes, and then hands out the /login page of the codespace's
    forwarded port 3000; in the three other cases it handles (gh exits
    non-zero, gh is not installed, gh times out) it reports failure with an
    error message and no URL.  Any other exception of [subprocess.run] it
    lets through: it raises and returns no dict. *)
Theorem ports_published_iff_gh_completes (w w1 w2 : W) (codespace : string)
  (o : run_outcome) :
  environ_get rt "CODESPACE_NAME" w = (Some codespace, w1) ->
  codespace <> "" ->
  subprocess_run rt
    ["gh"; "codespace"; "ports"; "visibility"; "8000:public"; "3000:public";
     "-c"; codespace] 15 w1 = (o, w2) ->
  exists r,
    make_ports_public rt w
    = (r, w2,
       [EEnviron "CODESPACE_NAME" (Some codespace);
        ESubprocess ["gh"; "codespace"; "ports"; "visibility"; "8000:public";
                     "3000:public"; "-c"; codespace] 15 o])
    /\ (forall cls, o = RunRaised cls -> r = Raised (Uncaught cls))
    /\ ((forall cls, o <> RunRaised cls) ->
        exists ports,
          r = Ok ports
          /\ (lookup "success" ports = Some (JBool true) <-> o = Completed)
          /\ (o = Completed ->
              ports = [("success", JBool true);
                       ("frontend_url",
                        JStr ("https://" ++ codespace ++ "-3000.app.github.dev/login"))])
          /\ (o <> Completed ->
              keys ports = ["success"; "error"]
              /\ lookup "success" ports = Some (JBool false)
              /\ exists msg, lookup "error" ports = Some (JStr msg))).
Proof.
  intros He Hne Hrun. unfold make_ports_public. rewrite bind_ask, He.
  destruct codespace as [|c cs]; [contradiction|]. cbv iota beta.
  unfold after. rewrite bind_ask.
  change (gh_argv (String c cs))
    with ["gh"; "codespace"; "ports"; "visibility"; "8000:public"; "3000:public";
          "-c"; String c cs].
  rewrite Hrun.
  destruct o as [|stderr| | |cls]; cbn [after ret raise]; eexists;
    (split; [reflexivity|]).
  5:{ split; [intros cls' H; inversion H; reflexivity|].
      intros Hnot. exfalso. exact (Hnot cls eq_refl). }
  all: split; [discriminate|]; intros _; eexists; split; [reflexivity|].
  2-4: split; [split; discriminate|]; split; [discriminate|]; intros _;
       split; [reflexivity|]; split; [reflexivity|]; eexists; reflexivity.
  split; [split; reflexivity|]. split; [|intros H; contradiction].
  intros _. do 3 f_equal. unfold fstr. cbn [String.concat].
  change (str_of_Z FRONTEND_PORT) with "3000".
  cbn [append]. do 8 f_equal. rewrite !append_assoc. reflexivity.
Qed.

End Ports.

(** *** The schedule of the connectivity check, in seconds *)

Section ProbeBudget.

Context {W : Type} (rt : runtime W).

(** X9: the connectivity check makes at most four requests and sleeps at
    most 40 seconds in all (10 + 15 + 15); it has slept exactly 40 seconds
    when it gives up.  The fourth entry of WAKE_DELAYS is never used: no
    sleep follows the last attempt.  A check whose first request is answered
    does not sleep. *)
Theorem probe_sleeps_at_most_40 (w w' : W) (r : result bool) (tr : list event) :
  statuses_valid rt ->
  wake_loop rt (range WAKE_RETRIES) w = (r, w', tr) ->
  slept tr <= 40
  /\ (length (http_statuses tr) <= 4)%nat
  /\ (r = Ok false -> slept tr = 40 /\ length (http_statuses tr) = 4%nat)
  /\ (length (http_statuses tr) = 1%nat -> slept tr = 0).
Proof.
  intros Hv H. change (range WAKE_RETRIES) with [0; 1; 2; 3] in H.
  rewrite wake_loop_turn in H by apply Hv.
  destruct (urlopen rt probe_request w) as [o1 w1].
  destruct (fst (get_result o1) =? 0).
  2:{ inversion H; subst. simpl. repeat split; try lia; discriminate. }
  change (0 <? WAKE_RETRIES - 1) with true in H.
  change (index WAKE_DELAYS 0) with (@Ok Z 10) in H. cbv iota in H.
  rewrite wake_loop_turn in H by apply Hv.
  destruct (urlopen rt probe_request (performed rt (ESleep 10) w1)) as [o2 w2].
  destruct (fst (get_result o2) =? 0).
  2:{ inversion H; subst. simpl. repeat split; try lia; discriminate. }
  change (1 <? WAKE_RETRIES - 1) with true in H.
  change (index WAKE_DELAYS 1) with (@Ok Z 15) in H. cbv iota in H.
  rewrite wake_loop_turn in H by apply Hv.
  destruct (urlopen rt probe_request (performed rt (ESleep 15) w2)) as [o3 w3].
  destruct (fst (get_result o3) =? 0).
  2:{ inversion H; subst. simpl. repeat split; try lia; discriminate. }
  change (2 <? WAKE_RETRIES - 1) with true in H.
  change (index WAKE_DELAYS 2) with (@Ok Z 15) in H. cbv iota in H.
  rewrite wake_loop_turn in H by apply Hv.
  destruct (urlopen rt probe_request (performed rt (ESleep 15) w3)) as [o4 w4].
  change (3 <? WAKE_RETRIES - 1) with false in H. cbn [wake_loop ret after] in H.
  destruct (fst (get_result o4) =? 0); inversion H; subst; simpl;
    repeat split; try lia; discriminate.
Qed.

End ProbeBudget.

(** *** The flag the invoker sets *)

Section Reachable.

Context {W : Type} (rt : runtime W).

Lemma unwrap_smoke_reachable (body : json) (smoke : dict) :
  unwrap_smoke body = Ok smoke ->
  lookup "service_reachable" smoke = Some (JBool true).
Proof.
  unfold unwrap_smoke. destruct body as [| | | | | |top]; try discriminate.
  cbn [get and_then].
  destruct (get_or "smokeTestResults" (JDict top) top) as [| | | | | |inner];
    try discriminate.
  intros H.
  match type of H with
  | and_then (log_smoke ?x) _ = _ =>
      destruct (log_smoke x); [|discriminate H]; cbn [and_then] in H
  end.
  inversion H; subst; clear H.
  destruct (lookup "screenshotUrls" top) as [urls|].
  - destruct (negb (has_key "screenshotUrls"
                      (assign "service_reachable" (JBool true) inner))).
    + rewrite lookup_assign_other by discriminate. apply lookup_assign_same.
    + apply lookup_assign_same.
  - apply lookup_assign_same.
Qed.

(** X10: whatever the browser agent answers, a result the invoker returns
    holds the boolean [service_reachable], and it is false exactly when the
    POST came back with status 0; the invoker has made that one request and
    no other. *)
Theorem service_reachable_follows_status (frontend_url email password : json)
  (features : list json) (w w' : W) (smoke : dict) (tr : list event) :
  call_browser_agent rt frontend_url email password features w = (Ok smoke, w', tr) ->
  exists o,
    tr = [EUrlopen (smoke_request frontend_url email password features) o]
    /\ lookup "service_reachable" smoke
       = Some (JBool (negb (fst (post_result o) =? 0))).
Proof.
  intros H. rewrite call_browser_agent_runs in H.
  destruct (urlopen rt (smoke_request frontend_url email password features) w)
    as [o w1].
  inversion H as [[Hres Hw Htr]]. exists o. split; [reflexivity|].
  unfold smoke_result in Hres.
  destruct (fst (post_result o) =? 0); cbn [negb].
  - destruct (get (snd (post_result o)) "error" JNull); [|discriminate Hres].
    cbn [and_then] in Hres. inversion Hres. reflexivity.
  - destruct (not_2xx (fst (post_result o))).
    + inversion Hres. reflexivity.
    + exact (unwrap_smoke_reachable _ _ Hres).
Qed.

End Reachable.

(** *** What a computation leaves in the trace *)

Section Traces.

Context {W : Type} (rt : runtime W).

Variable P : event -> bool.

Lemma emits_ret {A} (a : A) : emits P (@ret W A a).
Proof. intros w. reflexivity. Qed.

Lemma emits_raise {A} (e : exn) : emits P (@raise W A e).
Proof. intros w. reflexivity. Qed.

Lemma emits_lift {A} (r : result A) : emits P (@lift W A r).
Proof. destruct r; [apply emits_ret | apply emits_raise]. Qed.

Lemma emits_ask {A} (q : W -> A * W) (ev : A -> event) :
  (forall a, P (ev a) = true) -> emits P (ask q ev).
Proof.
  intros Hev w. unfold ask. destruct (q w) as [a w1]. simpl. now rewrite Hev.
Qed.

Lemma emits_tell (e : event) : P e = true -> emits P (tell rt e).
Proof. intros He w. simpl. now rewrite He. Qed.

Lemma emits_bind {A B} (m : M W A) (f : A -> M W B) :
  emits P m -> (forall a, emits P (f a)) -> emits P (bind m f).
Proof.
  intros Hm Hf w. unfold bind. specialize (Hm w).
  destruct (m w) as [[[a|e] w1] t1]; simpl in *; [|exact Hm].
  specialize (Hf a w1). destruct (f a w1) as [[r w2] t2]. simpl in *.
  now rewrite forallb_app, Hm, Hf.
Qed.

End Traces.

(** One step through a computation built from the combinators. *)
Ltac emits_step :=
  match goal with
  | |- emits _ (bind _ _) => apply emits_bind
  | |- emits _ (ret _) => apply emits_ret
  | |- emits _ (raise _) => apply emits_raise
  | |- emits _ (lift _) => apply emits_lift
  | |- emits _ (ask _ _) => apply emits_ask; intros; reflexivity
  | |- emits _ (tell _ _) => apply emits_tell; reflexivity
  | |- forall _, _ => intros
  | |- emits _ (let _ := _ in _) => cbv zeta
  | |- emits _ (if true then _ else _) => cbv iota
  | |- emits _ (match ?x with _ => _ end) => destruct x
  end.

Section Skipping.

Context {W : Type} (rt : runtime W).

Lemma wake_loop_emits (attempts : list Z) :
  emits no_smoke_post (wake_loop rt attempts).
Proof.
  induction attempts as [|attempt rest IH]; cbn [wake_loop]; unfold http_get.
  - apply emits_ret.
  - repeat emits_step. exact IH.
Qed.

Lemma run_auth_test_emits : emits no_smoke_post (run_auth_test rt).
Proof. unfold run_auth_test, http_post, http_get. repeat emits_step. Qed.

Lemma make_ports_public_emits : emits no_request (make_ports_public rt).
Proof. unfold make_ports_public. repeat emits_step. Qed.

Lemma read_features_emits : emits no_request (read_features rt).
Proof. unfold read_features. repeat emits_step. Qed.

Lemma no_request_no_smoke_post {A} (m : M W A) :
  emits no_request m -> emits no_smoke_post m.
Proof.
  intros H w. specialize (H w). destruct (m w) as [[r w1] tr]. simpl in *.
  induction tr as [|e tr IH]; [reflexivity|]. simpl in *.
  apply andb_true_iff in H as [He Htr]. rewrite (IH Htr).
  destruct e; try reflexivity. discriminate He.
Qed.

(** With the invocation skipped, the stages after the auth flow make no
    HTTP call. *)
Lemma stages_skipped_emit (output auth : dict) :
  emits no_request (stages rt output true auth).
Proof.
  unfold stages. repeat emits_step.
  - apply make_ports_public_emits.
  - apply read_features_emits.
Qed.

(** X11: when the connectivity check has failed, no request goes to the
    browser agent's /smoke-test during the whole run of main, however the
    run ends. *)
Theorem failed_probe_skips_invocation (w w1 w2 w' : W) (timestamp : string)
  (tp tr : list event) (r : result Z) :
  strftime rt "%Y-%m-%dT%H:%M:%SZ" w = (timestamp, w1) ->
  wake_loop rt (range WAKE_RETRIES) w1 = (Ok false, w2, tp) ->
  main rt w = (r, w', tr) ->
  forall data timeout o, ~ In (EUrlopen (POST smoke_url data timeout) o) tr.
Proof.
  intros Hs Hwake H. unfold main in H. rewrite bind_ask, Hs in H.
  rewrite (bind_run _ _ _ _ _ _ Hwake) in H. cbv beta in H. cbn [negb] in H.
  match type of H with
  | context [match ?m w2 with _ => _ end] =>
      assert (Hrest : emits no_smoke_post m)
  end.
  { apply emits_bind; [apply run_auth_test_emits|]. intros auth.
    apply emits_bind; [apply no_request_no_smoke_post, stages_skipped_emit|].
    repeat emits_step. }
  specialize (Hrest w2). pose proof (wake_loop_emits (range WAKE_RETRIES) w1) as Hp.
  rewrite Hwake in Hp.
  match type of H with
  | context [match ?m w2 with _ => _ end] => destruct (m w2) as [[r2 w3] t3]
  end.
  cbn [snd after] in *. inversion H; subst; clear H.
  intros data timeout o Hin.
  assert (Hall : forallb no_smoke_post
                   (EStrftime "%Y-%m-%dT%H:%M:%SZ" timestamp :: tp ++ t3) = true).
  { cbn [forallb no_smoke_post andb]. now rewrite forallb_app, Hp, Hrest. }
  rewrite forallb_forall in Hall. specialize (Hall _ Hin).
  cbn [no_smoke_post] in Hall. rewrite String.eqb_refl in Hall. discriminate Hall.
Qed.

End Skipping.

(** *** The stages after the auth flow, with their binds carried out *)

Section Stages.

Context {W : Type} (rt : runtime W).

Lemma bind_unfold {A B} (m : M W A) (f : A -> M W B) (w : W) :
  bind m f w
  = match m w with
    | (Ok a, w1, t1) => match f a w1 with (r, w2, t2) => (r, w2, t1 ++ t2) end
    | (Raised e, w1, t1) => (Raised e, w1, t1)
    end.
Proof. reflexivity. Qed.

Lemma stages_runs (output : dict) (skip_browser : bool) (auth : dict) (w : W) :
  stages rt output skip_browser auth w =
  match lookup "success" auth with
  | None => (Raised KeyError, w, [])
  | Some success =>
  if negb (truthy success) then
    (Ok (assign "browser_smoke_test"
           (JDict [("overall", JStr "error");
                   ("error", JStr (fstr ["Auth failed: ";
                                         py_str rt (get_or "error" JNull auth);
                                         " -- no valid credentials for browser test"]))])
           output, 1), w, [])
  else
  match lookup "email" auth with
  | None => (Raised KeyError, w, [])
  | Some email =>
  match lookup "password" auth with
  | None => (Raised KeyError, w, [])
  | Some password =>
  let (frontend, w1) := isdir rt "frontend" w in
  if negb frontend then
    (Ok (assign "browser_smoke_test" (JDict [("overall", JStr "not_applicable")]) output,
         0), w1, [EIsdir "frontend" false])
  else
  match make_ports_public rt w1 with
  | (Raised e, w2, tp) => (Raised e, w2, EIsdir "frontend" true :: tp)
  | (Ok ports, w2, tp) =>
  match lookup "success" ports with
  | None => (Raised KeyError, w2, EIsdir "frontend" true :: tp)
  | Some ports_success =>
  if negb (truthy ports_success) then
    match lookup "error" ports with
    | None => (Raised KeyError, w2, EIsdir "frontend" true :: tp)
    | Some err =>
        (Ok (assign "browser_smoke_test"
               (JDict [("overall", JStr "error"); ("error", err)]) output, 2),
         w2, EIsdir "frontend" true :: tp)
    end
  else
  match read_features rt w2 with
  | (Raised e, w3, tf) => (Raised e, w3, EIsdir "frontend" true :: tp ++ tf)
  | (Ok features, w3, tf) =>
  if skip_browser then (Ok (output, 0), w3, EIsdir "frontend" true :: tp ++ tf)
  else
  match lookup "frontend_url" ports with
  | None => (Raised KeyError, w3, EIsdir "frontend" true :: tp ++ tf)
  | Some frontend_url =>
  match call_browser_agent rt frontend_url email password features w3 with
  | (Ok smoke, w4, ta) =>
      (Ok (assign "browser_smoke_test" (JDict smoke) output, exit_code_of_smoke smoke),
       w4, EIsdir "frontend" true :: tp ++ tf ++ ta)
  | (Raised e, w4, ta) => (Raised e, w4, EIsdir "frontend" true :: tp ++ tf ++ ta)
  end end end end end end end end.
Proof.
  unfold stages. rewrite bind_lift. unfold getitem at 1.
  destruct (lookup "success" auth) as [success|]; [|reflexivity].
  destruct (negb (truthy success)); [reflexivity|].
  rewrite bind_lift. unfold getitem at 1.
  destruct (lookup "email" auth) as [email|]; [|reflexivity].
  rewrite bind_lift. unfold getitem at 1.
  destruct (lookup "password" auth) as [password|]; [|reflexivity].
  rewrite bind_ask. destruct (isdir rt "frontend" w) as [[|] w1]; cbn [negb];
    [|reflexivity].
  rewrite bind_unfold.
  destruct (make_ports_public rt w1) as [[[ports|e] w2] tp]; [|reflexivity].
  rewrite bind_lift. unfold getitem at 1.
  destruct (lookup "success" ports) as [ports_success|];
    [|cbn [after]; now rewrite app_nil_r].
  destruct (negb (truthy ports_success)).
  { rewrite bind_lift. unfold getitem at 1.
    destruct (lookup "error" ports) as [err|]; cbn [after ret]; now rewrite app_nil_r. }
  rewrite bind_unfold.
  destruct (read_features rt w2) as [[[features|e] w3] tf]; [|reflexivity].
  destruct skip_browser.
  { cbn [after ret]. now rewrite app_nil_r. }
  rewrite bind_lift. unfold getitem at 1.
  destruct (lookup "frontend_url" ports) as [frontend_url|];
    [|cbn [after]; now rewrite app_nil_r].
  rewrite bind_unfold.
  destruct (call_browser_agent rt frontend_url email password features w3)
    as [[[smoke|e] w4] ta]; cbn [after ret]; [now rewrite app_nil_r | reflexivity].
Qed.

End Stages.

(** *** The request to the browser agent, and the exit code *)

Section Invocation.

Context {W : Type} (rt : runtime W).

Lemma no_request_not_in (tr : list event) (req : request) (o : urlopen_outcome) :
  forallb no_request tr = true -> ~ In (EUrlopen req o) tr.
Proof.
  intros Hall Hin. rewrite forallb_forall in Hall.
  specialize (Hall _ Hin). discriminate Hall.
Qed.

(** X12: the stages after the auth flow make at most one HTTP request, the
    POST to /smoke-test, as the last thing they do.  It is made only when
    the auth result's [success] is true, the frontend directory exists and
    the ports were published, and it carries what the earlier steps
    produced: the URL [make_ports_public] returned, the e-mail and the
    password of the auth result, and the features [read_features]
    returned. *)
Theorem invocation_carries_earlier_results (output auth : dict) (w w' : W)
  (r : result (dict * Z)) (tr : list event) (req : request) (o : urlopen_outcome) :
  stages rt output false auth w = (r, w', tr) ->
  In (EUrlopen req o) tr ->
  exists w1 ports w2 tp features w3 tf url email password,
    (exists success, lookup "success" auth = Some success /\ truthy success = true)
    /\ lookup "email" auth = Some email
    /\ lookup "password" auth = Some password
    /\ isdir rt "frontend" w = (true, w1)
    /\ make_ports_public rt w1 = (Ok ports, w2, tp)
    /\ lookup "success" ports = Some (JBool true)
    /\ lookup "frontend_url" ports = Some url
    /\ read_features rt w2 = (Ok features, w3, tf)
    /\ req = smoke_request url email password features
    /\ tr = EIsdir "frontend" true :: tp ++ tf ++ [EUrlopen req o]
    /\ forallb no_request (EIsdir "frontend" true :: tp ++ tf) = true.
Proof.
  intros H Hin. rewrite stages_runs in H.
  destruct (lookup "success" auth) as [success|] eqn:Hs;
    [|inversion H; subst; destruct Hin].
  destruct (truthy success) eqn:Ht; cbn [negb] in H;
    [|inversion H; subst; destruct Hin].
  destruct (lookup "email" auth) as [email|] eqn:He;
    [|inversion H; subst; destruct Hin].
  destruct (lookup "password" auth) as [password|] eqn:Hp;
    [|inversion H; subst; destruct Hin].
  destruct (isdir rt "frontend" w) as [[|] w1] eqn:Hdir; cbn [negb] in H.
  2:{ inversion H; subst. destruct Hin as [Hin|[]]. discriminate Hin. }
  pose proof (make_ports_public_emits rt w1) as Hqp.
  destruct (make_ports_public_cases rt w1) as (rp & w2 & tp & Hports & _ & Hcase).
  rewrite Hports in H, Hqp. cbn [snd] in Hqp.
  destruct Hcase as [(cls & _ & _ & _ & -> & _)|(ports & -> & Hcase)].
  { exfalso. inversion H; subst.
    destruct Hin as [Hin|Hin]; [discriminate Hin | exact (no_request_not_in _ _ _ Hqp Hin)]. }
  destruct Hcase as [[Hps _]|[Hps (url & Hurl)]]; rewrite Hps in H;
    cbn [truthy negb] in H.
  { exfalso. destruct (lookup "error" ports); inversion H; subst;
      (destruct Hin as [Hin|Hin]; [discriminate Hin | exact (no_request_not_in _ _ _ Hqp Hin)]). }
  pose proof (read_features_emits rt w2) as Hqf.
  destruct (read_features_returns rt w2) as (features & w3 & tf & Hfeat & _).
  rewrite Hfeat in H, Hqf. cbn [snd] in Hqf. rewrite Hurl in H.
  rewrite call_browser_agent_runs in H.
  destruct (urlopen rt (smoke_request (JStr url) email password features) w3)
    as [o' w4].
  assert (Htr : tr = EIsdir "frontend" true
                     :: tp ++ tf
                        ++ [EUrlopen (smoke_request (JStr url) email password features) o']).
  { destruct (smoke_result rt (fst (post_result o')) (snd (post_result o')));
      inversion H; reflexivity. }
  clear H. subst tr.
  assert (Hlast : EUrlopen req o
                  = EUrlopen (smoke_request (JStr url) email password features) o').
  { destruct Hin as [Hin|Hin]; [discriminate Hin|].
    apply in_app_or in Hin as [Hin|Hin];
      [exfalso; exact (no_request_not_in _ _ _ Hqp Hin)|].
    apply in_app_or in Hin as [Hin|Hin];
      [exfalso; exact (no_request_not_in _ _ _ Hqf Hin)|].
    destruct Hin as [Hin|[]]. now symmetry. }
  inversion Hlast; subst.
  exists w1, ports, w2, tp, features, w3, tf, (JStr url), email, password.
  split; [exists success; auto|].
  repeat (split; [first [assumption | reflexivity]|]).
  cbn [forallb no_request andb]. now rewrite forallb_app, Hqp, Hqf.
Qed.

(** The exit code of the stages, and what they leave of the report. *)
Lemma stages_code (output : dict) (skip_browser : bool) (auth : dict) (w w' : W)
  (output' : dict) (code : Z) (tr : list event) :
  stages rt output skip_browser auth w = (Ok (output', code), w', tr) ->
  (code = 0 \/ code = 1 \/ code = 2)
  /\ lookup "auth" output' = lookup "auth" output
  /\ (forall v, lookup "success" auth = Some v -> truthy v = false -> code = 1).
Proof.
  intros H. rewrite stages_runs in H.
  destruct (lookup "success" auth) as [success|]; [|discriminate H].
  destruct (truthy success) eqn:Ht; cbn [negb] in H.
  2:{ inversion H; subst. split; [auto|]. split; [|reflexivity].
      now rewrite lookup_assign_other by discriminate. }
  assert (Hauth : forall v, Some success = Some v -> truthy v = false -> code = 1).
  { intros v Hv Hf. inversion Hv; subst. rewrite Hf in Ht. discriminate Ht. }
  repeat (match type of H with
          | context [match ?x with _ => _ end] => destruct x
          end; try discriminate H).
  all: inversion H; subst; clear H.
  all: split; [|split; [|exact Hauth]].
  all: try (now rewrite lookup_assign_other by discriminate).
  all: try reflexivity.
  all: auto.
  unfold exit_code_of_smoke.
  repeat match goal with
    | |- context [if ?c then _ else _] => destruct c
    end; auto.
Qed.

Lemma run_auth_test_success (w w' : W) (auth : dict) (tr : list event) :
  run_auth_test rt w = (Ok auth, w', tr) ->
  exists success, lookup "success" auth = Some (JBool success).
Proof. intros H. auth_exits H; eexists; reflexivity. Qed.

(** X13: whatever the remote services answer, when main returns, the code
    it returns is 0, 1 or 2 and is the [exit_code] of the report, which was
    written to the results file and then printed as the last two things
    main did.  The report holds the result of the auth flow under [auth],
    and a run whose auth flow did not succeed returns 1: exit code 0 is
    never returned without a successful auth flow. *)
Theorem exit_code_sound (w w' : W) (code : Z) (tr : list event) :
  main rt w = (Ok code, w', tr) ->
  exists pre final auth success,
    tr = pre ++ [EDump RESULTS_FILE (JDict final); EStdout (JDict final)]
    /\ lookup "exit_code" final = Some (JInt code)
    /\ lookup "auth" final = Some (JDict auth)
    /\ lookup "success" auth = Some (JBool success)
    /\ (code = 0 \/ code = 1 \/ code = 2)
    /\ (success = false -> code = 1).
Proof.
  intros H. unfold main in H. rewrite bind_ask in H.
  destruct (strftime rt "%Y-%m-%dT%H:%M:%SZ" w) as [timestamp w1].
  rewrite bind_unfold in H.
  destruct (wake_loop rt (range WAKE_RETRIES) w1) as [[[reachable|e] w2] t2];
    [|discriminate H].
  rewrite bind_unfold in H.
  destruct (run_auth_test rt w2) as [[[auth|e] w3] t3] eqn:Hauth; [|discriminate H].
  destruct (run_auth_test_success _ _ _ _ Hauth) as [success Hs].
  rewrite bind_unfold in H.
  match type of H with
  | context [stages rt ?out ?skip auth w3] =>
      assert (Hout : lookup "auth" out = Some (JDict auth))
        by (destruct reachable; reflexivity);
      generalize dependent out; intros output0 H Hout;
      destruct (stages rt output0 skip auth w3) as [[[[output' code']|e] w4] t4] eqn:Hst
  end; [|discriminate H].
  destruct (stages_code _ _ _ _ _ _ _ _ Hst) as (Hrange & Hkeep & Hfail).
  cbv beta iota in H. rewrite bind_tell in H. rewrite bind_lift in H.
  destruct (getitem (assign "exit_code" (JInt code') output') "browser_smoke_test")
    as [stage|]; [|discriminate H].
  rewrite bind_lift in H.
  destruct (get stage "overall" (JStr "unknown")) as [overall|]; [|discriminate H].
  rewrite bind_lift in H.
  destruct (upper_check overall); [|discriminate H].
  rewrite bind_tell in H. cbn [after ret] in H. inversion H; subst; clear H.
  exists (EStrftime "%Y-%m-%dT%H:%M:%SZ" timestamp :: t2 ++ t3 ++ t4),
    (assign "exit_code" (JInt code) output'), auth, success.
  split; [cbn [app]; rewrite <- !app_assoc; reflexivity|].
  split; [apply lookup_assign_same|].
  split; [rewrite lookup_assign_other by discriminate; now rewrite Hkeep|].
  split; [exact Hs|]. split; [exact Hrange|].
  intros ->. exact (Hfail _ Hs eq_refl).
Qed.

End Invocation.

(** ** More of the fixture *)

(** *** Looking rows up *)

Lemma find_app {A} (f : A -> bool) (l l' : list A) :
  find f (l ++ l') = match find f l with Some x => Some x | None => find f l' end.
Proof.
  induction l as [|x l IH]; simpl; [reflexivity|]. now destruct (f x).
Qed.

Lemma find_filter {A} (f g : A -> bool) (l : list A) :
  (forall x, In x l -> f x = true -> g x = true) ->
  find f (filter g l) = find f l.
Proof.
  induction l as [|x l IH]; simpl; intros H; [reflexivity|].
  destruct (f x) eqn:Ef.
  - rewrite (H x (or_introl eq_refl) Ef). simpl. now rewrite Ef.
  - destruct (g x); simpl; [rewrite Ef|]; apply IH; intros y Hy; apply H; now right.
Qed.

Lemma find_filter_none {A} (f g : A -> bool) (l : list A) :
  (forall x, In x l -> f x = true -> g x = false) ->
  find f (filter g l) = None.
Proof.
  induction l as [|x l IH]; simpl; intros H; [reflexivity|].
  destruct (g x) eqn:Eg; simpl.
  - destruct (f x) eqn:Ef.
    + rewrite (H x (or_introl eq_refl) Ef) in Eg. discriminate Eg.
    + apply IH. intros y Hy. apply H. now right.
  - apply IH. intros y Hy. apply H. now right.
Qed.

Lemma first_by_email_none (db : list Fixture.User) (e : string) :
  Fixture.first_by_email db e = None -> ~ In e (map Fixture.email db).
Proof.
  intros Hnone Hin. apply in_map_iff in Hin as (u & Hu & Hdb).
  pose proof (find_none _ _ Hnone u Hdb) as Hf. cbv beta in Hf.
  rewrite Hu, String.eqb_refl in Hf. discriminate Hf.
Qed.

Lemma before_at_local (local domain : string) :
  ~ In "@"%char (list_ascii_of_string local) ->
  Fixture.before_at (local ++ "@" ++ domain) = local.
Proof.
  change ("@" ++ domain)%string with (String "@"%char domain).
  induction local as [|c local IH]; intros Hno; [reflexivity|].
  cbn [append Fixture.before_at]. cbn [list_ascii_of_string In] in Hno.
  destruct (Ascii.eqb_spec c "@"%char) as [->|_]; [tauto|].
  rewrite IH by tauto. reflexivity.
Qed.

(** *** Accounts (routers/auth.py) *)

Section Accounts.

Import Fixture.

Variable hash_password : string -> string.
Variable verify_password : string -> string -> bool.
Variable create_token : Z -> string -> string.
Variable next_id : list User -> Z.

(** X14: registration keeps the e-mail addresses of the users table
    distinct: from a table without two rows of the same address, whatever
    is registered, the table after it has none either. *)
Theorem register_keeps_emails_unique (db : list User) (body : RegisterRequest) :
  NoDup (map email db) ->
  NoDup (map email (fst (register hash_password create_token next_id db body))).
Proof.
  intros Hnd. unfold register.
  destruct (first_by_email db (req_email body)) eqn:E; cbn [fst]; [exact Hnd|].
  rewrite map_app. apply NoDup_app; [exact Hnd | repeat constructor; intros [] |].
  intros a Ha [Hin|[]]. cbn [email] in Hin. subst a.
  exact (first_by_email_none _ _ E Ha).
Qed.

(** X15: an account that was just registered can log in with its
    password, and with nothing else.  When the e-mail was free, a login with
    it is answered 200, for the user the registration answered with, exactly
    when [verify_password] accepts the password against the hash of the
    registered one; with any other password it gets the 401 answer. *)
Theorem register_then_login (db : list User) (body : RegisterRequest) :
  first_by_email db (req_email body) = None ->
  exists user,
    fst (register hash_password create_token next_id db body) = db ++ [user]
    /\ email user = req_email body
    /\ snd (register hash_password create_token next_id db body)
       = Reply 200 (JDict [("user", user_response user);
                           ("token", JStr (create_token (id user) (email user)))])
    /\ forall password,
         login verify_password create_token
           (fst (register hash_password create_token next_id db body))
           {| login_email := req_email body; login_password := password |}
         = if verify_password password (hash_password (req_password body))
           then Reply 200 (JDict [("user", user_response user);
                                  ("token", JStr (create_token (id user) (email user)))])
           else invalid_credentials.
Proof.
  intros Hfree. unfold register. rewrite Hfree. cbn [fst snd].
  eexists. split; [reflexivity|]. split; [reflexivity|]. split; [reflexivity|].
  intros password. unfold login, first_by_email in *. cbn [login_email login_password].
  rewrite find_app, Hfree. cbn [find email]. rewrite String.eqb_refl.
  cbn [hashed_password].
  destruct (verify_password password (hash_password (req_password body))); reflexivity.
Qed.

(** X16: a registration changes no login but that of a newly registered
    e-mail.  When the e-mail of the registration was already taken -- a
    second registration with another password included -- or the login is
    for another e-mail, the login is answered after the registration as it
    was before. *)
Theorem registration_leaves_other_logins (db : list User) (body : RegisterRequest)
  (credentials : LoginRequest) :
  first_by_email db (req_email body) <> None
  \/ login_email credentials <> req_email body ->
  login verify_password create_token
    (fst (register hash_password create_token next_id db body)) credentials
  = login verify_password create_token db credentials.
Proof.
  intros Hcase. unfold register.
  destruct (first_by_email db (req_email body)); cbn [fst]; [reflexivity|].
  destruct Hcase as [Htaken|Hne]; [contradiction|].
  unfold login, first_by_email. rewrite find_app.
  destruct (find (fun u => String.eqb (email u) (login_email credentials)) db);
    [reflexivity|].
  cbn [find email].
  destruct (String.eqb_spec (req_email body) (login_email credentials)) as [E|E];
    [now rewrite E in Hne | reflexivity].
Qed.

(** X17: the display name of a newly registered user is the
    [display_name] of the request when it is given and not empty, else the
    [name] when that is given and not empty, else the part of the e-mail
    address before the "@". *)
Theorem display_name_falls_back (db : list User) (body : RegisterRequest)
  (local domain : string) :
  first_by_email db (req_email body) = None ->
  req_email body = (local ++ "@" ++ domain)%string ->
  ~ In "@"%char (list_ascii_of_string local) ->
  exists user,
    fst (register hash_password create_token next_id db body) = db ++ [user]
    /\ display_name user
       = match req_display_name body, req_name body with
         | Some (String c s), _ => String c s
         | _, Some (String c s) => String c s
         | _, _ => local
         end.
Proof.
  intros Hfree Hmail Hlocal. unfold register. rewrite Hfree. cbn [fst].
  eexists. split; [reflexivity|]. cbn [display_name].
  rewrite Hmail, (before_at_local local domain Hlocal).
  destruct (req_display_name body) as [[|c s]|], (req_name body) as [[|c' s']|];
    reflexivity.
Qed.

End Accounts.

(** *** The seed user (main.py) *)

Section Seeding.

Import Fixture.

Variable hash_password : string -> string.
Variable verify_password : string -> string -> bool.
Variable create_token : Z -> string -> string.
Variable next_id : list User -> Z.

(** X18: [init_db] may run at every start.  It keeps the rows it finds and
    adds at most one; after it the seed e-mail resolves to a user; running
    it again changes nothing; and a registration with the seed e-mail is
    answered 409 from then on. *)
Theorem init_db_settles (db : list User) :
  init_db hash_password next_id (init_db hash_password next_id db)
  = init_db hash_password next_id db
  /\ (exists extra,
        init_db hash_password next_id db = db ++ extra /\ (length extra <= 1)%nat)
  /\ (exists seed,
        first_by_email (init_db hash_password next_id db) SEED_EMAIL = Some seed)
  /\ (forall body,
        req_email body = SEED_EMAIL ->
        register hash_password create_token next_id
          (init_db hash_password next_id db) body
        = (init_db hash_password next_id db, conflict)).
Proof.
  assert (Hseed : exists seed,
            first_by_email (init_db hash_password next_id db) SEED_EMAIL = Some seed).
  { unfold init_db. destruct (first_by_email db SEED_EMAIL) as [u|] eqn:E.
    - exists u. exact E.
    - eexists. unfold first_by_email in *. rewrite find_app, E. reflexivity. }
  destruct Hseed as [seed Hseed]. split; [|split; [|split]].
  - unfold init_db at 1. now rewrite Hseed.
  - unfold init_db. destruct (first_by_email db SEED_EMAIL).
    + exists []. split; [now rewrite app_nil_r | simpl; lia].
    + eexists [_]. split; [reflexivity | simpl; lia].
  - exists seed. exact Hseed.
  - intros body Hbody. unfold register. now rewrite Hbody, Hseed.
Qed.

(** X19: after [admin_reset], whatever the tables held, they hold the seed
    user and nothing else: no project and no task is listed for anyone, the
    login with SEED_EMAIL and SEED_PASSWORD is answered 200 (when
    [verify_password] accepts a password against its own hash), and the
    login with any other e-mail is answered 401. *)
Theorem reset_leaves_the_seed_user (db : Tables) :
  verify_password SEED_PASSWORD (hash_password SEED_PASSWORD) = true ->
  exists seed,
    fst (admin_reset hash_password next_id db)
    = {| users := [seed]; projects := []; tasks := [] |}
    /\ email seed = SEED_EMAIL
    /\ display_name seed = SEED_DISPLAY
    /\ login verify_password create_token
         (users (fst (admin_reset hash_password next_id db)))
         {| login_email := SEED_EMAIL; login_password := SEED_PASSWORD |}
       = Reply 200 (JDict [("user", user_response seed);
                           ("token", JStr (create_token (id seed) (email seed)))])
    /\ (forall credentials,
          login_email credentials <> SEED_EMAIL ->
          login verify_password create_token
            (users (fst (admin_reset hash_password next_id db))) credentials
          = invalid_credentials)
    /\ (forall anyone,
          list_projects (fst (admin_reset hash_password next_id db)) anyone
          = Reply 200 (JList [])
          /\ list_tasks (fst (admin_reset hash_password next_id db)) anyone
             = Reply 200 (JList [])).
Proof.
  intros Hverify. eexists. split; [reflexivity|].
  split; [reflexivity|]. split; [reflexivity|]. split; [|split].
  - unfold login, first_by_email. cbn. rewrite Hverify. reflexivity.
  - intros credentials Hne. unfold login, first_by_email.
    cbn [admin_reset fst users find seed_user email].
    destruct (String.eqb_spec SEED_EMAIL (login_email credentials)) as [E|E];
      [now rewrite E in Hne | reflexivity].
  - intros anyone. split; reflexivity.
Qed.

End Seeding.

(** *** Projects and tasks (routers/projects.py, routers/tasks.py) *)

Lemma find_all_false {A} (f : A -> bool) (l : list A) :
  (forall x, In x l -> f x = false) -> find f l = None.
Proof.
  induction l as [|x l IH]; simpl; intros H; [reflexivity|].
  rewrite (H x (or_introl eq_refl)). apply IH. intros y Hy. apply H. now right.
Qed.

Lemma NoDup_map_same {A B} (f : A -> B) (l : list A) (a b : A) :
  NoDup (map f l) -> In a l -> In b l -> f a = f b -> a = b.
Proof.
  induction l as [|x l IH]; simpl; intros Hnd Ha Hb Hab; [contradiction|].
  inversion Hnd as [|y ys Hnotin Hnd']; subst.
  destruct Ha as [->|Ha], Hb as [->|Hb]; auto.
  - exfalso. apply Hnotin. rewrite Hab. now apply in_map.
  - exfalso. apply Hnotin. rewrite <- Hab. now apply in_map.
Qed.

Section Rows.

Import Fixture.

Variable next_project_id : list Project -> Z.
Variable next_task_id : list Task -> Z.

(** X20: a project is out of reach of everyone but its owner.  With the
    keys of the table distinct, another user who asks for it by its id is
    answered 404, as for an id that does not exist; their attempt to delete
    it is answered 404 and leaves the tables as they are; and it is not in
    the list they get. *)
Theorem projects_are_private (db : Tables) (project : Project) (user : User) :
  NoDup (map p_id (projects db)) ->
  In project (projects db) ->
  p_user_id project <> id user ->
  get_project db (p_id project) user = project_not_found
  /\ delete_project db (p_id project) user = (db, project_not_found)
  /\ forall listed,
       list_projects db user = Reply 200 (JList listed) ->
       ~ In (project_response project) listed.
Proof.
  intros Hnd Hin Hne.
  assert (Hnone : own_project db (p_id project) user = None).
  { unfold own_project.
    destruct (find (fun p => (p_id p =? p_id project) && (p_user_id p =? id user))
                (projects db)) as [q|] eqn:E; [exfalso | reflexivity].
    apply find_some in E as [Hq Hf]. apply andb_true_iff in Hf as [Hid Howner].
    apply Z.eqb_eq in Hid, Howner.
    rewrite (NoDup_map_same p_id _ q project Hnd Hq Hin Hid) in Howner.
    contradiction. }
  unfold get_project, delete_project. rewrite Hnone.
  split; [reflexivity|]. split; [reflexivity|].
  intros listed Hl Hlisted. unfold list_projects in Hl. inversion Hl; subst; clear Hl.
  apply in_map_iff in Hlisted as (q & Hq & Hfilter).
  apply filter_In in Hfilter as [_ Howner]. apply Z.eqb_eq in Howner.
  unfold project_response in Hq. inversion Hq. congruence.
Qed.

(** X21: a project that was just created is found again.  When the key
    the database hands out is not yet in the table, the creation is
    answered 201 with a project of the creator holding the fields of the
    request; asking for its id then returns it to the creator, and 404 to
    anyone else. *)
Theorem created_project_is_found (db : Tables) (body : ProjectCreate) (user : User) :
  (forall p, In p (projects db) -> p_id p <> next_project_id (projects db)) ->
  exists project,
    create_project next_project_id db body user
    = ({| users := users db; projects := projects db ++ [project]; tasks := tasks db |},
       Reply 201 (project_response project))
    /\ p_user_id project = id user
    /\ (p_name project, p_description project, p_color project)
       = (pc_name body, pc_description body, pc_color body)
    /\ get_project (fst (create_project next_project_id db body user))
         (p_id project) user
       = Reply 200 (project_response project)
    /\ forall other,
         id other <> id user ->
         get_project (fst (create_project next_project_id db body user))
           (p_id project) other
         = project_not_found.
Proof.
  intros Hfresh. eexists. split; [reflexivity|]. split; [reflexivity|].
  split; [reflexivity|].
  assert (Hold : forall who,
            find (fun p => (p_id p =? next_project_id (projects db))
                           && (p_user_id p =? id who)) (projects db) = None).
  { intros who. apply find_all_false. intros p Hp.
    apply andb_false_iff. left. apply Z.eqb_neq. now apply Hfresh. }
  split.
  - unfold get_project, own_project. cbn [create_project fst projects p_id].
    rewrite find_app, Hold. cbn [find p_id p_user_id]. now rewrite !Z.eqb_refl.
  - intros other Hother. unfold get_project, own_project.
    cbn [create_project fst projects p_id].
    rewrite find_app, Hold. cbn [find p_id p_user_id].
    rewrite Z.eqb_refl. apply not_eq_sym, Z.eqb_neq in Hother. now rewrite Hother.
Qed.

(** X22: the lists of the users are separate.  A project someone creates
    is added at the end of the creator's list and changes the list of no
    other user. *)
Theorem project_lists_are_separate (db : Tables) (body : ProjectCreate)
  (creator user : User) :
  exists listed created,
    list_projects db user = Reply 200 (JList listed)
    /\ snd (create_project next_project_id db body creator) = Reply 201 created
    /\ list_projects (fst (create_project next_project_id db body creator)) user
       = Reply 200 (JList (if id creator =? id user then listed ++ [created]
                           else listed)).
Proof.
  do 2 eexists. split; [reflexivity|]. split; [reflexivity|].
  unfold list_projects. cbn [create_project fst projects].
  rewrite filter_app. cbn [filter p_user_id].
  destruct (id creator =? id user); [now rewrite map_app | now rewrite app_nil_r].
Qed.

(** X23: a project that was deleted is gone.  A deletion answered 204 was
    asked for by the owner of a project with that id; afterwards the id is
    answered 404 for everyone, every other id is answered as before, and the
    users table is as it was. *)
Theorem deleted_project_is_gone (db : Tables) (project_id : Z) (user : User) :
  snd (delete_project db project_id user) = no_content ->
  (exists project,
     In project (projects db)
     /\ p_id project = project_id /\ p_user_id project = id user)
  /\ (forall anyone,
        get_project (fst (delete_project db project_id user)) project_id anyone
        = project_not_found)
  /\ (forall other_id anyone,
        other_id <> project_id ->
        get_project (fst (delete_project db project_id user)) other_id anyone
        = get_project db other_id anyone)
  /\ users (fst (delete_project db project_id user)) = users db.
Proof.
  unfold delete_project.
  destruct (own_project db project_id user) as [project|] eqn:E;
    [intros _ | discriminate].
  unfold own_project in E. apply find_some in E as [Hin Hf].
  apply andb_true_iff in Hf as [Hid Howner]. apply Z.eqb_eq in Hid, Howner.
  cbn [fst]. split; [exists project; auto|]. split; [|split; [|reflexivity]].
  - intros anyone. unfold get_project, own_project. cbn [projects].
    rewrite find_filter_none; [reflexivity|].
    intros p _ Hp. apply andb_true_iff in Hp as [Hp _]. apply Z.eqb_eq in Hp.
    rewrite Hid, Hp, Z.eqb_refl. reflexivity.
  - intros other_id anyone Hother. unfold get_project, own_project. cbn [projects].
    rewrite find_filter; [reflexivity|].
    intros p _ Hp. apply andb_true_iff in Hp as [Hp _]. apply Z.eqb_eq in Hp.
    apply negb_true_iff, Z.eqb_neq. congruence.
Qed.

(** X24: deleting a project deletes its tasks, whoever owns them.  After a
    deletion answered 204 the tasks table holds the tasks it held, less
    those whose [project_id] is the deleted project's id; a task id that
    belonged to the project is answered 404 for everyone, its owner
    included, and a task id outside the project is answered as before. *)
Theorem delete_project_takes_its_tasks (db : Tables) (project_id : Z) (user : User) :
  snd (delete_project db project_id user) = no_content ->
  (forall t,
     In t (tasks (fst (delete_project db project_id user)))
     <-> In t (tasks db) /\ t_project_id t <> Some project_id)
  /\ (forall task_id anyone,
        (forall t, In t (tasks db) -> t_id t = task_id ->
                   t_project_id t = Some project_id) ->
        get_task (fst (delete_project db project_id user)) task_id anyone
        = task_not_found)
  /\ (forall task_id anyone,
        (forall t, In t (tasks db) -> t_id t = task_id ->
                   t_project_id t <> Some project_id) ->
        get_task (fst (delete_project db project_id user)) task_id anyone
        = get_task db task_id anyone).
Proof.
  unfold delete_project.
  destruct (own_project db project_id user) as [project|] eqn:E;
    [intros _ | discriminate].
  unfold own_project in E. apply find_some in E as [_ Hf].
  apply andb_true_iff in Hf as [Hid _]. apply Z.eqb_eq in Hid. rewrite Hid.
  cbn [fst tasks].
  assert (Hlinked : forall t, in_project project_id t = true
                              <-> t_project_id t = Some project_id).
  { intros t. unfold in_project. destruct (t_project_id t) as [pid|].
    - rewrite Z.eqb_eq. split; congruence.
    - split; discriminate. }
  split; [|split].
  - intros t. rewrite filter_In, negb_true_iff, <- Hlinked.
    destruct (in_project project_id t); intuition congruence.
  - intros task_id anyone Hall. unfold get_task, own_task. cbn [tasks].
    rewrite find_filter_none; [reflexivity|].
    intros t Ht Hf. apply andb_true_iff in Hf as [Hf _]. apply Z.eqb_eq in Hf.
    apply negb_false_iff, Hlinked. now apply Hall.
  - intros task_id anyone Hall. unfold get_task, own_task. cbn [tasks].
    rewrite find_filter; [reflexivity|].
    intros t Ht Hf. apply andb_true_iff in Hf as [Hf _]. apply Z.eqb_eq in Hf.
    apply negb_true_iff. destruct (in_project project_id t) eqn:Ein; [|reflexivity].
    apply Hlinked in Ein. now apply Hall in Ein.
Qed.

(** X25: a task goes the round of create, get and delete.  When the key
    the database hands out is not yet in the table, the creation is
    answered 201 with a task of the creator that keeps the [project_id] of
    the request, whatever it is; the creator then gets the task by its id,
    anyone else is answered 404 and cannot delete it; and once the creator
    has deleted it (204) the id is answered 404 for everyone. *)
Theorem task_round_trip (db : Tables) (body : TaskCreate) (user : User) :
  (forall t, In t (tasks db) -> t_id t <> next_task_id (tasks db)) ->
  exists task created,
    create_task next_task_id db body user = (created, Reply 201 (task_response task))
    /\ t_user_id task = id user
    /\ t_project_id task = tc_project_id body
    /\ get_task created (t_id task) user = Reply 200 (task_response task)
    /\ (forall other,
          id other <> id user ->
          get_task created (t_id task) other = task_not_found
          /\ delete_task created (t_id task) other = (created, task_not_found))
    /\ snd (delete_task created (t_id task) user) = no_content
    /\ forall anyone,
         get_task (fst (delete_task created (t_id task) user)) (t_id task) anyone
         = task_not_found.
Proof.
  intros Hfresh. do 2 eexists. split; [reflexivity|]. split; [reflexivity|].
  split; [reflexivity|].
  assert (Hold : forall who,
            find (fun t => (t_id t =? next_task_id (tasks db))
                           && (t_user_id t =? id who)) (tasks db) = None).
  { intros who. apply find_all_false. intros t Ht.
    apply andb_false_iff. left. apply Z.eqb_neq. now apply Hfresh. }
  assert (Hown : forall who,
            own_task {| users := users db; projects := projects db;
                        tasks := tasks db
                                 ++ [{| t_id := next_task_id (tasks db);
                                        t_title := tc_title body;
                                        t_status := tc_status body;
                                        t_project_id := tc_project_id body;
                                        t_user_id := id user |}] |}
              (next_task_id (tasks db)) who
            = if id user =? id who
              then Some {| t_id := next_task_id (tasks db);
                           t_title := tc_title body;
                           t_status := tc_status body;
                           t_project_id := tc_project_id body;
                           t_user_id := id user |}
              else None).
  { intros who. unfold own_task. cbn [tasks]. rewrite find_app, Hold.
    cbn [find t_id t_user_id]. rewrite Z.eqb_refl. reflexivity. }
  cbn [t_id]. split; [|split; [|split]].
  - unfold get_task. now rewrite Hown, Z.eqb_refl.
  - intros other Hother. apply not_eq_sym, Z.eqb_neq in Hother.
    unfold get_task, delete_task. now rewrite Hown, Hother.
  - unfold delete_task. now rewrite Hown, Z.eqb_refl.
  - intros anyone. unfold delete_task. rewrite Hown, Z.eqb_refl. cbn [fst t_id].
    unfold get_task, own_task. cbn [tasks].
    rewrite find_filter_none; [reflexivity|].
    intros t _ Hf. apply andb_true_iff in Hf as [Hf _]. apply Z.eqb_eq in Hf.
    now rewrite Hf, Z.eqb_refl.
Qed.

End Rows.

(** ** The test harness *)

(** X26: the harness has two clients of its own.  Its [http_post] returns
    for every outcome of [urlopen] what the driver's [http_get] returns: a
    URLError comes back as status 0 with the exception's text.  Its
    [http_get] agrees with its [http_post] except on an HTTP error, which it
    does not tell from a network failure: where [http_post] returns the
    code, [http_get] returns status 0 with "HTTP Error <code>: <reason>". *)
Theorem harness_get_hides_http_errors (o : urlopen_outcome) :
  Harness.post_result o = get_result o
  /\ (Harness.get_result o = Harness.post_result o
      \/ exists code reason body,
           o = HTTPError code reason body
           /\ fst (Harness.post_result o) = code
           /\ Harness.get_result o
              = (0, JDict [("error",
                            JStr ("HTTP Error " ++ str_of_Z code ++ ": " ++ reason))])).
Proof.
  split; [destruct o as [status [v|msg|msg]|code reason [v|msg|msg]|reason|msg];
          reflexivity|].
  destruct o as [status [v|msg|msg]|code reason body|reason|msg];
    try (left; reflexivity).
  right. exists code, reason, body. split; [reflexivity|].
  split; [destruct body; reflexivity | reflexivity].
Qed.

Lemma harness_post_is_driver_get (o : urlopen_outcome) :
  Harness.post_result o = get_result o.
Proof.
  destruct o as [status [v|msg|msg]|code reason [v|msg|msg]|reason|msg]; reflexivity.
Qed.

Section HarnessRuns.

Context {W : Type} (rt : runtime W).

Lemma harness_http_post_runs {B} url data timeout (f : Z * json -> M W B) (w : W) :
  bind (Harness.http_post rt url data timeout) f w
  = let (o, w1) := urlopen rt (POST url data timeout) w in
    after (EUrlopen (POST url data timeout) o) (f (Harness.post_result o) w1).
Proof.
  unfold Harness.http_post, bind, ask, ret.
  destruct (urlopen rt (POST url data timeout) w) as [o w1].
  destruct (f (Harness.post_result o) w1) as [[r w2] t2]. reflexivity.
Qed.

(** X27: [reset_fixture] makes one POST, with an empty object, to
    /api/admin/reset of the fixture.  The answer the fixture's own
    [admin_reset] gives makes it return True; any status but 200 -- another
    2xx, an HTTP error, the client's 0 -- makes it return False; and a 200
    whose body is JSON but not an object makes it raise, since the seed
    user is read from the body for the log. *)
Theorem reset_fixture_needs_200 (fixture_url : string) (w w' : W)
  (o : urlopen_outcome) :
  urlopen rt (Harness.reset_request fixture_url) w = (o, w') ->
  (forall hash_password next_id db,
     o = Fixture.on_the_wire (snd (Fixture.admin_reset hash_password next_id db)) ->
     Harness.reset_fixture rt fixture_url w
     = (Ok true, w', [EUrlopen (Harness.reset_request fixture_url) o]))
  /\ (fst (Harness.post_result o) <> 200 ->
      Harness.reset_fixture rt fixture_url w
      = (Ok false, w', [EUrlopen (Harness.reset_request fixture_url) o]))
  /\ (fst (Harness.post_result o) = 200 ->
      (forall d, snd (Harness.post_result o) <> JDict d) ->
      Harness.reset_fixture rt fixture_url w
      = (Raised AttributeError, w', [EUrlopen (Harness.reset_request fixture_url) o])).
Proof.
  intros Hcall. unfold Harness.reset_fixture, Harness.reset_request in *.
  rewrite harness_http_post_runs, Hcall. split; [|split].
  - intros hash_password next_id db ->. reflexivity.
  - intros Hne. destruct (Harness.post_result o) as [status body]. cbn [fst] in Hne.
    apply Z.eqb_neq in Hne. now rewrite Hne.
  - intros H200 Hbody. destruct (Harness.post_result o) as [status body].
    cbn [fst snd] in *. subst status. cbn [Z.eqb Pos.eqb].
    rewrite bind_lift.
    destruct body; try reflexivity. exfalso. exact (Hbody _ eq_refl).
Qed.

(** X28: [run_smoke_test] makes one POST to /smoke-test of the browser
    agent, for the seed user and the five features of the harness, and its
    result follows the status.  Status 0 gives overall "error" -- not the
    "skipped" of the driver -- with the client's message; any other status
    outside [200,300) gives overall "error" with "HTTP <status>" and the
    body as detail; a 2xx body of the documented shape gives the object
    under "smokeTestResults" when that key is there (the body itself
    otherwise), as it came: no field is added to it. *)
Theorem harness_smoke_result (fixture_url browser_agent_url : string) (w w' : W)
  (o : urlopen_outcome) :
  urlopen rt (Harness.smoke_request fixture_url browser_agent_url) w = (o, w') ->
  valid_outcome o ->
  exists r,
    Harness.run_smoke_test rt fixture_url browser_agent_url w
    = (r, w', [EUrlopen (Harness.smoke_request fixture_url browser_agent_url) o])
    /\ (fst (Harness.post_result o) = 0 ->
        exists msg,
          snd (Harness.post_result o) = JDict [("error", JStr msg)]
          /\ r = Ok [("overall", JStr "error");
                     ("error", JStr ("Browser agent unreachable: " ++ msg))])
    /\ (fst (Harness.post_result o) <> 0 ->
        fst (Harness.post_result o) < 200 \/ fst (Harness.post_result o) >= 300 ->
        r = Ok [("overall", JStr "error");
                ("error", JStr ("HTTP " ++ str_of_Z (fst (Harness.post_result o))));
                ("detail", snd (Harness.post_result o))])
    /\ (200 <= fst (Harness.post_result o) < 300 ->
        forall top inner,
          snd (Harness.post_result o) = JDict top ->
          smoke_part top inner ->
          documented_smoke inner ->
          r = Ok inner).
Proof.
  intros Hcall Hvalid. unfold Harness.run_smoke_test, Harness.smoke_request in *.
  rewrite harness_http_post_runs, Hcall.
  destruct (get_result_status o Hvalid) as [_ Hzero].
  rewrite <- harness_post_is_driver_get in Hzero.
  destruct (Harness.post_result o) as [status body]. cbn [fst snd] in *.
  unfold lift, ret, raise, after.
  exists (Harness.smoke_result rt status body).
  split; [now destruct (Harness.smoke_result rt status body)|].
  unfold Harness.smoke_result. split; [|split].
  - intros H0. destruct (Hzero H0) as [msg ->]. exists msg. split; [reflexivity|].
    subst status. reflexivity.
  - intros Hne Hout. apply Z.eqb_neq in Hne. apply not_2xx_spec in Hout.
    now rewrite Hne, Hout.
  - intros H2 top inner -> Hpart Hdoc.
    assert (Hne : (status =? 0) = false) by (apply Z.eqb_neq; lia).
    apply is_2xx_spec in H2. rewrite Hne, not_2xx_is_2xx, H2. cbn [negb get and_then].
    assert (Hinner : get_or "smokeTestResults" (JDict top) top = JDict inner).
    { unfold get_or. destruct Hpart as [-> | [-> ->]]; reflexivity. }
    rewrite Hinner. cbn [get and_then]. now rewrite (log_smoke_documented inner Hdoc).
Qed.

End HarnessRuns.

(** X29: the harness and the fixture agree on the seed user.  The
    credentials [run_smoke_test] sends to the browser agent are those of the
    user [admin_reset] leaves in the table: after a reset, from whatever
    state, the fixture answers a login with them 200, for the seed user
    (when [verify_password] accepts a password against its own hash). *)
Theorem harness_credentials_log_in
  (hash_password : string -> string) (verify_password : string -> string -> bool)
  (create_token : Z -> string -> string) (next_id : list Fixture.User -> Z)
  (db : Fixture.Tables) (fixture_url : string) :
  verify_password Fixture.SEED_PASSWORD (hash_password Fixture.SEED_PASSWORD) = true ->
  exists request email password seed,
    Harness.smoke_data fixture_url = JDict request
    /\ lookup "url" request = Some (JStr fixture_url)
    /\ lookup "credentials" request
       = Some (JDict [("email", JStr email); ("password", JStr password)])
    /\ Fixture.users (fst (Fixture.admin_reset hash_password next_id db)) = [seed]
    /\ Fixture.email seed = email
    /\ Fixture.login verify_password create_token
         (Fixture.users (fst (Fixture.admin_reset hash_password next_id db)))
         {| Fixture.login_email := email; Fixture.login_password := password |}
       = Fixture.Reply 200
           (JDict [("user", Fixture.user_response seed);
                   ("token", JStr (create_token (Fixture.id seed)
                                     (Fixture.email seed)))]).
Proof.
  intros Hverify. do 4 eexists. split; [reflexivity|]. split; [reflexivity|].
  split; [reflexivity|]. split; [reflexivity|]. split; [reflexivity|].
  unfold Fixture.login, Fixture.first_by_email. cbn.
  change Harness.SEED_PASSWORD with Fixture.SEED_PASSWORD.
  rewrite Hverify. reflexivity.
Qed.

(** ** The further properties on scripted worlds and sample tables *)

Lemma login_failure_stops_flow_witness :
  exists result,
    run_auth_test (scripted (codespace_run [registered; me_unauthorized])) 0%nat
    = (Ok result, 2%nat,
       [EClock 1700000000; EUrlopen (register_request 1700000000) registered;
        EUrlopen (login_request 1700000000) me_unauthorized])
    /\ lookup "success" result = Some (JBool false)
    /\ lookup "error" result = Some (JStr "Login failed (HTTP 401)")
    /\ lookup "token_verified" result = None.
Proof.
  apply (login_failure_stops_flow (scripted (codespace_run [registered; me_unauthorized]))
           0%nat 0%nat 1%nat 2%nat 1700000000 registered me_unauthorized).
  - reflexivity.
  - reflexivity.
  - simpl. lia.
  - reflexivity.
  - simpl. lia.
Defined.

Lemma credentials_saved_iff_success_witness :
  exists tr0,
    snd (run_auth_test (scripted (codespace_run [registered; logged_in; me_unauthorized]))
           0%nat)
    = tr0 ++ [saved_credentials 1700000000]
    /\ forall path v, ~ In (EDump path v) tr0.
Proof.
  pose (run := run_auth_test
                 (scripted (codespace_run [registered; logged_in; me_unauthorized]))
                 0%nat).
  destruct (credentials_saved_iff_success
              (scripted (codespace_run [registered; logged_in; me_unauthorized]))
              0%nat (snd (fst run)) (fst (fst run)) (snd run) eq_refl)
    as (_ & Hiff & Hlast).
  apply Hlast, Hiff. eexists. split; reflexivity.
Defined.

Lemma auth_result_fields_witness :
  lookup "email"
    (auth_result false 1700000000
       [("register", JDict [("status", JInt 409);
                            ("response",
                             JDict [("detail", JStr "Email already registered")])])]
       [("error", JStr "Registration failed (HTTP 409)")])
  = Some (JStr "qa-tester-1700000000@test.example.com").
Proof.
  apply (auth_result_fields (scripted (codespace_run [second_registration]))
           0%nat 1%nat _
           [EClock 1700000000;
            EUrlopen (register_request 1700000000) second_registration]).
  reflexivity.
Defined.

Lemma auth_flow_raises_on_login_body_only_witness :
  exists w' tr,
    run_auth_test (scripted (codespace_run [registered; logged_in_with_a_list])) 0%nat
    = (Raised AttributeError, w', tr)
    /\ length tr = 3%nat.
Proof.
  do 2 eexists. split; [reflexivity|].
  destruct (auth_flow_raises_on_login_body_only
              (scripted (codespace_run [registered; logged_in_with_a_list]))
              0%nat _ _ _ eq_refl) as (_ & now & o1 & o2 & Htr & _).
  rewrite Htr. reflexivity.
Defined.

Lemma client_status_and_body_witness :
  exists reason body,
    me_unauthorized = HTTPError 401 reason body
    /\ (body = Decoded (JDict [("detail", JStr "Invalid token")])
        \/ (forall v, body <> Decoded v)).
Proof.
  destruct (client_status_and_body me_unauthorized (get_result me_unauthorized))
    as [[H0 _]|[[H2 _]|(_ & _ & reason & body & Ho & Hb)]].
  - simpl. lia.
  - right. reflexivity.
  - discriminate H0.
  - simpl in H2. lia.
  - exists reason, body. split; [exact Ho|].
    destruct Hb as [Hb|[Hb _]]; [left; exact Hb | right; exact Hb].
Defined.

Lemma ports_need_a_codespace_witness :
  make_ports_public (scripted outside_codespace) 0%nat
  = (Ok [("success", JBool false);
         ("error", JStr "CODESPACE_NAME env var not set -- not in a codespace?")],
     0%nat, [EEnviron "CODESPACE_NAME" None]).
Proof.
  apply (ports_need_a_codespace (scripted outside_codespace) 0%nat 0%nat None).
  - reflexivity.
  - left. reflexivity.
Defined.

Lemma ports_published_iff_gh_completes_witness :
  exists ports,
    make_ports_public (scripted (codespace_run [])) 0%nat
    = (Ok ports, 0%nat,
       [EEnviron "CODESPACE_NAME" (Some "cs");
        ESubprocess ["gh"; "codespace"; "ports"; "visibility"; "8000:public";
                     "3000:public"; "-c"; "cs"] 15 Completed])
    /\ ports = [("success", JBool true);
                ("frontend_url", JStr "https://cs-3000.app.github.dev/login")].
Proof.
  destruct (ports_published_iff_gh_completes (scripted (codespace_run []))
              0%nat 0%nat 0%nat "cs" Completed)
    as (r & Hrun & _ & Hhandled).
  - reflexivity.
  - discriminate.
  - reflexivity.
  - destruct Hhandled as (ports & -> & _ & Hok & _); [discriminate|].
    exists ports. split; [exact Hrun | exact (Hok eq_refl)].
Defined.

Lemma probe_sleeps_at_most_40_witness :
  exists w' tr,
    wake_loop (scripted (codespace_run [connection_refused; connection_refused;
                                        agent_up]))
      (range WAKE_RETRIES) 0%nat
    = (Ok true, w', tr)
    /\ slept tr <= 40
    /\ (length (http_statuses tr) <= 4)%nat.
Proof.
  assert (Hvalid : statuses_valid
                     (scripted (codespace_run [connection_refused; connection_refused;
                                               agent_up]))).
  { apply scripted_statuses_valid. repeat constructor; simpl; lia. }
  do 2 eexists. split; [reflexivity|].
  destruct (probe_sleeps_at_most_40
              (scripted (codespace_run [connection_refused; connection_refused;
                                        agent_up]))
              0%nat _ _ _ Hvalid eq_refl)
    as (Hslept & Hcalls & _).
  split; [exact Hslept | exact Hcalls].
Defined.

Lemma service_reachable_follows_status_witness :
  exists smoke w' tr,
    call_browser_agent (scripted (codespace_run [connection_refused]))
      (JStr "https://cs-3000.app.github.dev/login") (JStr (qa_email 1700000000))
      (JStr qa_password) [] 0%nat
    = (Ok smoke, w', tr)
    /\ lookup "service_reachable" smoke = Some (JBool false).
Proof.
  do 3 eexists. split; [reflexivity|].
  destruct (service_reachable_follows_status
              (scripted (codespace_run [connection_refused]))
              (JStr "https://cs-3000.app.github.dev/login") (JStr (qa_email 1700000000))
              (JStr qa_password) [] 0%nat _ _ _ eq_refl) as (o & Htr & Hflag).
  inversion Htr; subst. exact Hflag.
Defined.

Lemma failed_probe_skips_invocation_witness :
  fst (fst (main (scripted (codespace_run
                              [connection_refused; connection_refused;
                               connection_refused; connection_refused;
                               registered; logged_in; me_unauthorized])) 0%nat))
  = Ok 0
  /\ forall data timeout o,
       ~ In (EUrlopen (POST smoke_url data timeout) o)
           (snd (main (scripted (codespace_run
                                   [connection_refused; connection_refused;
                                    connection_refused; connection_refused;
                                    registered; logged_in; me_unauthorized])) 0%nat)).
Proof.
  split; [reflexivity|].
  pose (rt := scripted (codespace_run
                          [connection_refused; connection_refused;
                           connection_refused; connection_refused;
                           registered; logged_in; me_unauthorized])).
  apply (failed_probe_skips_invocation rt 0%nat 0%nat 4%nat
           (snd (fst (main rt 0%nat))) "2023-11-14T22:13:20Z"
           (snd (wake_loop rt (range WAKE_RETRIES) 0%nat))
           (snd (main rt 0%nat)) (fst (fst (main rt 0%nat)))).
  - reflexivity.
  - reflexivity.
  - reflexivity.
Defined.

Lemma invocation_carries_earlier_results_witness :
  exists ports w2 tp,
    make_ports_public (scripted (codespace_run [agent_passed])) 0%nat
    = (Ok ports, w2, tp)
    /\ lookup "frontend_url" ports = Some (JStr "https://cs-3000.app.github.dev/login").
Proof.
  pose (rt := scripted (codespace_run [agent_passed])).
  pose (run := stages rt [] false sample_auth 0%nat).
  destruct (invocation_carries_earlier_results rt [] sample_auth 0%nat
              (snd (fst run)) (fst (fst run)) (snd run)
              (smoke_request (JStr "https://cs-3000.app.github.dev/login")
                 (JStr (qa_email 1700000000)) (JStr qa_password) [])
              agent_passed eq_refl)
    as (w1 & ports & w2 & tp & features & w3 & tf & url & email & password
        & _ & _ & _ & Hdir & Hports & _ & Hurl & _ & Hreq & _).
  - simpl. tauto.
  - inversion Hdir; subst. exists ports, w2, tp. split; [exact Hports|].
    inversion Hreq; subst. exact Hurl.
Defined.

Lemma exit_code_sound_witness :
  exists pre final,
    snd (main (scripted full_run) 0%nat)
    = pre ++ [EDump RESULTS_FILE (JDict final); EStdout (JDict final)]
    /\ lookup "exit_code" final = Some (JInt 0).
Proof.
  destruct (exit_code_sound (scripted full_run) 0%nat
              (snd (fst (main (scripted full_run) 0%nat))) 0
              (snd (main (scripted full_run) 0%nat)) eq_refl)
    as (pre & final & auth & success & Htr & Hcode & _).
  exists pre, final. split; [exact Htr | exact Hcode].
Defined.

Lemma register_keeps_emails_unique_witness :
  NoDup (map Fixture.email
           (fst (Fixture.register sample_hash sample_token next_key [alice; bob]
                   qa_register_body))).
Proof.
  apply (register_keeps_emails_unique sample_hash sample_token next_key [alice; bob]
           qa_register_body).
  repeat constructor; simpl; intuition discriminate.
Defined.

Lemma register_then_login_witness :
  exists user,
    Fixture.login sample_verify sample_token
      (fst (Fixture.register sample_hash sample_token next_key [alice; bob]
              qa_register_body))
      {| Fixture.login_email := qa_email 1700000000;
         Fixture.login_password := qa_password |}
    = Fixture.Reply 200 (JDict [("user", Fixture.user_response user);
                                ("token", JStr (sample_token (Fixture.id user)
                                                  (Fixture.email user)))])
    /\ Fixture.id user = 3.
Proof.
  destruct (register_then_login sample_hash sample_verify sample_token next_key
              [alice; bob] qa_register_body eq_refl)
    as (user & Hdb & _ & _ & Hlogin).
  exists user. split; [exact (Hlogin qa_password)|]. inversion Hdb; subst. reflexivity.
Defined.

Lemma registration_leaves_other_logins_witness :
  Fixture.login sample_verify sample_token
    (fst (Fixture.register sample_hash sample_token next_key [alice; bob]
            alice_registers))
    {| Fixture.login_email := "alice@example.com";
       Fixture.login_password := "wonderland" |}
  = Fixture.login sample_verify sample_token [alice; bob]
      {| Fixture.login_email := "alice@example.com";
         Fixture.login_password := "wonderland" |}.
Proof.
  apply (registration_leaves_other_logins sample_hash sample_verify sample_token
           next_key [alice; bob] alice_registers).
  left. discriminate.
Defined.

Lemma display_name_falls_back_witness :
  exists user,
    fst (Fixture.register sample_hash sample_token next_key [] alice_registers) = [user]
    /\ Fixture.display_name user = "alice".
Proof.
  apply (display_name_falls_back sample_hash sample_token next_key [] alice_registers
           "alice" "example.com").
  - reflexivity.
  - reflexivity.
  - simpl. intuition discriminate.
Defined.

Lemma reset_leaves_the_seed_user_witness :
  exists seed,
    fst (Fixture.admin_reset sample_hash next_key sample_tables)
    = {| Fixture.users := [seed]; Fixture.projects := []; Fixture.tasks := [] |}
    /\ Fixture.email seed = Fixture.SEED_EMAIL.
Proof.
  destruct (reset_leaves_the_seed_user sample_hash sample_verify sample_token next_key
              sample_tables eq_refl) as (seed & Hdb & Hemail & _).
  exists seed. split; [exact Hdb | exact Hemail].
Defined.

Lemma projects_are_private_witness :
  Fixture.get_project sample_tables 1 bob = Fixture.project_not_found
  /\ Fixture.delete_project sample_tables 1 bob
     = (sample_tables, Fixture.project_not_found).
Proof.
  destruct (projects_are_private sample_tables alices_project bob)
    as (Hget & Hdelete & _).
  - repeat constructor. simpl. tauto.
  - simpl. tauto.
  - discriminate.
  - split; [exact Hget | exact Hdelete].
Defined.

Lemma created_project_is_found_witness :
  exists project,
    snd (Fixture.create_project next_key sample_tables
           {| Fixture.pc_name := "Kitchen"; Fixture.pc_description := "";
              Fixture.pc_color := "#3b82f6" |} bob)
    = Fixture.Reply 201 (Fixture.project_response project)
    /\ Fixture.p_id project = 2
    /\ Fixture.get_project
         (fst (Fixture.create_project next_key sample_tables
                 {| Fixture.pc_name := "Kitchen"; Fixture.pc_description := "";
                    Fixture.pc_color := "#3b82f6" |} bob))
         2 alice
       = Fixture.project_not_found.
Proof.
  destruct (created_project_is_found next_key sample_tables
              {| Fixture.pc_name := "Kitchen"; Fixture.pc_description := "";
                 Fixture.pc_color := "#3b82f6" |} bob)
    as (project & Hcreate & _ & _ & _ & Hother).
  - intros p [<-|[]]. discriminate.
  - exists project. rewrite Hcreate. split; [reflexivity|].
    assert (Hid : Fixture.p_id project = 2) by (inversion Hcreate; reflexivity).
    split; [exact Hid|]. rewrite <- Hid, <- Hcreate. apply Hother. discriminate.
Defined.

Lemma deleted_project_is_gone_witness :
  Fixture.get_project sample_tables 1 alice
  = Fixture.Reply 200 (Fixture.project_response alices_project)
  /\ Fixture.get_project (fst (Fixture.delete_project sample_tables 1 alice)) 1 alice
     = Fixture.project_not_found.
Proof.
  split; [reflexivity|].
  apply (deleted_project_is_gone sample_tables 1 alice). reflexivity.
Defined.

Lemma delete_project_takes_its_tasks_witness :
  Fixture.get_task (fst (Fixture.delete_project sample_tables 1 alice)) 1 bob
  = Fixture.task_not_found
  /\ Fixture.get_task sample_tables 1 bob = Fixture.Reply 200 (Fixture.task_response bobs_task).
Proof.
  split; [|reflexivity].
  apply (delete_project_takes_its_tasks sample_tables 1 alice); [reflexivity|].
  intros t [<-|[]] _. reflexivity.
Defined.

Lemma task_round_trip_witness :
  exists task created,
    Fixture.create_task next_key sample_tables
      {| Fixture.tc_title := "Prune"; Fixture.tc_project_id := Some 1;
         Fixture.tc_status := "todo" |} bob
    = (created, Fixture.Reply 201 (Fixture.task_response task))
    /\ Fixture.t_project_id task = Some 1
    /\ Fixture.get_task created (Fixture.t_id task) bob
       = Fixture.Reply 200 (Fixture.task_response task).
Proof.
  destruct (task_round_trip next_key sample_tables
              {| Fixture.tc_title := "Prune"; Fixture.tc_project_id := Some 1;
                 Fixture.tc_status := "todo" |} bob)
    as (task & created & Hcreate & _ & Hlink & Hget & _).
  - intros t [<-|[]]. discriminate.
  - exists task, created. split; [exact Hcreate|]. split; [exact Hlink | exact Hget].
Defined.

Lemma reset_fixture_needs_200_witness :
  Harness.reset_fixture
    (scripted (codespace_run
                 [Fixture.on_the_wire
                    (snd (Fixture.admin_reset sample_hash next_key sample_tables))]))
    "http://localhost:8000" 0%nat
  = (Ok true, 1%nat,
     [EUrlopen (Harness.reset_request "http://localhost:8000")
        (Response 200
           (Decoded (JDict [("ok", JBool true);
                            ("seed_user", JStr "test@fixture.example.com")])))]).
Proof.
  destruct (reset_fixture_needs_200
              (scripted (codespace_run
                           [Fixture.on_the_wire
                              (snd (Fixture.admin_reset sample_hash next_key
                                      sample_tables))]))
              "http://localhost:8000" 0%nat 1%nat
              (Fixture.on_the_wire
                 (snd (Fixture.admin_reset sample_hash next_key sample_tables)))
              eq_refl) as (Hfixture & _).
  exact (Hfixture sample_hash next_key sample_tables eq_refl).
Defined.

Lemma harness_smoke_result_witness :
  exists r,
    Harness.run_smoke_test (scripted (codespace_run [agent_passed]))
      "http://localhost:8000" BROWSER_AGENT_URL 0%nat
    = (r, 1%nat,
       [EUrlopen (Harness.smoke_request "http://localhost:8000" BROWSER_AGENT_URL)
          agent_passed])
    /\ r = Ok passed_results.
Proof.
  destruct (harness_smoke_result (scripted (codespace_run [agent_passed]))
              "http://localhost:8000" BROWSER_AGENT_URL 0%nat 1%nat agent_passed
              eq_refl)
    as (r & Hrun & _ & _ & Hok).
  - simpl. lia.
  - exists r. split; [exact Hrun|].
    apply (Hok (conj (Z.le_refl 200) eq_refl) passed_body passed_results eq_refl).
    + left. reflexivity.
    + exact passed_results_documented.
Defined.

Lemma harness_credentials_log_in_witness :
  exists seed,
    Fixture.login sample_verify sample_token
      (Fixture.users (fst (Fixture.admin_reset sample_hash next_key sample_tables)))
      {| Fixture.login_email := Harness.SEED_EMAIL;
         Fixture.login_password := Harness.SEED_PASSWORD |}
    = Fixture.Reply 200
        (JDict [("user", Fixture.user_response seed);
                ("token", JStr (sample_token (Fixture.id seed) (Fixture.email seed)))])
    /\ Fixture.id seed = 1.
Proof.
  destruct (harness_credentials_log_in sample_hash sample_verify sample_token next_key
              sample_tables "http://localhost:8000" eq_refl)
    as (request & email & password & seed & Hdata & _ & Hcred & Hseed & _ & Hlogin).
  inversion Hdata; subst request. inversion Hcred; subst email password.
  inversion Hseed; subst seed. eexists. split; [exact Hlogin | reflexivity].
Defined.
